(** * Clunk: a limit order book fed by a Coinbase market-data stream

    A shallow embedding of [src/orderbook/order.h], [price_level.cpp],
    [order_book.cpp], of the message handling in
    [src/feed_handlers/coinbase_handler.cpp] and of
    [ConsoleVisualizer::calculateHFTMetrics], together with the properties
    the specification states about them; then of the frames and the
    handshake key of [src/network/websocket_client.cpp] and of the change
    highlighting of the visualizer, with further properties of all of
    these.

    Modelling conventions.
    - [double] is modelled by the exact rationals [Qc]: comparison, addition,
      subtraction, multiplication and division are the exact ones, so
      rounding, infinities and NaN are outside the model.
    - [std::shared_ptr<Order>] is an address into a heap of orders; a price
      level and the book's id index hold the same address, so a size written
      through one is read through the other.  A null or dangling address
      makes an operation undefined ([None]).
    - [std::unordered_map<std::string, _>] is a [gmap string _];
      [std::map<double, _, Compare>] is an association list kept in the
      order of [Compare].
    - Every [OrderBook] method takes the book's mutex for its whole body, so
      a method is one atomic state transformer. *)

From Stdlib Require Import ZArith QArith Qcanon String Ascii DecimalString.
From stdpp Require Import base numbers option list gmap strings fin_maps.

Local Open Scope Qc_scope.

(** ** Numbers *)

Abbreviation double := Qc (only parsing).

(** [std::numeric_limits<double>::epsilon()] and [::max()]. *)
Definition DBL_EPSILON : double := Q2Qc (1 # (2 ^ 52)).
Definition DBL_MAX : double := Q2Qc ((2 ^ 1024 - 2 ^ 971) # 1).

(** [std::abs] on doubles. *)
Definition fabs (x : double) : double :=
  if bool_decide (x < 0) then - x else x.

(** ** order.h *)

Inductive OrderSide : Set := BUY | SELL.

Global Instance OrderSide_eq_dec : EqDecision OrderSide.
Proof. solve_decision. Defined.

Module Order.

Record t : Type := make {
  id_ : string;
  side_ : OrderSide;
  price_ : double;
  size_ : double;
  timestamp_ : Z
}.

Definition setSize (self : t) (size : double) : t :=
  make (id_ self) (side_ self) (price_ self) size (timestamp_ self).

(** [Order::reduceSize]: the order after the call and the returned flag. *)
Definition reduceSize (self : t) (amount : double) : t * bool :=
  if bool_decide (amount ≤ 0) || bool_decide (size_ self < amount)
  then (self, false)
  else (setSize self (size_ self - amount), true).

End Order.

(** ** The heap of orders behind the shared pointers *)

Abbreviation addr := nat (only parsing).
Abbreviation heap := (list Order.t) (only parsing).

(** [std::make_shared<Order>(...)]: the new order lives at the next address. *)
Definition make_shared (h : heap) (o : Order.t) : heap * addr :=
  (h ++ [o], length h).

(** ** price_level.h, price_level.cpp *)

Module PriceLevel.

Record t : Type := make {
  price_ : double;
  total_size_ : double;
  orders_ : gmap string addr
}.

(** [PriceLevel::PriceLevel(double price)] *)
Definition new (price : double) : t := make price 0 ∅.

Definition getPrice (self : t) : double := price_ self.
Definition getTotalSize (self : t) : double := total_size_ self.
Definition getOrderCount (self : t) : nat := size (orders_ self).
Definition isEmpty (self : t) : bool := bool_decide (orders_ self = ∅).

Definition addOrder (h : heap) (self : t) (order : addr) : option (t * bool) :=
  o ← h !! order;
  if bool_decide (DBL_EPSILON < fabs (Order.price_ o - price_ self))
  then Some (self, false)
  else match orders_ self !! Order.id_ o with
       | Some _ => Some (self, false)
       | None =>
           Some (make (price_ self)
                      (total_size_ self + Order.size_ o)
                      (<[Order.id_ o := order]> (orders_ self)), true)
       end.

Definition removeOrder (h : heap) (self : t) (order_id : string)
  : option (t * bool) :=
  match orders_ self !! order_id with
  | None => Some (self, false)
  | Some a =>
      o ← h !! a;
      Some (make (price_ self)
                 (total_size_ self - Order.size_ o)
                 (delete order_id (orders_ self)), true)
  end.

(** [updateOrder] writes the new size through the shared pointer, so the
    heap changes as well as the level. *)
Definition updateOrder (h : heap) (self : t) (order_id : string)
    (new_size : double) : option (heap * t * bool) :=
  match orders_ self !! order_id with
  | None => Some (h, self, false)
  | Some a =>
      o ← h !! a;
      let old_size := Order.size_ o in
      Some (<[a := Order.setSize o new_size]> h,
            make (price_ self)
                 (total_size_ self - old_size + new_size)
                 (orders_ self), true)
  end.


(** *** Sequences of level operations *)

Inductive op : Type :=
| Add (order : addr)
| Remove (order_id : string)
| Update (order_id : string) (new_size : double).

Definition step (s : heap * t) (o : op) : option (heap * t) :=
  match o with
  | Add order => r ← addOrder s.1 s.2 order; Some (s.1, r.1)
  | Remove order_id => r ← removeOrder s.1 s.2 order_id; Some (s.1, r.1)
  | Update order_id new_size =>
      r ← updateOrder s.1 s.2 order_id new_size; Some (r.1.1, r.1.2)
  end.

Fixpoint run (s : heap * t) (ops : list op) : option (heap * t) :=
  match ops with
  | [] => Some s
  | o :: ops' => s' ← step s o; run s' ops'
  end.

(** The size of the order an address points to (0 for a dangling one). *)
Definition size_at (h : heap) (a : addr) : double :=
  from_option Order.size_ 0 (h !! a).

(** Σ of the sizes of the orders stored at the level. *)
Definition sum_sizes (h : heap) (self : t) : double :=
  map_fold (λ _ a acc, acc + size_at h a) 0 (orders_ self).

(** Every stored pointer is live and is filed under its order's id. *)
Definition wf (h : heap) (self : t) : Prop :=
  ∀ id a, orders_ self !! id = Some a →
    ∃ o, h !! a = Some o ∧ Order.id_ o = id.

(** An [Add] is given a live pointer. *)
Definition op_ok (h : heap) (o : op) : Prop :=
  match o with
  | Add order => (order < length h)%nat
  | _ => True
  end.

End PriceLevel.

(** ** std::map<double, V, Compare> *)

Module StdMap.
Section ops.
Context {V : Type} (comp : double → double → bool).

(** Keys are equivalent when neither orders before the other. *)
Definition equiv (k1 k2 : double) : bool :=
  negb (comp k1 k2) && negb (comp k2 k1).

Fixpoint find (m : list (double * V)) (k : double) : option V :=
  match m with
  | [] => None
  | (k', v) :: m' => if equiv k k' then Some v else find m' k
  end.

(** [m[k] = v], and equally a write through the iterator [find] gave:
    the entry for [k] gets value [v]; a new entry goes to its place in
    the order. *)
Fixpoint assign (m : list (double * V)) (k : double) (v : V)
  : list (double * V) :=
  match m with
  | [] => [(k, v)]
  | (k', v') :: m' =>
      if comp k k' then (k, v) :: m
      else if comp k' k then (k', v') :: assign m' k v
      else (k', v) :: m'
  end.

Fixpoint erase (m : list (double * V)) (k : double) : list (double * V) :=
  match m with
  | [] => []
  | (k', v') :: m' => if equiv k k' then m' else (k', v') :: erase m' k
  end.

(** Strictly increasing keys in the order of [comp]. *)
Fixpoint sorted (m : list (double * V)) : Prop :=
  match m with
  | [] => True
  | (k, _) :: m' => Forall (λ e, comp k e.1 = true) m' ∧ sorted m'
  end.
End ops.

(** Σ of [f] over the values: the counting loops over a map. *)
Fixpoint total {V : Type} (f : V → nat) (m : list (double * V)) : nat :=
  match m with
  | [] => 0%nat
  | (_, v) :: m' => (f v + total f m')%nat
  end.

(** [std::less<double>] and [std::greater<>]. *)
Definition less (a b : double) : bool := bool_decide (a < b).
Definition greater (a b : double) : bool := bool_decide (b < a).
End StdMap.

(** ** order_book.h, order_book.cpp

    [update_callback_] is an opaque [std::function] that does not touch the
    book; [notifyUpdate] is left out. *)

Module OrderBook.

Record t : Type := make {
  symbol_ : string;
  bid_levels_ : list (double * PriceLevel.t);  (* ordered by std::greater *)
  ask_levels_ : list (double * PriceLevel.t);  (* ordered by std::less *)
  orders_ : gmap string addr
}.

(** [OrderBook::OrderBook(const std::string& symbol)] *)
Definition new (symbol : string) : t := make symbol [] [] ∅.

(** The body both branches of [addOrder] share: get or create the level
    at [price] and add the order to it (the level's answer is dropped). *)
Definition levels_add (comp : double → double → bool) (h : heap)
    (levels : list (double * PriceLevel.t)) (price : double) (order : addr)
  : option (list (double * PriceLevel.t)) :=
  match StdMap.find comp levels price with
  | None =>
      r ← PriceLevel.addOrder h (PriceLevel.new price) order;
      Some (StdMap.assign comp levels price r.1)
  | Some level =>
      r ← PriceLevel.addOrder h level order;
      Some (StdMap.assign comp levels price r.1)
  end.

Definition addOrder (h : heap) (self : t) (order : addr) : option (t * bool) :=
  o ← h !! order;
  match orders_ self !! Order.id_ o with
  | Some _ => Some (self, false)
  | None =>
      let price := Order.price_ o in
      let side := Order.side_ o in
      match side with
      | BUY =>
          bids ← levels_add StdMap.greater h (bid_levels_ self) price order;
          Some (make (symbol_ self) bids (ask_levels_ self)
                     (<[Order.id_ o := order]> (orders_ self)), true)
      | SELL =>
          asks ← levels_add StdMap.less h (ask_levels_ self) price order;
          Some (make (symbol_ self) (bid_levels_ self) asks
                     (<[Order.id_ o := order]> (orders_ self)), true)
      end
  end.

(** The body both branches of [removeOrder] share: take the order out of
    the level at [price], and erase the level if that emptied it. *)
Definition levels_remove (comp : double → double → bool) (h : heap)
    (levels : list (double * PriceLevel.t)) (price : double)
    (order_id : string) : option (list (double * PriceLevel.t)) :=
  match StdMap.find comp levels price with
  | None => Some levels
  | Some level =>
      r ← PriceLevel.removeOrder h level order_id;
      if PriceLevel.isEmpty r.1
      then Some (StdMap.erase comp levels price)
      else Some (StdMap.assign comp levels price r.1)
  end.

Definition removeOrder (h : heap) (self : t) (order_id : string)
  : option (t * bool) :=
  match orders_ self !! order_id with
  | None => Some (self, false)
  | Some order =>
      o ← h !! order;
      let price := Order.price_ o in
      let side := Order.side_ o in
      match side with
      | BUY =>
          bids ← levels_remove StdMap.greater h (bid_levels_ self) price order_id;
          Some (make (symbol_ self) bids (ask_levels_ self)
                     (delete order_id (orders_ self)), true)
      | SELL =>
          asks ← levels_remove StdMap.less h (ask_levels_ self) price order_id;
          Some (make (symbol_ self) (bid_levels_ self) asks
                     (delete order_id (orders_ self)), true)
      end
  end.

(** The body both branches of [modifyOrder] share. *)
Definition levels_update (comp : double → double → bool) (h : heap)
    (levels : list (double * PriceLevel.t)) (price : double)
    (order_id : string) (new_size : double)
  : option (heap * list (double * PriceLevel.t) * bool) :=
  match StdMap.find comp levels price with
  | None => Some (h, levels, false)
  | Some level =>
      r ← PriceLevel.updateOrder h level order_id new_size;
      Some (r.1.1, StdMap.assign comp levels price r.1.2, r.2)
  end.

Definition modifyOrder (h : heap) (self : t) (order_id : string)
    (new_size : double) : option (heap * t * bool) :=
  match orders_ self !! order_id with
  | None => Some (h, self, false)
  | Some order =>
      o ← h !! order;
      let price := Order.price_ o in
      let side := Order.side_ o in
      match side with
      | BUY =>
          r ← levels_update StdMap.greater h (bid_levels_ self) price
                order_id new_size;
          Some (r.1.1,
                make (symbol_ self) r.1.2 (ask_levels_ self) (orders_ self),
                r.2)
      | SELL =>
          r ← levels_update StdMap.less h (ask_levels_ self) price
                order_id new_size;
          Some (r.1.1,
                make (symbol_ self) (bid_levels_ self) r.1.2 (orders_ self),
                r.2)
      end
  end.

Definition getBestBid (self : t) : double :=
  match bid_levels_ self with
  | (price, _) :: _ => price
  | [] => 0
  end.

Definition getBestAsk (self : t) : double :=
  match ask_levels_ self with
  | (price, _) :: _ => price
  | [] => DBL_MAX
  end.

Definition getSpread (self : t) : double :=
  let best_bid := getBestBid self in
  let best_ask := getBestAsk self in
  if bool_decide (0 < best_bid) && bool_decide (best_ask < DBL_MAX)
  then best_ask - best_bid
  else 0.

Definition getMidpointPrice (self : t) : double :=
  let best_bid := getBestBid self in
  let best_ask := getBestAsk self in
  if bool_decide (0 < best_bid) && bool_decide (best_ask < DBL_MAX)
  then (best_bid + best_ask) / 2
  else 0.

Definition getBidLevels (self : t) (depth : nat) : list (double * double) :=
  (λ e, (e.1, PriceLevel.getTotalSize e.2)) <$> take depth (bid_levels_ self).

Definition getAskLevels (self : t) (depth : nat) : list (double * double) :=
  (λ e, (e.1, PriceLevel.getTotalSize e.2)) <$> take depth (ask_levels_ self).

(** [getOrder] hands out the shared pointer ([None] for [nullptr]). *)
Definition getOrder (self : t) (order_id : string) : option addr :=
  orders_ self !! order_id.

Definition getOrderCount (self : t) : nat := size (orders_ self).
Definition getBidLevelCount (self : t) : nat := length (bid_levels_ self).
Definition getAskLevelCount (self : t) : nat := length (ask_levels_ self).

(** [now] is the reading of [system_clock] the new order is stamped with. *)
Definition processL3Update (now : Z) (h : heap) (self : t) (type : string)
    (order_id : string) (side : OrderSide) (price size : double)
  : option (heap * t) :=
  if bool_decide (type = "open") || bool_decide (type = "received") then
    let '(h', order) := make_shared h (Order.make order_id side price size now) in
    r ← addOrder h' self order; Some (h', r.1)
  else if bool_decide (type = "match") || bool_decide (type = "change") then
    r ← modifyOrder h self order_id size; Some (r.1.1, r.1.2)
  else if bool_decide (type = "done") then
    r ← removeOrder h self order_id; Some (h, r.1)
  else Some (h, self).

(** Modelled from the spec: [OrderBook::clear] is declared in
    [order_book.h] and called by the ticker handler, but its body is not
    part of the sources.  The specification's contract for [clear()] is
    "removes all state". *)
Definition clear (self : t) : t := make (symbol_ self) [] [] ∅.

End OrderBook.

(** ** nlohmann::json, as far as the handler uses it *)

(** What evaluating an expression gives: a value, a C++ exception, or
    undefined behaviour. *)
Inductive result (A : Type) : Type :=
| Ok (a : A)
| Throw
| Undefined.
Arguments Ok {A} a.
Arguments Throw {A}.
Arguments Undefined {A}.

Definition result_bind {A B : Type} (r : result A) (f : A → result B) : result B :=
  match r with
  | Ok a => f a
  | Throw => Throw
  | Undefined => Undefined
  end.

Notation "x ←ᵣ r ; k" := (result_bind r (λ x, k))
  (at level 20, r at level 100, k at level 200, only parsing, right associativity).

Module Json.

#[local] Unset Elimination Schemes.
Inductive t : Type :=
| Null
| Bool (b : bool)
| Int (n : Z)
| Float (x : double)
| String (s : string)
| Array (items : list t)
| Object (fields : list (string * t)).
#[local] Set Elimination Schemes.

Fixpoint assoc (fields : list (string * t)) (key : string) : option t :=
  match fields with
  | [] => None
  | (k, v) :: fields' => if bool_decide (k = key) then Some v else assoc fields' key
  end.

(** [j.contains(key)] *)
Definition contains (j : t) (key : string) : bool :=
  match j with
  | Object fields => bool_decide (is_Some (assoc fields key))
  | _ => false
  end.

(** [j[key]] on a [const json&]: a missing key is undefined behaviour, a
    value that is not an object throws [type_error]. *)
Definition at_key (j : t) (key : string) : result t :=
  match j with
  | Object fields =>
      match assoc fields key with
      | Some v => Ok v
      | None => Undefined
      end
  | _ => Throw
  end.

(** [j[key]] on a non-const [json]: a missing key is inserted as null. *)
Definition at_key_mut (j : t) (key : string) : result t :=
  match j with
  | Object fields => Ok (default Null (assoc fields key))
  | Null => Ok Null
  | _ => Throw
  end.

(** [j[i]] on a [const json&]. *)
Definition at_index (j : t) (i : nat) : result t :=
  match j with
  | Array items =>
      match items !! i with
      | Some v => Ok v
      | None => Undefined
      end
  | _ => Throw
  end.

(** [j.get<std::string>()], and the implicit conversion to [std::string]. *)
Definition get_string (j : t) : result string :=
  match j with
  | String s => Ok s
  | _ => Throw
  end.

Definition is_string (j : t) : bool :=
  match j with String _ => true | _ => false end.

Definition is_number (j : t) : bool :=
  match j with Int _ | Float _ => true | _ => false end.

(** [j.size()] *)
Definition size (j : t) : nat :=
  match j with
  | Null => 0
  | Array items => length items
  | Object fields => length fields
  | _ => 1
  end.

(** The elements a range-for over [j] visits. *)
Definition items (j : t) : list t :=
  match j with
  | Null => []
  | Array items => items
  | Object fields => snd <$> fields
  | _ => [j]
  end.

(** [j.get<double>()] and [j.get<int64_t>()] of a number. *)
Definition get_double (j : t) : result double :=
  match j with
  | Int n => Ok (Q2Qc (inject_Z n))
  | Float x => Ok x
  | _ => Throw
  end.

Definition wrap_int64 (n : Z) : Z :=
  ((n + 2 ^ 63) `mod` 2 ^ 64 - 2 ^ 63)%Z.

Definition get_int64 (j : t) : result Z :=
  match j with
  | Int n => Ok (wrap_int64 n)
  | Float x => Ok (wrap_int64 (Qnum (this x) `quot` Zpos (Qden (this x))))
  | _ => Throw
  end.

End Json.

(** [std::to_string] of an [int64_t]. *)
Definition to_string (n : Z) : string := NilZero.string_of_int (Z.to_int n).

(** ** coinbase_handler.h, coinbase_handler.cpp (the level2/ticker version)

    [verbose_logging_] only switches printing and is left out, and the
    handler's own mutex guards only the lookup of a book. *)

Module CoinbaseHandler.

Record t : Type := make {
  heap_ : heap;
  order_books_ : gmap string OrderBook.t
}.

(** How a [process...] call ends: it returns, an exception leaves it, or
    its behaviour is undefined; the first two with the state they left. *)
Inductive outcome : Type :=
| Returned (st : t)
| Thrown (st : t)
| Undef.

(** [try { body } catch (const std::exception&) { log }] *)
Definition try_catch (body : outcome) : outcome :=
  match body with
  | Thrown st => Returned st
  | _ => body
  end.

Definition getOrderBook (self : t) (symbol : string) : option OrderBook.t :=
  order_books_ self !! symbol.

Definition convertOrderSide (side : string) : OrderSide :=
  if bool_decide (side = "buy") then BUY else SELL.

(** The request [subscribe] and [unsubscribe] build: the JSON value whose
    dump is handed to [ws_client_->send]. *)
Definition subscription (type symbol : string) (channels : list string) : Json.t :=
  Json.Object [("type", Json.String type);
               ("product_ids", Json.Array [Json.String symbol]);
               ("channels", Json.Array (Json.String <$> channels))].

(** [subscribe] and [unsubscribe]; [connected] is what [isConnected()]
    answers.  The result is the state and the request sent, if one is. *)
Definition subscribe (connected : bool) (self : t) (symbol : string)
  : t * option Json.t :=
  if negb connected then (self, None)
  else
    let order_books :=
      match order_books_ self !! symbol with
      | None => <[symbol := OrderBook.new symbol]> (order_books_ self)
      | Some _ => order_books_ self
      end in
    (make (heap_ self) order_books,
     Some (subscription "subscribe" symbol ["level2"; "ticker"; "heartbeat"])).

Definition unsubscribe (connected : bool) (self : t) (symbol : string)
  : t * option Json.t :=
  if negb connected then (self, None)
  else
    (make (heap_ self) (delete symbol (order_books_ self)),
     Some (subscription "unsubscribe" symbol ["level2"; "heartbeat"; "ticker"])).

(** A call of a method of the book [symbol] names, on the handler's state. *)
Definition on_book (self : t) (symbol : string)
    (call : heap → OrderBook.t → option (heap * OrderBook.t)) : outcome :=
  match order_books_ self !! symbol with
  | None => Undef
  | Some book =>
      match call (heap_ self) book with
      | None => Undef
      | Some (h, book') => Returned (make h (<[symbol := book']> (order_books_ self)))
      end
  end.

(** [order_book->addOrder(std::make_shared<Order>(id, side, price, size, now))] *)
Definition add_new_order (now : Z) (order_id : string) (side : OrderSide)
    (price size : double) (h : heap) (book : OrderBook.t)
  : option (heap * OrderBook.t) :=
  let '(h', order) := make_shared h (Order.make order_id side price size now) in
  r ← OrderBook.addOrder h' book order; Some (h', r.1).

Section handler.

(** [std::stod]: [None] when it throws. *)
Variable stod : string → option double.
(** The readings of [system_clock::now()]: the order built when [n] orders
    have been allocated is stamped [clock n]. *)
Variable clock : nat → Z.
(** [processL2Update] calls [removeOrdersByPrice], [getOrdersByPrice] and
    [updateOrderSize], which [order_book.h] does not declare; it is taken
    as given. *)
Variable processL2Update : t → Json.t → outcome.

Definition stod_result (s : string) : result double :=
  match stod s with
  | Some x => Ok x
  | None => Throw
  end.

(** A string field and a numeric field of a message. *)
Definition string_field (j : Json.t) (key : string) : result string :=
  v ←ᵣ Json.at_key j key; Json.get_string v.

Definition stod_field (j : Json.t) (key : string) : result double :=
  v ←ᵣ Json.at_key j key; s ←ᵣ Json.get_string v; stod_result s.

(** Run [k] on a value, or end the way its evaluation ended. *)
Definition with_result {A : Type} (self : t) (r : result A) (k : A → outcome)
  : outcome :=
  match r with
  | Ok a => k a
  | Throw => Thrown self
  | Undefined => Undef
  end.

(** One [[price, size, order_id]] entry of a snapshot, read as the loop
    body reads it. *)
Definition snapshot_entry (prefix : string) (entry : Json.t)
  : result (double * double * string) :=
  e0 ←ᵣ Json.at_index entry 0;
  s0 ←ᵣ Json.get_string e0;
  price ←ᵣ stod_result s0;
  e1 ←ᵣ Json.at_index entry 1;
  s1 ←ᵣ Json.get_string e1;
  size ←ᵣ stod_result s1;
  order_id ←ᵣ (if bool_decide (2 < Json.size entry)%nat
               then (e2 ←ᵣ Json.at_index entry 2; Json.get_string e2)
               else Ok (prefix +:+ s0));
  Ok (price, size, order_id).

(** [for (const auto& bid : j["bids"]) { ... order_book->addOrder(order); }] *)
Fixpoint snapshot_loop (side : OrderSide) (prefix : string) (symbol : string)
    (self : t) (entries : list Json.t) : outcome :=
  match entries with
  | [] => Returned self
  | entry :: entries' =>
      match snapshot_entry prefix entry with
      | Throw => Thrown self
      | Undefined => Undef
      | Ok (price, size, order_id) =>
          match on_book self symbol
                  (add_new_order (clock (length (heap_ self))) order_id side price size) with
          | Returned self' => snapshot_loop side prefix symbol self' entries'
          | other => other
          end
      end
  end.

Definition processSnapshot (self : t) (j : Json.t) : outcome :=
  if negb (Json.contains j "product_id") then Returned self else
  with_result self (string_field j "product_id") (λ symbol,
  match getOrderBook self symbol with
  | None => Returned self
  | Some _ =>
      if negb (Json.contains j "bids") || negb (Json.contains j "asks")
      then Returned self
      else
        try_catch
          (with_result self (Json.at_key j "bids") (λ bids,
           match snapshot_loop BUY "bid-" symbol self (Json.items bids) with
           | Returned self1 =>
               with_result self1 (Json.at_key j "asks") (λ asks,
               snapshot_loop SELL "ask-" symbol self1 (Json.items asks))
           | other => other
           end))
  end).

(** [order_book->processL3Update(type, ...)] on the handler's state. *)
Definition book_l3 (self : t) (symbol type order_id : string) (side : OrderSide)
    (price size : double) : outcome :=
  on_book self symbol
    (λ h book, OrderBook.processL3Update (clock (length h)) h book
                 type order_id side price size).

Definition processL3Update (self : t) (j : Json.t) : outcome :=
  if negb (Json.contains j "product_id") then Returned self else
  with_result self (string_field j "product_id") (λ symbol,
  match getOrderBook self symbol with
  | None => Returned self
  | Some order_book =>
  with_result self (string_field j "type") (λ type,
  try_catch
    (if bool_decide (type = "received") || bool_decide (type = "open") then
       if negb (Json.contains j "order_id") || negb (Json.contains j "side")
          || negb (Json.contains j "price") || negb (Json.contains j "size")
       then Returned self
       else
         with_result self (string_field j "order_id") (λ order_id,
         with_result self (string_field j "side") (λ side_str,
         let side := convertOrderSide side_str in
         with_result self (stod_field j "price") (λ price,
         with_result self (stod_field j "size") (λ size,
         book_l3 self symbol "open" order_id side price size))))
     else if bool_decide (type = "done") then
       if negb (Json.contains j "order_id") then Returned self
       else
         with_result self (string_field j "order_id") (λ order_id,
         book_l3 self symbol "done" order_id BUY 0 0)
     else if bool_decide (type = "match") then
       if negb (Json.contains j "maker_order_id") || negb (Json.contains j "size")
       then Returned self
       else
         with_result self (string_field j "maker_order_id") (λ maker_order_id,
         with_result self (stod_field j "size") (λ size,
         match OrderBook.getOrder order_book maker_order_id with
         | None => Returned self
         | Some maker_order =>
             match heap_ self !! maker_order with
             | None => Undef
             | Some maker =>
                 let new_size := Order.size_ maker - size in
                 if bool_decide (new_size ≤ 0)
                 then book_l3 self symbol "done" maker_order_id
                        (Order.side_ maker) 0 0
                 else book_l3 self symbol "change" maker_order_id
                        (Order.side_ maker) (Order.price_ maker) new_size
             end
         end))
     else if bool_decide (type = "change") then
       if negb (Json.contains j "order_id") || negb (Json.contains j "new_size")
       then Returned self
       else
         with_result self (string_field j "order_id") (λ order_id,
         with_result self (stod_field j "new_size") (λ new_size,
         match OrderBook.getOrder order_book order_id with
         | None => Returned self
         | Some order =>
             match heap_ self !! order with
             | None => Undef
             | Some o =>
                 book_l3 self symbol "change" order_id
                   (Order.side_ o) (Order.price_ o) new_size
             end
         end))
     else Returned self))
  end).

(** The lambda [getDoubleValue] of [processTicker]. *)
Definition getDoubleValue (value : Json.t) : result double :=
  if Json.is_string value then (s ←ᵣ Json.get_string value; stod_result s)
  else if Json.is_number value then Json.get_double value
  else Throw.

Definition ticker_field (j : Json.t) (key : string) : result double :=
  v ←ᵣ Json.at_key j key; getDoubleValue v.

Definition ticker_sequence (j : Json.t) : result string :=
  v ←ᵣ Json.at_key j "sequence";
  if Json.is_number v then (n ←ᵣ Json.get_int64 v; Ok (to_string n))
  else Json.get_string v.

Definition processTicker (self : t) (j : Json.t) : outcome :=
  with_result self (string_field j "product_id") (λ symbol,
  match getOrderBook self symbol with
  | None => Returned self
  | Some _ =>
  try_catch
    (with_result self (ticker_field j "best_bid") (λ best_bid_price,
     with_result self (ticker_field j "best_bid_size") (λ best_bid_size,
     with_result self (ticker_field j "best_ask") (λ best_ask_price,
     with_result self (ticker_field j "best_ask_size") (λ best_ask_size,
     with_result self (ticker_sequence j) (λ sequence_str,
     let h0 := heap_ self in
     let '(h1, bid_order) :=
       make_shared h0 (Order.make ("bid-" +:+ sequence_str) BUY best_bid_price
                         best_bid_size (clock (length h0))) in
     let '(h2, ask_order) :=
       make_shared h1 (Order.make ("ask-" +:+ sequence_str) SELL best_ask_price
                         best_ask_size (clock (length h1))) in
     on_book (make h2 (order_books_ self)) symbol (λ h book,
       let book0 := OrderBook.clear book in
       r1 ← OrderBook.addOrder h book0 bid_order;
       r2 ← OrderBook.addOrder h r1.1 ask_order;
       Some (h, r2.1))))))))
  end).

(** [None] stands for undefined behaviour; the outer [catch] swallows every
    exception. *)
Definition handleMessage (self : t) (j : Json.t) : option t :=
  let finish (r : outcome) : option t :=
    match r with
    | Returned st | Thrown st => Some st
    | Undef => None
    end in
  match (v ←ᵣ Json.at_key_mut j "type"; Json.get_string v) with
  | Undefined => None
  | Throw => Some self
  | Ok type =>
      if bool_decide (type = "snapshot") then finish (processSnapshot self j)
      else if bool_decide (type = "l2update") then finish (processL2Update self j)
      else if bool_decide (type = "ticker") then
        if Json.contains j "product_id"
           && Json.contains j "best_bid" && Json.contains j "best_ask"
           && Json.contains j "best_bid_size" && Json.contains j "best_ask_size"
        then finish (processTicker self j)
        else Some self
      else if bool_decide (type = "l3update") || bool_decide (type = "received")
              || bool_decide (type = "open") || bool_decide (type = "done")
              || bool_decide (type = "match") || bool_decide (type = "change")
      then finish (processL3Update self j)
      else Some self
  end.

End handler.

End CoinbaseHandler.

(** ** ConsoleVisualizer::calculateHFTMetrics

    The metric fields of the visualizer; a call leaves a field it does not
    assign as it was. *)

Module ConsoleVisualizer.

Record t : Type := make {
  spread_bps_ : double;
  bid_liquidity_depth_ : double;
  ask_liquidity_depth_ : double;
  order_book_imbalance_ : double;
  market_pressure_ : double;
  vwap_bid_ : double;
  vwap_ask_ : double;
  price_impact_1pct_ : double
}.

(** The decimal literals of the function. *)
Definition lit_2 : double := Q2Qc 2.
Definition lit_10000 : double := Q2Qc 10000.
Definition lit_0_995 : double := Q2Qc (995 # 1000).
Definition lit_1_005 : double := Q2Qc (1005 # 1000).
Definition lit_0_01 : double := Q2Qc (1 # 100).
Definition lit_100 : double := Q2Qc 100.

(** One round of the loop over a side, on (total volume, total value,
    liquidity depth); [near price] tells whether a level is within the
    boundary. *)
Definition side_step (near : double → bool) (acc : double * double * double)
    (level : double * double) : double * double * double :=
  let '(total_volume, total_value, depth) := acc in
  let '(price, size) := level in
  (total_volume + size, total_value + price * size,
   if near price then depth + size else depth).

Definition side_loop (near : double → bool) (levels : list (double * double))
  : double * double * double :=
  foldl (side_step near) (0, 0, 0) levels.

(** The walk up the ask side: it stops at the first level where the
    accumulated volume covers the order. *)
Fixpoint impact_walk (market_order_size : double) (asks : list (double * double))
    (cumulative_volume impact_price : double) : double :=
  match asks with
  | [] => impact_price
  | (price, size) :: asks' =>
      let cumulative_volume := cumulative_volume + size in
      let impact_price := price in
      if bool_decide (market_order_size ≤ cumulative_volume) then impact_price
      else impact_walk market_order_size asks' cumulative_volume impact_price
  end.

Definition calculateHFTMetrics (self : t) (bids asks : list (double * double)) : t :=
  match bids, asks with
  | (best_bid, _) :: _, (best_ask, _) :: _ =>
      let mid_price := (best_bid + best_ask) / lit_2 in
      let spread_bps := ((best_ask - best_bid) / mid_price) * lit_10000 in
      let bid_boundary := best_bid * lit_0_995 in
      let ask_boundary := best_ask * lit_1_005 in
      let '(total_bid_volume, total_bid_value, bid_liquidity_depth) :=
        side_loop (λ price, bool_decide (bid_boundary ≤ price)) bids in
      let '(total_ask_volume, total_ask_value, ask_liquidity_depth) :=
        side_loop (λ price, bool_decide (price ≤ ask_boundary)) asks in
      let order_book_imbalance :=
        if bool_decide (0 < total_ask_volume)
        then total_bid_volume / total_ask_volume else 1 in
      let market_pressure :=
        (order_book_imbalance - 1) / (order_book_imbalance + 1) in
      let vwap_bid :=
        if bool_decide (0 < total_bid_volume)
        then total_bid_value / total_bid_volume else vwap_bid_ self in
      let vwap_ask :=
        if bool_decide (0 < total_ask_volume)
        then total_ask_value / total_ask_volume else vwap_ask_ self in
      let market_order_size := (total_bid_volume + total_ask_volume) * lit_0_01 in
      let impact_price := impact_walk market_order_size asks 0 best_ask in
      make spread_bps bid_liquidity_depth ask_liquidity_depth
           order_book_imbalance market_pressure vwap_bid vwap_ask
           (((impact_price - best_ask) / best_ask) * lit_100)
  | _, _ => self
  end.

(** *** The change highlighting

    The fields the highlighting reads and writes.  The two previous
    sides are [std::map<double, double>]; they are only cleared, written
    with [operator[]] and read with [find], never walked in order, so a
    [gmap] stands for them. *)
Record changes : Type := make_changes {
  highlight_changes_ : bool;
  prev_bids_ : gmap double double;
  prev_asks_ : gmap double double;
  prev_best_bid_ : double;
  prev_best_ask_ : double
}.

Inductive PriceChangeType : Set :=
| NO_CHANGE
| NEW_PRICE
| INCREASED_SIZE
| DECREASED_SIZE
| DELETED_PRICE.

Definition getPriceChangeType (self : changes) (price size : double)
    (prev_levels : gmap double double) : PriceChangeType :=
  if negb (highlight_changes_ self) then NO_CHANGE
  else
    match prev_levels !! price with
    | None => NEW_PRICE
    | Some prev_size =>
        if bool_decide (prev_size < size) then INCREASED_SIZE
        else if bool_decide (size < prev_size) then DECREASED_SIZE
        else NO_CHANGE
    end.

(** The loop [prev[price] = size] over a side, from the cleared map. *)
Definition previous_levels (levels : list (double * double)) : gmap double double :=
  foldl (λ prev level, <[level.1 := level.2]> prev) ∅ levels.

Definition updatePreviousState (self : changes) (bids asks : list (double * double))
  : changes :=
  make_changes (highlight_changes_ self)
    (previous_levels bids) (previous_levels asks)
    (match bids with [] => 0 | level :: _ => level.1 end)
    (match asks with [] => 0 | level :: _ => level.1 end).

End ConsoleVisualizer.


(** ** websocket_client.cpp (the TLS version): frames and the handshake key

    A [char] and a [uint8_t] are bytes, numbers from 0 to 255; a
    [std::string] and a [std::vector<uint8_t>] are lists of bytes, and
    [size_t] has 64 bits.  The socket and the threads are left out:
    [asyncSend] is modelled up to the frame it hands to [async_write], and
    [processMessage] by what it does with the chunk one [async_read_some]
    delivered. *)

Module WebSocketClient.
Local Open Scope Z_scope.

Abbreviation byte := Z (only parsing).
Abbreviation bytes := (list Z) (only parsing).

Record t : Type := make {
  running_ : bool;
  connected_ : bool;
  send_queue_ : list bytes;
  (** whether [message_callback_] holds a function *)
  message_callback_ : bool
}.

(** [s.size()] *)
Definition size (s : bytes) : Z := Z.of_nat (length s).

(** A result of [size_t] arithmetic. *)
Definition size_t (n : Z) : Z := n `mod` 2 ^ 64.

(** [s[i]] on a [const std::string&]: the byte at [i], the terminating
    zero at [i = s.size()], undefined behaviour beyond. *)
Definition at_ (s : bytes) (i : Z) : result byte :=
  if bool_decide (0 ≤ i < size s) then
    match s !! Z.to_nat i with
    | Some b => Ok b
    | None => Undefined
    end
  else if bool_decide (i = size s) then Ok 0
  else Undefined.

(** [s.substr(pos, count)] *)
Definition substr (s : bytes) (pos count : Z) : result bytes :=
  if bool_decide (size s < pos) then Throw
  else Ok (take (Z.to_nat (Z.min count (size s - pos))) (drop (Z.to_nat pos) s)).

(** *** Sending *)

Definition mask_key : bytes := [0x12; 0x34; 0x56; 0x78].

(** The vector [frame] that [asyncSend] builds for [message]. *)
Definition asyncSend_frame (message : bytes) : bytes :=
  let payload_length := size message in
  [0x81]
  ++ (if bool_decide (payload_length < 126) then
        [Z.lor 0x80 payload_length `mod` 256]
      else if bool_decide (payload_length ≤ 0xFFFF) then
        [Z.lor 0x80 126;
         Z.land (payload_length ≫ 8) 0xFF `mod` 256;
         Z.land payload_length 0xFF `mod` 256]
      else
        Z.lor 0x80 127
        :: ((λ i, Z.land (payload_length ≫ (i * 8)) 0xFF `mod` 256)
              <$> [7; 6; 5; 4; 3; 2; 1; 0]))
  ++ mask_key
  ++ imap (λ i c, Z.lxor c (nth (i `mod` 4)%nat mask_key 0)) message.

(** [asyncSend], up to the call of [async_write]: the frame it writes, if
    it writes one. *)
Definition asyncSend (self : t) : option bytes :=
  if negb (connected_ self) || negb (running_ self) then None
  else
    match send_queue_ self with
    | [] => None
    | message :: _ => Some (asyncSend_frame message)
    end.

(** [send]: the state, and the frame the call writes. *)
Definition send (self : t) (message : bytes) : t * option bytes :=
  if negb (connected_ self) then (self, None)
  else
    let self' :=
      make (running_ self) (connected_ self) (send_queue_ self ++ [message])
        (message_callback_ self) in
    (self', if bool_decide (length (send_queue_ self') = 1%nat)
            then asyncSend self' else None).

(** *** Receiving *)

(** What a call of [processMessage] did besides returning. *)
Inductive effect : Type :=
| Nothing
| Pong (pong_frame : bytes)     (* [async_write] of the pong frame *)
| Deliver (payload : bytes).    (* [message_callback_(payload)] *)

(** The loop over the eight bytes of a 64-bit length. *)
Fixpoint read_length (message : bytes) (i : nat) (count : nat)
    (real_payload_len : Z) : result Z :=
  match count with
  | O => Ok real_payload_len
  | S count' =>
      b ←ᵣ at_ message (2 + Z.of_nat i);
      read_length message (S i) count' (Z.lor (size_t (real_payload_len ≪ 8)) b)
  end.

(** The loop that copies the mask out of the header. *)
Definition read_mask (message : bytes) (header_size : Z) : result bytes :=
  m0 ←ᵣ at_ message (header_size - 4 + 0);
  m1 ←ᵣ at_ message (header_size - 4 + 1);
  m2 ←ᵣ at_ message (header_size - 4 + 2);
  m3 ←ᵣ at_ message (header_size - 4 + 3);
  Ok [m0; m1; m2; m3].

(** The loop that unmasks the payload, from index [i] on; [None] when it
    leaves through the "frame boundary error" return. *)
Fixpoint unmask (message mask : bytes) (header_size : Z) (i : nat) (count : nat)
  : result (option bytes) :=
  match count with
  | O => Ok (Some [])
  | S count' =>
      if bool_decide (size_t (header_size + Z.of_nat i) < size message) then
        c ←ᵣ at_ message (header_size + Z.of_nat i);
        rest ←ᵣ unmask message mask header_size (S i) count';
        Ok (cons (Z.lxor c (nth (i `mod` 4)%nat mask 0)) <$> rest)
      else Ok None
  end.

(** The pong frame built for a ping with [payload]. *)
Definition pong_frame (payload : bytes) : bytes :=
  [0x8A]
  ++ (if bool_decide (size payload < 126) then [size payload `mod` 256]
      else if bool_decide (size payload ≤ 0xFFFF) then
        [126; Z.land (size payload ≫ 8) 0xFF `mod` 256;
         Z.land (size payload) 0xFF `mod` 256]
      else [])
  ++ payload.

(** The branch on the 7-bit length: the size of the header before the
    mask and the payload length it announces; [None] when the branch leaves
    through an "incomplete frame" return. *)
Definition read_header (message : bytes) (payload_len : Z) : result (option (Z * Z)) :=
  if bool_decide (payload_len = 126) then
    if bool_decide (size message < 4) then Ok None
    else
      (b2 ←ᵣ at_ message 2;
       b3 ←ᵣ at_ message 3;
       Ok (Some (2 + 2, Z.lor (b2 ≪ 8) b3)))
  else if bool_decide (payload_len = 127) then
    if bool_decide (size message < 10) then Ok None
    else (n ←ᵣ read_length message 0 8 0; Ok (Some (2 + 8, n)))
  else Ok (Some (2, payload_len)).

(** What is done with the payload of a frame, by its opcode. *)
Definition handle_payload (self : t) (first_byte : byte) (payload : bytes)
  : t * effect :=
  let opcode := Z.land first_byte 0x0F in
  if bool_decide (opcode = 0x8) then
    (make (running_ self) false (send_queue_ self) (message_callback_ self), Nothing)
  else if bool_decide (opcode = 0x9) then (self, Pong (pong_frame payload))
  else if bool_decide (opcode = 0xA) then (self, Nothing)
  else if message_callback_ self && negb (bool_decide (payload = []))
  then (self, Deliver payload)
  else (self, Nothing).

Section process.
(** [std::string::max_size()] *)
Variable max_size : Z.

(** The payload copied out of the frame; [None] when the copy leaves
    through a "frame boundary error" return. *)
Definition read_payload (message : bytes) (is_masked : bool)
    (header_size real_payload_len : Z) : result (option bytes) :=
  if is_masked then
    (mask ←ᵣ read_mask message header_size;
     (* payload.resize(real_payload_len) *)
     if bool_decide (max_size < real_payload_len) then Throw
     else unmask message mask header_size 0 (Z.to_nat real_payload_len))
  else if bool_decide (size_t (header_size + real_payload_len) ≤ size message)
  then (p ←ᵣ substr message header_size real_payload_len; Ok (Some p))
  else Ok None.

Definition processMessage (self : t) (message : bytes) : result (t * effect) :=
  if bool_decide (message = []) then Ok (self, Nothing) else
  first_byte ←ᵣ at_ message 0;
  second_byte ←ᵣ at_ message 1;
  let is_masked := negb (bool_decide (Z.land second_byte 0x80 = 0)) in
  let payload_len := Z.land second_byte 0x7F in
  lengths ←ᵣ read_header message payload_len;
  match lengths with
  | None => Ok (self, Nothing)
  | Some (header_size, real_payload_len) =>
      let header_size := if is_masked then header_size + 4 else header_size in
      if bool_decide (size message < size_t (header_size + real_payload_len))
      then Ok (self, Nothing)
      else
        payload ←ᵣ read_payload message is_masked header_size real_payload_len;
        match payload with
        | None => Ok (self, Nothing)
        | Some payload => Ok (handle_payload self first_byte payload)
        end
  end.

End process.

(** *** The handshake key *)

Definition base64_chars : list ascii :=
  list_ascii_of_string
    "ABCDEFGHIJKLMNOPQRSTUVWXYZabcdefghijklmnopqrstuvwxyz0123456789+/".

Definition base64_char (i : Z) : ascii := nth (Z.to_nat i) base64_chars "000"%char.

(** One round of the encoding loop, at index [i]. *)
Definition encode_round (random_bytes : bytes) (i : nat) : list ascii :=
  let n := length random_bytes in
  let triplet :=
    foldl (λ triplet j,
             if bool_decide (i + j < n)%nat
             then Z.lor triplet (nth (i + j) random_bytes 0 ≪ (16 - Z.of_nat j * 8))
             else triplet) 0 [0; 1; 2]%nat in
  [base64_char (Z.land (triplet ≫ 18) 0x3F);
   base64_char (Z.land (triplet ≫ 12) 0x3F);
   if bool_decide (i + 1 < n)%nat then base64_char (Z.land (triplet ≫ 6) 0x3F)
   else "="%char;
   if bool_decide (i + 2 < n)%nat then base64_char (Z.land triplet 0x3F)
   else "="%char].

(** The encoding loop: [i] runs over 0, 3, 6, ... below the size. *)
Definition encode (random_bytes : bytes) : list ascii :=
  concat (encode_round random_bytes
            <$> ((λ k, 3 * k)%nat <$> seq 0 ((length random_bytes + 2) / 3))).

(** [generateWebSocketKey]; [dis k] is the number the [k]-th call of
    [dis(gen)] returns. *)
Definition generateWebSocketKey (dis : nat → Z) : string :=
  let random_bytes := (λ k, dis k `mod` 256) <$> seq 0 16 in
  string_of_list_ascii (encode random_bytes).

End WebSocketClient.

(** * Specification-side definitions *)

(** ** Price levels *)

Definition add_size (h : heap) : string → addr → double → double :=
  λ _ a acc, acc + PriceLevel.size_at h a.


(** ** The order book's representation invariant *)

Definition comp_of (s : OrderSide) : double → double → bool :=
  match s with BUY => StdMap.greater | SELL => StdMap.less end.

Definition levels (b : OrderBook.t) (s : OrderSide) : list (double * PriceLevel.t) :=
  match s with BUY => OrderBook.bid_levels_ b | SELL => OrderBook.ask_levels_ b end.

(** The book with side [s] and the id index replaced. *)
Definition set_book (b : OrderBook.t) (s : OrderSide)
    (m : list (double * PriceLevel.t)) (idx : gmap string addr) : OrderBook.t :=
  match s with
  | BUY => OrderBook.make (OrderBook.symbol_ b) m (OrderBook.ask_levels_ b) idx
  | SELL => OrderBook.make (OrderBook.symbol_ b) (OrderBook.bid_levels_ b) m idx
  end.

(** A level filed under key [k] on side [s]: it carries that price, is not
    empty, and each of its orders is the indexed one, with this side and
    price. *)
Definition level_ok (h : heap) (idx : gmap string addr) (s : OrderSide)
    (k : double) (l : PriceLevel.t) : Prop :=
  PriceLevel.price_ l = k ∧ PriceLevel.orders_ l ≠ ∅ ∧
  ∀ id a, PriceLevel.orders_ l !! id = Some a →
    idx !! id = Some a ∧
    ∃ o, h !! a = Some o ∧ Order.id_ o = id ∧ Order.side_ o = s ∧ Order.price_ o = k.

Definition side_ok (h : heap) (idx : gmap string addr) (s : OrderSide)
    (m : list (double * PriceLevel.t)) : Prop :=
  StdMap.sorted (comp_of s) m ∧
  ∀ k l, StdMap.find (comp_of s) m k = Some l → level_ok h idx s k l.

(** Every indexed order rests in the level its side and price name. *)
Definition index_ok (h : heap) (b : OrderBook.t) : Prop :=
  ∀ id a, OrderBook.orders_ b !! id = Some a →
    ∃ o l, h !! a = Some o ∧ Order.id_ o = id ∧
      StdMap.find (comp_of (Order.side_ o)) (levels b (Order.side_ o)) (Order.price_ o) = Some l ∧
      PriceLevel.orders_ l !! id = Some a.

(** Σ of the per-level order counts over both sides. *)
Definition level_order_count (b : OrderBook.t) : nat :=
  (StdMap.total PriceLevel.getOrderCount (OrderBook.bid_levels_ b)
   + StdMap.total PriceLevel.getOrderCount (OrderBook.ask_levels_ b))%nat.

Definition book_wf (h : heap) (b : OrderBook.t) : Prop :=
  (∀ s, side_ok h (OrderBook.orders_ b) s (levels b s)) ∧
  index_ok h b ∧
  OrderBook.getOrderCount b = level_order_count b.

(** Live cells keep their identity, side and price from [h] to [h']. *)
Definition heap_le (h h' : heap) : Prop :=
  ∀ a o, h !! a = Some o →
    ∃ o', h' !! a = Some o' ∧ Order.id_ o' = Order.id_ o ∧
          Order.side_ o' = Order.side_ o ∧ Order.price_ o' = Order.price_ o.

(** ** The books the operations produce *)

(** The level at [p], or the fresh one [addOrder] creates. *)
Definition base_level (m : list (double * PriceLevel.t)) (s : OrderSide)
    (p : double) : PriceLevel.t :=
  default (PriceLevel.new p) (StdMap.find (comp_of s) m p).

(** A level after one more order was added to it. *)
Definition level_plus (l : PriceLevel.t) (order : addr) (o : Order.t)
  : PriceLevel.t :=
  PriceLevel.make (PriceLevel.price_ l)
    (PriceLevel.total_size_ l + Order.size_ o)
    (<[Order.id_ o := order]> (PriceLevel.orders_ l)).

(** The book after a successful [addOrder]. *)
Definition book_plus (b : OrderBook.t) (order : addr) (o : Order.t)
  : OrderBook.t :=
  set_book b (Order.side_ o)
    (StdMap.assign (comp_of (Order.side_ o)) (levels b (Order.side_ o)) (Order.price_ o)
       (level_plus (base_level (levels b (Order.side_ o)) (Order.side_ o) (Order.price_ o))
          order o))
    (<[Order.id_ o := order]> (OrderBook.orders_ b)).

(** A level after one order was taken out of it. *)
Definition level_minus (l : PriceLevel.t) (order_id : string) (o : Order.t)
  : PriceLevel.t :=
  PriceLevel.make (PriceLevel.price_ l)
    (PriceLevel.total_size_ l - Order.size_ o)
    (delete order_id (PriceLevel.orders_ l)).

(** The book after a successful [removeOrder] of an order resting in [l]:
    the level is erased if the order was its last one. *)
Definition book_minus (b : OrderBook.t) (order_id : string) (o : Order.t)
    (l : PriceLevel.t) : OrderBook.t :=
  set_book b (Order.side_ o)
    (if PriceLevel.isEmpty (level_minus l order_id o)
     then StdMap.erase (comp_of (Order.side_ o)) (levels b (Order.side_ o)) (Order.price_ o)
     else StdMap.assign (comp_of (Order.side_ o)) (levels b (Order.side_ o)) (Order.price_ o)
            (level_minus l order_id o))
    (delete order_id (OrderBook.orders_ b)).

(** Order [id] rests in the book: the index points at [o], and [o] sits in
    level [l] of its side and price. *)
Definition resting (h : heap) (b : OrderBook.t) (id : string) (a : addr)
    (o : Order.t) (l : PriceLevel.t) : Prop :=
  OrderBook.orders_ b !! id = Some a ∧ h !! a = Some o ∧ Order.id_ o = id ∧
  StdMap.find (comp_of (Order.side_ o)) (levels b (Order.side_ o)) (Order.price_ o) = Some l ∧
  PriceLevel.orders_ l !! id = Some a.

(** A level after the size of one of its orders went from [old_size] to
    [new_size]: the orders stay, whatever [new_size] is. *)
Definition level_resized (l : PriceLevel.t) (old_size new_size : double)
  : PriceLevel.t :=
  PriceLevel.make (PriceLevel.price_ l)
    (PriceLevel.total_size_ l - old_size + new_size)
    (PriceLevel.orders_ l).

(** The book after a successful [modifyOrder]. *)
Definition book_resized (b : OrderBook.t) (o : Order.t) (l : PriceLevel.t)
    (new_size : double) : OrderBook.t :=
  set_book b (Order.side_ o)
    (StdMap.assign (comp_of (Order.side_ o)) (levels b (Order.side_ o)) (Order.price_ o)
       (level_resized l (Order.size_ o) new_size))
    (OrderBook.orders_ b).

(** ** Sequences of book operations *)

Inductive book_op : Type :=
| AddOrder (order : addr)
| RemoveOrder (order_id : string)
| ModifyOrder (order_id : string) (new_size : double)
| L3Update (now : Z) (type order_id : string) (side : OrderSide) (price size : double).

Definition book_step (st : heap * OrderBook.t) (op : book_op)
  : option (heap * OrderBook.t) :=
  match op with
  | AddOrder order => r ← OrderBook.addOrder st.1 st.2 order; Some (st.1, r.1)
  | RemoveOrder order_id => r ← OrderBook.removeOrder st.1 st.2 order_id; Some (st.1, r.1)
  | ModifyOrder order_id new_size =>
      r ← OrderBook.modifyOrder st.1 st.2 order_id new_size; Some (r.1.1, r.1.2)
  | L3Update now type order_id side price size =>
      OrderBook.processL3Update now st.1 st.2 type order_id side price size
  end.

Fixpoint book_run (st : heap * OrderBook.t) (ops : list book_op)
  : option (heap * OrderBook.t) :=
  match ops with
  | [] => Some st
  | op :: ops' => st' ← book_step st op; book_run st' ops'
  end.

(** The number of orders ever allocated, after [op] ran on a heap of [n]. *)
Definition allocated_after (n : nat) (op : book_op) : nat :=
  match op with
  | L3Update _ type _ _ _ _ =>
      if bool_decide (type = "open") || bool_decide (type = "received")
      then S n else n
  | _ => n
  end.

(** A valid sequence hands [addOrder] only pointers to orders that exist
    when the call is made. *)
Fixpoint book_ops_ok (n : nat) (ops : list book_op) : Prop :=
  match ops with
  | [] => True
  | op :: ops' =>
      match op with AddOrder order => (order < n)%nat | _ => True end
      ∧ book_ops_ok (allocated_after n op) ops'
  end.

(** ** The 1 % price impact, in the specification's words *)

(** Σ of the sizes of a list of (price, size) levels. *)
Definition total_size (levels : list (double * double)) : double :=
  foldr (λ level acc, level.2 + acc) 0 levels.

(** The size accumulated when the walk has taken level [k]. *)
Definition cumulative (asks : list (double * double)) (k : nat) : double :=
  total_size (take (S k) asks).

(** [r] is the price reached by walking [asks] in the order given until the
    accumulated size is at least [target]: the price of the first level
    where that holds, and of the last level if the side is too thin. *)
Definition reached (asks : list (double * double)) (target r : double) : Prop :=
  (∃ k size, asks !! k = Some (r, size) ∧ target ≤ cumulative asks k ∧
             ∀ k', (k' < k)%nat → cumulative asks k' < target)
  ∨ ((∀ k, (k < length asks)%nat → cumulative asks k < target) ∧
     ∃ size, last asks = Some (r, size)).

(** ** Worked examples *)

(** The decimal [n / d]. *)
Definition dec (n : Z) (d : positive) : double := Q2Qc (n # d).

(** A new book in which the bid "x", 1 @ 100, was opened. *)
Definition ex_one_bid_ops : list book_op :=
  [L3Update 0 "open" "x" BUY (dec 100 1) (dec 1 1)].

Definition ex_one_bid : heap * OrderBook.t :=
  default ([], OrderBook.new "BTC-USD")
    (book_run ([], OrderBook.new "BTC-USD") ex_one_bid_ops).

Definition ex_metrics : ConsoleVisualizer.t :=
  ConsoleVisualizer.make 0 0 0 0 0 0 0 0.

(** ** Messages *)

(** The value of a top-level field of a message, if it has one. *)
Definition field (j : Json.t) (key : string) : option Json.t :=
  match j with
  | Json.Object fields => Json.assoc fields key
  | _ => None
  end.

(** A snapshot message with the given entries. *)
Definition snapshot_msg (symbol : string) (bids asks : list Json.t) : Json.t :=
  Json.Object [("type", Json.String "snapshot");
               ("product_id", Json.String symbol);
               ("bids", Json.Array bids);
               ("asks", Json.Array asks)].

(** The fields whose presence the handler checks before it reads a message
    of the given type. *)
Definition checked_fields (type : string) : list string :=
  if bool_decide (type = "snapshot") then ["product_id"; "bids"; "asks"]
  else if bool_decide (type = "ticker") then
    ["product_id"; "best_bid"; "best_ask"; "best_bid_size"; "best_ask_size"]
  else if bool_decide (type = "received") || bool_decide (type = "open") then
    ["product_id"; "order_id"; "side"; "price"; "size"]
  else if bool_decide (type = "done") then ["product_id"; "order_id"]
  else if bool_decide (type = "match") then ["product_id"; "maker_order_id"; "size"]
  else if bool_decide (type = "change") then ["product_id"; "order_id"; "new_size"]
  else [].

(** The numeric fields of the messages that carry one order. *)
Definition numeric_fields (type : string) : list string :=
  if bool_decide (type = "received") || bool_decide (type = "open") then ["price"; "size"]
  else if bool_decide (type = "match") then ["size"]
  else if bool_decide (type = "change") then ["new_size"]
  else [].

(** The ids a list of snapshot entries names (entries that do not parse
    name none). *)
Definition entry_ids (stod : string → option double) (prefix : string)
    (entries : list Json.t) : list string :=
  omap (λ entry, match CoinbaseHandler.snapshot_entry stod prefix entry with
                 | Ok (_, _, order_id) => Some order_id
                 | _ => None
                 end) entries.

Definition entry_ok (stod : string → option double) (prefix : string)
    (entry : Json.t) : Prop :=
  ∃ r, CoinbaseHandler.snapshot_entry stod prefix entry = Ok r.

(** The book a ticker leaves: cleared, then the two synthetic orders. *)
Definition ticker_book (b : OrderBook.t) (n : nat) (bid ask : Order.t) : OrderBook.t :=
  book_plus (book_plus (OrderBook.clear b) n bid) (S n) ask.

(** From [(h, b)] to [(h', b')] orders were only added: the orders resting
    in [b] rest in [b'] under the same pointers, the old cells of the heap
    are as they were, and the ids resting in [b'] are those of [b] and
    those in [ids]. *)
Definition book_extends (h : heap) (b : OrderBook.t) (h' : heap) (b' : OrderBook.t)
    (ids : list string) : Prop :=
  book_wf h' b' ∧ (∃ hx, h' = h ++ hx) ∧
  (∀ id a, OrderBook.getOrder b id = Some a → OrderBook.getOrder b' id = Some a) ∧
  (∀ id, is_Some (OrderBook.getOrder b' id)
         ↔ is_Some (OrderBook.getOrder b id) ∨ id ∈ ids).

(** How [handleMessage] ends when the call it dispatched to ended with [r]:
    its [catch] swallows an exception. *)
Definition finish (r : CoinbaseHandler.outcome) : option CoinbaseHandler.t :=
  match r with
  | CoinbaseHandler.Returned st | CoinbaseHandler.Thrown st => Some st
  | CoinbaseHandler.Undef => None
  end.

(** ** A decimal reader for the examples

    [std::stod] on the decimal literals the feed sends: optional blanks and
    sign, digits with an optional fraction; what follows is ignored, and a
    text without a digit is rejected.  Exponents, hexadecimal floats, inf
    and nan are not covered. *)

Definition is_space (c : ascii) : bool :=
  bool_decide (c ∈ [" "; "009"; "010"; "011"; "012"; "013"]%char).

Definition digit_of (c : ascii) : option Z :=
  let n := Z.of_N (N_of_ascii c) in
  if (48 <=? n)%Z && (n <=? 57)%Z then Some (n - 48)%Z else None.

Fixpoint skip_spaces (s : string) : string :=
  match s with
  | String c s' => if is_space c then skip_spaces s' else s
  | EmptyString => s
  end.

(** The digits at the front of [s], appended to [acc]: the value, how many
    digits were read, and the rest of the text. *)
Fixpoint read_digits (s : string) (acc : Z) (count : nat) : Z * nat * string :=
  match s with
  | String c s' =>
      match digit_of c with
      | Some d => read_digits s' (10 * acc + d)%Z (S count)
      | None => (acc, count, s)
      end
  | EmptyString => (acc, count, s)
  end.

Definition stod_decimal (str : string) : option double :=
  let s := skip_spaces str in
  let '(negative, s) :=
    match s with
    | String "-" s' => (true, s')
    | String "+" s' => (false, s')
    | _ => (false, s)
    end in
  let '(int_part, n_int, s) := read_digits s 0%Z 0%nat in
  let '(mantissa, n_frac) :=
    match s with
    | String "." s' => let '(m, n, _) := read_digits s' int_part 0%nat in (m, n)
    | _ => (int_part, 0%nat)
    end in
  if (n_int + n_frac =? 0)%nat then None
  else
    let x := Q2Qc (mantissa # Z.to_pos (10 ^ Z.of_nat n_frac)) in
    Some (if negative then - x else x).

(** The example handler: the decimal reader, a clock that stands still, and
    level-2 updates ignored. *)
Definition ex_clock : nat → Z := λ _, 0%Z.
Definition ex_l2 : CoinbaseHandler.t → Json.t → CoinbaseHandler.outcome :=
  λ st _, CoinbaseHandler.Returned st.
Definition ex_handle : CoinbaseHandler.t → Json.t → option CoinbaseHandler.t :=
  CoinbaseHandler.handleMessage stod_decimal ex_clock ex_l2.

(** A handler subscribed to BTC-USD, with an empty book and with the book
    that holds the bid "x". *)
Definition ex_empty_handler : CoinbaseHandler.t :=
  CoinbaseHandler.make [] {["BTC-USD" := OrderBook.new "BTC-USD"]}.
Definition ex_one_bid_handler : CoinbaseHandler.t :=
  CoinbaseHandler.make ex_one_bid.1 {["BTC-USD" := ex_one_bid.2]}.

(** The book of BTC-USD after a message, if the handler got that far. *)
Definition ex_book_after (st : option CoinbaseHandler.t) : option OrderBook.t :=
  st ≫= λ st, CoinbaseHandler.getOrderBook st "BTC-USD".

Definition ex_ticker : Json.t :=
  Json.Object [("type", Json.String "ticker");
               ("sequence", Json.Int 7);
               ("product_id", Json.String "BTC-USD");
               ("best_bid", Json.String "99.5");
               ("best_bid_size", Json.String "2");
               ("best_ask", Json.String "100.5");
               ("best_ask_size", Json.String "3")].

(** The snapshot of scenario E of the specification. *)
Definition ex_snapshot : Json.t :=
  snapshot_msg "BTC-USD"
    [Json.Array [Json.String "50"; Json.String "1"]]
    [Json.Array [Json.String "60"; Json.String "1"]].

(** A snapshot whose second bid has a malformed price. *)
Definition ex_bad_snapshot : Json.t :=
  snapshot_msg "BTC-USD"
    [Json.Array [Json.String "100"; Json.String "1"; Json.String "b1"];
     Json.Array [Json.String "abc"; Json.String "1"; Json.String "b2"]]
    [Json.Array [Json.String "101"; Json.String "1"; Json.String "a1"]].


(** A run of book operations: an open, a duplicate add, a change, a remove
    of an unknown id, a second open and a done. *)
Definition ex_book_ops : list book_op :=
  [L3Update 0 "open" "x" BUY (dec 100 1) (dec 1 1);
   AddOrder 0;
   ModifyOrder "x" (dec 2 1);
   RemoveOrder "y";
   L3Update 1 "received" "z" SELL (dec 101 1) (dec 4 1);
   L3Update 2 "done" "x" BUY 0 0].

(** A snapshot message without its asks. *)
Definition ex_snapshot_no_asks : Json.t :=
  Json.Object [("type", Json.String "snapshot");
               ("product_id", Json.String "BTC-USD");
               ("bids", Json.Array [Json.Array [Json.String "50"; Json.String "1"]])].

(** ** The fixtures of tests/test_clunk.cpp *)

(** [OrderTests]: test-order-1, a buy of 1.5 at 100. *)
Definition test_order : Order.t := Order.make "test-order-1" BUY (dec 100 1) (dec 3 2) 0.

(** [PriceLevelTests]: order1_, order2_ and the order at the wrong price. *)
Definition test_level_heap : heap :=
  [Order.make "test-order-1" BUY (dec 100 1) (dec 3 2) 0;
   Order.make "test-order-2" BUY (dec 100 1) (dec 5 2) 0;
   Order.make "test-order-3" BUY (dec 101 1) (dec 1 1) 0].

(** [OrderBookTests]: bid1_, bid2_, ask1_, ask2_. *)
Definition test_book_heap : heap :=
  [Order.make "bid-1" BUY (dec 100 1) (dec 3 2) 0;
   Order.make "bid-2" BUY (dec 99 1) (dec 5 2) 0;
   Order.make "ask-1" SELL (dec 101 1) (dec 1 1) 0;
   Order.make "ask-2" SELL (dec 102 1) (dec 2 1) 0].

(** The book after [addOrder] of the four orders. *)
Definition test_book : option OrderBook.t :=
  r1 ← OrderBook.addOrder test_book_heap (OrderBook.new "BTC-USD") 0;
  r2 ← OrderBook.addOrder test_book_heap r1.1 1;
  r3 ← OrderBook.addOrder test_book_heap r2.1 2;
  r4 ← OrderBook.addOrder test_book_heap r3.1 3;
  Some r4.1.

(** ** The scenarios of the specification, as messages *)

Definition open_msg (order_id side price size : string) : Json.t :=
  Json.Object [("type", Json.String "open");
               ("product_id", Json.String "BTC-USD");
               ("order_id", Json.String order_id);
               ("side", Json.String side);
               ("price", Json.String price);
               ("size", Json.String size)].

Definition match_msg (maker_order_id size : string) : Json.t :=
  Json.Object [("type", Json.String "match");
               ("product_id", Json.String "BTC-USD");
               ("maker_order_id", Json.String maker_order_id);
               ("taker_order_id", Json.String "taker");
               ("size", Json.String size)].

Definition change_msg (order_id new_size : string) : Json.t :=
  Json.Object [("type", Json.String "change");
               ("product_id", Json.String "BTC-USD");
               ("order_id", Json.String order_id);
               ("new_size", Json.String new_size)].

(** The handler fed a list of messages, one after the other. *)
Definition ex_feed (st : CoinbaseHandler.t) (msgs : list Json.t)
  : option CoinbaseHandler.t :=
  foldl (λ acc j, acc ≫= λ st, ex_handle st j) (Some st) msgs.

(** Scenario A: b1 and b2 bid 1.5 @ 100 and 2.5 @ 99, a1 and a2 offer
    1 @ 101 and 2 @ 102. *)
Definition scenario_A : list Json.t :=
  [open_msg "b1" "buy" "100.0" "1.5"; open_msg "b2" "buy" "99.0" "2.5";
   open_msg "a1" "sell" "101.0" "1.0"; open_msg "a2" "sell" "102.0" "2.0"].

(** * Definitions for the further properties *)

(** ** Orders and levels *)



(** Every order a level stores is live, is filed under its id and has a
    price within epsilon of the level's price. *)
Definition level_prices_ok (h : heap) (l : PriceLevel.t) : Prop :=
  ∀ id a, PriceLevel.orders_ l !! id = Some a →
    ∃ o, h !! a = Some o ∧ Order.id_ o = id
         ∧ fabs (Order.price_ o - PriceLevel.getPrice l) ≤ DBL_EPSILON.

(** ** Books *)

(** The books a new book turns into under a valid sequence of
    [addOrder], [removeOrder], [modifyOrder] and [processL3Update] calls. *)
Definition reachable (h : heap) (b : OrderBook.t) : Prop :=
  ∃ h0 symbol ops,
    book_ops_ok (length h0) ops
    ∧ book_run (h0, OrderBook.new symbol) ops = Some (h, b).

(** Every level's running total is the sum of the sizes of its orders. *)
Definition book_sizes (h : heap) (b : OrderBook.t) : Prop :=
  ∀ s k l, StdMap.find (comp_of s) (levels b s) k = Some l →
    PriceLevel.getTotalSize l = PriceLevel.sum_sizes h l.

(** Order [id] rests in the book as [o]. *)
Definition rests (h : heap) (b : OrderBook.t) (id : string) (o : Order.t) : Prop :=
  ∃ a, OrderBook.getOrder b id = Some a ∧ h !! a = Some o.

(** A book with three bids on two levels and two asks, one bid resized. *)
Definition ex_two_sided_ops : list book_op :=
  [L3Update 0 "open" "b1" BUY (dec 100 1) (dec 3 2);
   L3Update 1 "open" "b2" BUY (dec 99 1) (dec 5 2);
   L3Update 2 "open" "b3" BUY (dec 100 1) (dec 1 1);
   L3Update 3 "open" "a1" SELL (dec 101 1) (dec 1 1);
   L3Update 4 "open" "a2" SELL (dec 102 1) (dec 2 1);
   ModifyOrder "b1" (dec 1 2)].

Definition ex_two_sided : heap * OrderBook.t :=
  default ([], OrderBook.new "BTC-USD")
    (book_run ([], OrderBook.new "BTC-USD") ex_two_sided_ops).

(** What a reachable book satisfies. *)
Definition book_inv (h : heap) (b : OrderBook.t) : Prop :=
  book_wf h b ∧ book_sizes h b.



(** A book with one ask at 101, and a bid at 102 that is allocated but not
    yet added. *)
Definition ex_crossing : heap * OrderBook.t :=
  default ([], OrderBook.new "BTC-USD")
    (book_run ([Order.make "c" BUY (dec 102 1) (dec 1 1) 0], OrderBook.new "BTC-USD")
       [L3Update 1 "open" "a1" SELL (dec 101 1) (dec 1 1)]).

(** ** Feed messages *)

(** The message types [handleMessage] dispatches on. *)
Definition dispatched_types : list string :=
  ["snapshot"; "l2update"; "ticker"; "l3update";
   "received"; "open"; "done"; "match"; "change"].

(** A "done" message. *)
Definition done_msg (order_id : string) : Json.t :=
  Json.Object [("type", Json.String "done");
               ("product_id", Json.String "BTC-USD");
               ("order_id", Json.String order_id)].

(** A handler subscribed to BTC-USD and ETH-USD; the first book holds the
    bid "x", the second is empty. *)
Definition ex_two_books_handler : CoinbaseHandler.t :=
  CoinbaseHandler.make ex_one_bid.1
    (<["ETH-USD" := OrderBook.new "ETH-USD"]> {["BTC-USD" := ex_one_bid.2]}).

(** From [st] to [st'] only the book of the product message [j] names may
    have changed, and no book was created or dropped. *)
Definition touches_only (j : Json.t) (st st' : CoinbaseHandler.t) : Prop :=
  ∀ s, (field j "product_id" ≠ Some (Json.String s) →
        CoinbaseHandler.getOrderBook st' s = CoinbaseHandler.getOrderBook st s)
       ∧ (is_Some (CoinbaseHandler.getOrderBook st' s)
          ↔ is_Some (CoinbaseHandler.getOrderBook st s)).

(** [P] holds of the state a call left, however it ended. *)
Definition outcome_ok (P : CoinbaseHandler.t → Prop) (r : CoinbaseHandler.outcome)
  : Prop :=
  match r with
  | CoinbaseHandler.Returned st' | CoinbaseHandler.Thrown st' => P st'
  | CoinbaseHandler.Undef => True
  end.

(** ** Frames, as they arrive *)

(** The three forms of the length in a frame header. *)
Inductive length_form : Set := Len7 | Len16 | Len64.

(** The second byte of a header and the extended length after it, for a
    payload of [n] bytes; [mask_bit] is 128 or 0. *)
Definition length_field (form : length_form) (mask_bit n : Z) : list Z :=
  match form with
  | Len7 => [mask_bit + n]
  | Len16 => [mask_bit + 126; n / 256; n `mod` 256]
  | Len64 =>
      (mask_bit + 127)
      :: ((λ k, (n / 256 ^ k) `mod` 256) <$> [7; 6; 5; 4; 3; 2; 1; 0])
  end%Z.

(** The payload lengths a form can announce. *)
Definition fits (form : length_form) (n : Z) : Prop :=
  match form with
  | Len7 => 0 ≤ n < 126
  | Len16 => 0 ≤ n < 2 ^ 16
  | Len64 => 0 ≤ n < 2 ^ 64
  end%Z.

(** The bytes of a chunk that begins with a frame header: first byte,
    length, the masking key if the frame is masked, and what follows. *)
Definition framed (first : Z) (form : length_form) (key : option (list Z)) (n : Z)
    (body : list Z) : list Z :=
  first :: length_field form (match key with Some _ => 128 | None => 0 end)%Z n
        ++ default [] key ++ body.

(** [payload] under the masking key [key]. *)
Definition masked (key payload : list Z) : list Z :=
  imap (λ i c, Z.lxor c (nth (i `mod` 4) key 0%Z)) payload.


(** The form [asyncSend] picks for a payload of [n] bytes. *)
Definition shortest_form (n : Z) : length_form :=
  if bool_decide (n < 126)%Z then Len7
  else if bool_decide (n ≤ 65535)%Z then Len16 else Len64.

(** The bytes of a text, for the examples. *)
Definition bytes_of (s : string) : list Z :=
  (λ c, Z.of_N (N_of_ascii c)) <$> list_ascii_of_string s.

(** An idle, connected client with a callback. *)
Definition ex_client : WebSocketClient.t := WebSocketClient.make true true [] true.

(** A generator for the examples: the [k]-th number drawn is [7 * k]. *)
Definition ex_dis (k : nat) : Z := (7 * Z.of_nat k)%Z.

(** ** The visualizer *)

(** Σ of price · size over a list of (price, size) levels. *)
Definition total_value (levels : list (double * double)) : double :=
  foldr (λ level acc, level.1 * level.2 + acc) 0 levels.

(** The highlighting state [render] leaves behind when it has drawn the
    first [depth] levels of book [b]. *)
Definition drawn (self : ConsoleVisualizer.changes) (b : OrderBook.t) (depth : nat)
  : ConsoleVisualizer.changes :=
  ConsoleVisualizer.updatePreviousState self
    (OrderBook.getBidLevels b depth) (OrderBook.getAskLevels b depth).

(** A highlighting state with nothing drawn yet. *)
Definition ex_changes : ConsoleVisualizer.changes :=
  ConsoleVisualizer.make_changes true ∅ ∅ 0 0.

(** * Properties of a price level *)

Section price_level_facts.
Import PriceLevel.
Implicit Types (h : heap) (l : PriceLevel.t) (m : gmap string addr).

Lemma add_size_comm h (j1 j2 : string) (a1 a2 : addr) (y : double) :
  add_size h j1 a1 (add_size h j2 a2 y) = add_size h j2 a2 (add_size h j1 a1 y).
Proof. unfold add_size. ring. Qed.

Lemma fold_sizes_insert h m id a :
  m !! id = None →
  map_fold (add_size h) 0 (<[id := a]> m) = map_fold (add_size h) 0 m + size_at h a.
Proof.
  intros Hm. rewrite map_fold_insert_L; [done | | done].
  intros. apply add_size_comm.
Qed.

Lemma fold_sizes_delete h m id a :
  m !! id = Some a →
  map_fold (add_size h) 0 m = map_fold (add_size h) 0 (delete id m) + size_at h a.
Proof.
  intros Hm. rewrite (map_fold_delete_L _ _ id a m); [done | | done].
  intros. apply add_size_comm.
Qed.

Lemma fold_sizes_ext h h' m :
  (∀ id a, m !! id = Some a → size_at h a = size_at h' a) →
  map_fold (add_size h) 0 m = map_fold (add_size h') 0 m.
Proof.
  induction m as [|id a m Hid IH] using map_ind; intros Hext.
  - by rewrite !map_fold_empty.
  - rewrite !fold_sizes_insert by done.
    rewrite (Hext id a) by (by rewrite lookup_insert_eq).
    f_equal. apply IH.
    intros id' a' Hm. apply (Hext id'). rewrite lookup_insert_ne; [done|].
    intros ->. congruence.
Qed.

Lemma size_at_insert_eq h a o :
  (a < length h)%nat → size_at (<[a := o]> h) a = Order.size_ o.
Proof. intros Ha. unfold size_at. by rewrite list_lookup_insert_eq. Qed.

Lemma size_at_insert_ne h a a' o :
  a ≠ a' → size_at (<[a := o]> h) a' = size_at h a'.
Proof. intros Ha. unfold size_at. by rewrite list_lookup_insert_ne. Qed.

(** Writing a size through one pointer moves the sum by the difference. *)
Lemma sum_sizes_setSize h l id a o new_size :
  wf h l → orders_ l !! id = Some a → h !! a = Some o →
  sum_sizes (<[a := Order.setSize o new_size]> h) l
  = sum_sizes h l - Order.size_ o + new_size.
Proof.
  intros Hwf Hid Ha. unfold sum_sizes. fold (add_size h).
  fold (add_size (<[a := Order.setSize o new_size]> h)).
  rewrite (fold_sizes_delete _ _ id a Hid), (fold_sizes_delete h _ id a Hid).
  rewrite size_at_insert_eq by (by eapply lookup_lt_Some).
  rewrite <-(fold_sizes_ext h).
  - unfold size_at. rewrite Ha. simpl. ring.
  - intros id' a' Hd. symmetry. apply size_at_insert_ne. intros <-.
    apply lookup_delete_Some in Hd as [Hne Hd].
    destruct (Hwf _ _ Hd) as (o' & Ho' & Hid').
    destruct (Hwf _ _ Hid) as (o'' & Ho'' & Hid''). congruence.
Qed.



Lemma wf_heap_app h l h' : wf h l → wf (h ++ h') l.
Proof.
  intros Hwf id a Hl. destruct (Hwf _ _ Hl) as (o & Ho & Hid).
  exists o. split; [|done]. by apply lookup_app_l_Some.
Qed.





Lemma op_ok_length h h' o : length h' = length h → op_ok h o → op_ok h' o.
Proof. intros E. destruct o; simpl; [lia | done | done]. Qed.



End price_level_facts.

(** * Facts about the ordered map *)

Section std_map_facts.
Import StdMap.
Context {V : Type} (comp : double → double → bool).
Hypothesis comp_irrefl : ∀ a, comp a a = false.
Hypothesis comp_trans : ∀ a b c, comp a b = true → comp b c = true → comp a c = true.
Hypothesis comp_total : ∀ a b, comp a b = false → comp b a = false → a = b.
Implicit Types (m : list (double * V)) (k : double) (v : V).

Lemma equiv_true k k' : equiv comp k k' = true ↔ k = k'.
Proof.
  unfold equiv. split.
  - intros [H1 H2]%andb_true_iff. apply negb_true_iff in H1, H2. by apply comp_total.
  - intros ->. by rewrite comp_irrefl.
Qed.

Lemma equiv_refl k : equiv comp k k = true.
Proof. by apply equiv_true. Qed.

Lemma equiv_ne k k' : k ≠ k' → equiv comp k k' = false.
Proof. intros Hne. apply not_true_is_false. by rewrite equiv_true. Qed.

Lemma comp_asym a b : comp a b = true → comp b a = false.
Proof.
  intros Hab. apply not_true_is_false. intros Hba.
  pose proof (comp_trans _ _ _ Hab Hba) as E. by rewrite comp_irrefl in E.
Qed.

Lemma comp_ne a b : comp a b = true → a ≠ b.
Proof. intros Hab ->. by rewrite comp_irrefl in Hab. Qed.

Lemma find_Some_elem m k v : find comp m k = Some v → (k, v) ∈ m.
Proof.
  induction m as [|[k' v'] m IH]; simpl; [done|].
  destruct (equiv comp k k') eqn:E.
  - apply equiv_true in E as ->. intros [= ->]. apply list_elem_of_here.
  - intros. apply list_elem_of_further. auto.
Qed.

(** Below the first key of a sorted map nothing is found. *)
Lemma find_below m k : Forall (λ e, comp k e.1 = true) m → find comp m k = None.
Proof.
  induction 1 as [|[k' v'] m Hk _ IH]; simpl in *; [done|].
  rewrite equiv_ne; [done|]. by apply comp_ne.
Qed.

Lemma Forall_comp_trans m k k' :
  comp k k' = true → Forall (λ e, comp k' e.1 = true) m →
  Forall (λ e, comp k e.1 = true) m.
Proof.
  intros Hk Hall. eapply Forall_impl; [exact Hall|].
  intros e. by apply comp_trans.
Qed.

Lemma find_assign_eq m k v : find comp (assign comp m k v) k = Some v.
Proof.
  induction m as [|[k' v'] m IH]; simpl.
  - by rewrite equiv_refl.
  - destruct (comp k k') eqn:E1; simpl.
    + by rewrite equiv_refl.
    + destruct (comp k' k) eqn:E2; simpl.
      * rewrite equiv_ne; [done|]. intros ->. by rewrite comp_irrefl in E2.
      * rewrite (comp_total _ _ E1 E2). by rewrite equiv_refl.
Qed.

Lemma find_assign_ne m k k' v :
  k ≠ k' → find comp (assign comp m k v) k' = find comp m k'.
Proof.
  intros Hne. induction m as [|[k0 v0] m IH]; simpl.
  - by rewrite equiv_ne.
  - destruct (comp k k0) eqn:E1; simpl.
    + by rewrite (equiv_ne k' k).
    + destruct (comp k0 k) eqn:E2; simpl.
      * by rewrite IH.
      * rewrite <-(comp_total _ _ E1 E2). by rewrite !(equiv_ne k' k).
Qed.

Lemma find_erase_ne m k k' :
  k ≠ k' → find comp (erase comp m k) k' = find comp m k'.
Proof.
  intros Hne. induction m as [|[k0 v0] m IH]; simpl; [done|].
  destruct (equiv comp k k0) eqn:E; simpl.
  - apply equiv_true in E as <-. by rewrite (equiv_ne k' k).
  - by rewrite IH.
Qed.

Lemma find_erase_eq m k : sorted comp m → find comp (erase comp m k) k = None.
Proof.
  induction m as [|[k0 v0] m IH]; simpl; [done|]. intros [Hall Hs].
  destruct (equiv comp k k0) eqn:E; simpl.
  - apply equiv_true in E as ->. by apply find_below.
  - rewrite E. auto.
Qed.

Lemma Forall_assign (P : double * V → Prop) m k v :
  P (k, v) → (∀ k' v', P (k', v') → P (k', v)) →
  Forall P m → Forall P (assign comp m k v).
Proof.
  intros Hk Hv. induction 1 as [|[k0 v0] m H0 Hm IH]; simpl.
  - by constructor.
  - destruct (comp k k0); [by repeat constructor|].
    destruct (comp k0 k); constructor; eauto.
Qed.

Lemma Forall_erase (P : double * V → Prop) m k :
  Forall P m → Forall P (erase comp m k).
Proof.
  induction 1 as [|[k0 v0] m H0 Hm IH]; simpl; [done|].
  destruct (equiv comp k k0); [done|]. by constructor.
Qed.

Lemma sorted_assign m k v : sorted comp m → sorted comp (assign comp m k v).
Proof.
  induction m as [|[k0 v0] m IH]; simpl; [done|]. intros [Hall Hs].
  destruct (comp k k0) eqn:E1; simpl.
  - split; [|done]. constructor; [done|]. by apply (Forall_comp_trans m k k0).
  - destruct (comp k0 k) eqn:E2; simpl; [|done].
    split; [|auto]. by apply Forall_assign.
Qed.

Lemma sorted_erase m k : sorted comp m → sorted comp (erase comp m k).
Proof.
  induction m as [|[k0 v0] m IH]; simpl; [done|]. intros [Hall Hs].
  destruct (equiv comp k k0); simpl; [done|].
  split; [by apply Forall_erase | auto].
Qed.




(** Overwriting a key and then erasing it is erasing it. *)
Lemma erase_assign m k v :
  sorted comp m → is_Some (find comp m k) →
  erase comp (assign comp m k v) k = erase comp m k.
Proof.
  induction m as [|[k0 v0] m IH]; simpl; [by intros _ [? [=]]|]. intros [Hall Hs].
  destruct (equiv comp k k0) eqn:E.
  - apply equiv_true in E as ->. intros _. rewrite comp_irrefl. simpl.
    by rewrite equiv_refl.
  - intros Hm. destruct (comp k k0) eqn:E1.
    + rewrite find_below in Hm; [by destruct Hm|].
      by apply (Forall_comp_trans m k k0).
    + destruct (comp k0 k) eqn:E2; simpl.
      * by rewrite E, IH.
      * unfold equiv in E. by rewrite E1, E2 in E.
Qed.

(** *** Totals over the values *)

Lemma total_assign_None f m k v :
  find comp m k = None → total f (assign comp m k v) = (total f m + f v)%nat.
Proof.
  induction m as [|[k0 v0] m IH]; simpl; [lia|].
  destruct (equiv comp k k0) eqn:E; [done|]. intros Hm.
  destruct (comp k k0) eqn:E1; simpl; [lia|].
  destruct (comp k0 k) eqn:E2; simpl.
  - specialize (IH Hm). lia.
  - unfold equiv in E. by rewrite E1, E2 in E.
Qed.

Lemma total_assign_Some f m k v v0 :
  sorted comp m → find comp m k = Some v0 →
  (total f (assign comp m k v) + f v0 = total f m + f v)%nat.
Proof.
  induction m as [|[k0 v1] m IH]; simpl; [done|]. intros [Hall Hs].
  destruct (equiv comp k k0) eqn:E.
  - apply equiv_true in E as ->. intros [= ->]. rewrite comp_irrefl. simpl. lia.
  - intros Hm. destruct (comp k k0) eqn:E1.
    + rewrite find_below in Hm; [done|]. by apply (Forall_comp_trans m k k0).
    + destruct (comp k0 k) eqn:E2; simpl.
      * specialize (IH Hs Hm). lia.
      * unfold equiv in E. by rewrite E1, E2 in E.
Qed.

Lemma total_erase_Some f m k v0 :
  find comp m k = Some v0 → (total f (erase comp m k) + f v0 = total f m)%nat.
Proof.
  induction m as [|[k0 v1] m IH]; simpl; [done|].
  destruct (equiv comp k k0) eqn:E.
  - intros [= ->]. lia.
  - intros Hm. simpl. specialize (IH Hm). lia.
Qed.

End std_map_facts.

Lemma less_irrefl a : StdMap.less a a = false.
Proof.
  unfold StdMap.less. apply bool_decide_eq_false.
  intros H. by apply (Qclt_not_eq a a).
Qed.
Lemma less_trans a b c :
  StdMap.less a b = true → StdMap.less b c = true → StdMap.less a c = true.
Proof. unfold StdMap.less. rewrite !bool_decide_eq_true. apply Qclt_trans. Qed.
Lemma less_total a b : StdMap.less a b = false → StdMap.less b a = false → a = b.
Proof.
  unfold StdMap.less. rewrite !bool_decide_eq_false. intros H1 H2.
  apply Qcle_antisym; by apply Qcnot_lt_le.
Qed.
Lemma greater_irrefl a : StdMap.greater a a = false.
Proof. apply less_irrefl. Qed.
Lemma greater_trans a b c :
  StdMap.greater a b = true → StdMap.greater b c = true → StdMap.greater a c = true.
Proof. intros H1 H2. by apply (less_trans c b a). Qed.
Lemma greater_total a b :
  StdMap.greater a b = false → StdMap.greater b a = false → a = b.
Proof. intros H1 H2. by apply less_total. Qed.

Section order_book_facts.
Implicit Types (h : heap) (b : OrderBook.t) (s : OrderSide)
  (m : list (double * PriceLevel.t)) (idx : gmap string addr)
  (l : PriceLevel.t) (k : double).

Lemma comp_of_irrefl s (x : double) : comp_of s x x = false.
Proof. destruct s; [apply greater_irrefl | apply less_irrefl]. Qed.
Lemma comp_of_trans s (x y z : double) :
  comp_of s x y = true → comp_of s y z = true → comp_of s x z = true.
Proof. destruct s; [apply greater_trans | apply less_trans]. Qed.
Lemma comp_of_total s (x y : double) :
  comp_of s x y = false → comp_of s y x = false → x = y.
Proof. destruct s; [apply greater_total | apply less_total]. Qed.

Lemma levels_set_book_eq b s m idx : levels (set_book b s m idx) s = m.
Proof. by destruct s. Qed.
Lemma levels_set_book_ne b s s' m idx :
  s ≠ s' → levels (set_book b s m idx) s' = levels b s'.
Proof. by destruct s, s'. Qed.
Lemma orders_set_book b s m idx : OrderBook.orders_ (set_book b s m idx) = idx.
Proof. by destruct s. Qed.
Lemma set_book_id b s : set_book b s (levels b s) (OrderBook.orders_ b) = b.
Proof. by destruct b, s. Qed.

Lemma heap_le_refl h : heap_le h h.
Proof. intros a o Ha. eauto. Qed.

Lemma heap_le_app h h' : heap_le h (h ++ h').
Proof.
  intros a o Ha. exists o. split; [by apply lookup_app_l_Some | done].
Qed.

Lemma heap_le_setSize h a o new_size :
  h !! a = Some o → heap_le h (<[a := Order.setSize o new_size]> h).
Proof.
  intros Ha a' o' Ha'. destruct (decide (a = a')) as [<-|Hne].
  - exists (Order.setSize o new_size).
    rewrite list_lookup_insert_eq by (by eapply lookup_lt_Some).
    by simplify_eq.
  - exists o'. by rewrite list_lookup_insert_ne.
Qed.

Lemma level_ok_heap_le h h' idx s k l :
  heap_le h h' → level_ok h idx s k l → level_ok h' idx s k l.
Proof.
  intros Hle (Hp & Hne & Hl). split; [done|]. split; [done|].
  intros id a Hid. destruct (Hl _ _ Hid) as (Hidx & o & Ho & ? & ? & ?).
  split; [done|]. destruct (Hle _ _ Ho) as (o' & Ho' & ? & ? & ?).
  exists o'. repeat split; congruence.
Qed.

Lemma book_wf_heap_le h h' b : heap_le h h' → book_wf h b → book_wf h' b.
Proof.
  intros Hle (Hs & Hi & Hc). split; [|split; [|done]].
  - intros s. destruct (Hs s) as [Hsorted Hl]. split; [done|].
    intros k l Hf. eapply level_ok_heap_le; eauto.
  - intros id a Hid. destruct (Hi _ _ Hid) as (o & l & Ho & Hoid & Hf & Hl).
    destruct (Hle _ _ Ho) as (o' & Ho' & E1 & E2 & E3).
    exists o', l. rewrite E2, E3. repeat split; congruence.
Qed.

Lemma book_wf_new h symbol : book_wf h (OrderBook.new symbol).
Proof.
  split; [|split].
  - intros s. split; [by destruct s|]. by destruct s.
  - intros id a. unfold OrderBook.new; simpl. by rewrite lookup_empty.
  - done.
Qed.

(** The two branches of each operation, read off the side. *)
Lemma addOrder_side h b order :
  OrderBook.addOrder h b order =
  o ← h !! order;
  match OrderBook.orders_ b !! Order.id_ o with
  | Some _ => Some (b, false)
  | None =>
      m ← OrderBook.levels_add (comp_of (Order.side_ o)) h
            (levels b (Order.side_ o)) (Order.price_ o) order;
      Some (set_book b (Order.side_ o) m
              (<[Order.id_ o := order]> (OrderBook.orders_ b)), true)
  end.
Proof.
  unfold OrderBook.addOrder. destruct (h !! order) as [o|]; simpl; [|done].
  destruct (OrderBook.orders_ b !! Order.id_ o); [done|].
  by destruct (Order.side_ o).
Qed.

Lemma removeOrder_side h b order_id :
  OrderBook.removeOrder h b order_id =
  match OrderBook.orders_ b !! order_id with
  | None => Some (b, false)
  | Some order =>
      o ← h !! order;
      m ← OrderBook.levels_remove (comp_of (Order.side_ o)) h
            (levels b (Order.side_ o)) (Order.price_ o) order_id;
      Some (set_book b (Order.side_ o) m
              (delete order_id (OrderBook.orders_ b)), true)
  end.
Proof.
  unfold OrderBook.removeOrder. destruct (OrderBook.orders_ b !! order_id); [|done].
  destruct (h !! _) as [o|]; simpl; [|done]. by destruct (Order.side_ o).
Qed.

Lemma modifyOrder_side h b order_id new_size :
  OrderBook.modifyOrder h b order_id new_size =
  match OrderBook.orders_ b !! order_id with
  | None => Some (h, b, false)
  | Some order =>
      o ← h !! order;
      r ← OrderBook.levels_update (comp_of (Order.side_ o)) h
            (levels b (Order.side_ o)) (Order.price_ o) order_id new_size;
      Some (r.1.1, set_book b (Order.side_ o) r.1.2 (OrderBook.orders_ b), r.2)
  end.
Proof.
  unfold OrderBook.modifyOrder. destruct (OrderBook.orders_ b !! order_id); [|done].
  destruct (h !! _) as [o|]; simpl; [|done]. by destruct (Order.side_ o).
Qed.

Lemma fabs_diag (p : double) : bool_decide (DBL_EPSILON < fabs (p - p)) = false.
Proof.
  replace (p - p) with (Q2Qc 0) by ring.
  apply bool_decide_eq_false. by vm_compute.
Qed.

(** Adding to a level an order of the level's price and of an id the
    level does not hold. *)
Lemma level_addOrder_fresh h l order o :
  h !! order = Some o → PriceLevel.price_ l = Order.price_ o →
  PriceLevel.orders_ l !! Order.id_ o = None →
  PriceLevel.addOrder h l order =
  Some (PriceLevel.make (PriceLevel.price_ l)
          (PriceLevel.total_size_ l + Order.size_ o)
          (<[Order.id_ o := order]> (PriceLevel.orders_ l)), true).
Proof.
  intros Ho Hp Hid. unfold PriceLevel.addOrder. rewrite Ho; simpl.
  by rewrite Hp, fabs_diag, Hid.
Qed.

(** The ordered-map facts at the two comparators of the book. *)
Local Ltac comp_facts :=
  first [ apply comp_of_irrefl | apply comp_of_trans | apply comp_of_total ].

Lemma lv_find_assign_eq s m k l :
  StdMap.find (comp_of s) (StdMap.assign (comp_of s) m k l) k = Some l.
Proof. apply find_assign_eq; comp_facts. Qed.
Lemma lv_find_assign_ne s m k k' l :
  k ≠ k' →
  StdMap.find (comp_of s) (StdMap.assign (comp_of s) m k l) k' = StdMap.find (comp_of s) m k'.
Proof. apply find_assign_ne; comp_facts. Qed.
Lemma lv_find_erase_ne s m k k' :
  k ≠ k' →
  StdMap.find (comp_of s) (StdMap.erase (comp_of s) m k) k' = StdMap.find (comp_of s) m k'.
Proof. apply find_erase_ne; comp_facts. Qed.
Lemma lv_find_erase_eq s m k :
  StdMap.sorted (comp_of s) m →
  StdMap.find (comp_of s) (StdMap.erase (comp_of s) m k) k = None.
Proof. apply find_erase_eq; comp_facts. Qed.
Lemma lv_sorted_assign s m k l :
  StdMap.sorted (comp_of s) m → StdMap.sorted (comp_of s) (StdMap.assign (comp_of s) m k l).
Proof. apply sorted_assign; comp_facts. Qed.
Lemma lv_sorted_erase s m k :
  StdMap.sorted (comp_of s) m → StdMap.sorted (comp_of s) (StdMap.erase (comp_of s) m k).
Proof. apply sorted_erase; comp_facts. Qed.
Lemma lv_total_assign_None s (f : PriceLevel.t → nat) m k l :
  StdMap.find (comp_of s) m k = None →
  StdMap.total f (StdMap.assign (comp_of s) m k l) = (StdMap.total f m + f l)%nat.
Proof. apply total_assign_None. Qed.
Lemma lv_total_assign_Some s (f : PriceLevel.t → nat) m k l l0 :
  StdMap.sorted (comp_of s) m → StdMap.find (comp_of s) m k = Some l0 →
  (StdMap.total f (StdMap.assign (comp_of s) m k l) + f l0 = StdMap.total f m + f l)%nat.
Proof. apply total_assign_Some; comp_facts. Qed.
Lemma lv_total_erase_Some s (f : PriceLevel.t → nat) m k l0 :
  StdMap.find (comp_of s) m k = Some l0 →
  (StdMap.total f (StdMap.erase (comp_of s) m k) + f l0 = StdMap.total f m)%nat.
Proof. apply total_erase_Some. Qed.

End order_book_facts.

(** * What the book operations do to a well-formed book *)

Section order_book_ops.
Implicit Types (h : heap) (b : OrderBook.t) (s : OrderSide)
  (m : list (double * PriceLevel.t)) (idx : gmap string addr)
  (l : PriceLevel.t) (k p : double) (o : Order.t).

Lemma level_ok_insert_fresh h idx s k l id (a : addr) :
  idx !! id = None → level_ok h idx s k l → level_ok h (<[id := a]> idx) s k l.
Proof.
  intros Hf (Hp & Hne & Hl). split; [done|]. split; [done|].
  intros id' a' Hid'. destruct (Hl _ _ Hid') as [Hi Ho]. split; [|done].
  rewrite lookup_insert_ne; [done|]. congruence.
Qed.

Lemma base_level_ok h idx s m p :
  side_ok h idx s m →
  PriceLevel.price_ (base_level m s p) = p ∧
  ∀ id a, PriceLevel.orders_ (base_level m s p) !! id = Some a →
    idx !! id = Some a ∧
    ∃ o, h !! a = Some o ∧ Order.id_ o = id ∧ Order.side_ o = s ∧ Order.price_ o = p.
Proof.
  intros [_ Hl]. unfold base_level.
  destruct (StdMap.find (comp_of s) m p) as [l|] eqn:Hf; simpl.
  - destruct (Hl _ _ Hf) as (Hp & _ & Hin). done.
  - split; [done|]. intros id a. by rewrite lookup_empty.
Qed.

Lemma levels_add_fresh h idx s m order o :
  side_ok h idx s m → h !! order = Some o → idx !! Order.id_ o = None →
  OrderBook.levels_add (comp_of s) h m (Order.price_ o) order
  = Some (StdMap.assign (comp_of s) m (Order.price_ o)
            (level_plus (base_level m s (Order.price_ o)) order o)).
Proof.
  intros Hside Ho Hidx.
  destruct (base_level_ok h idx s m (Order.price_ o) Hside) as [Hp Hin].
  assert (PriceLevel.orders_ (base_level m s (Order.price_ o)) !! Order.id_ o = None) as Hfresh.
  { destruct (PriceLevel.orders_ _ !! Order.id_ o) as [a|] eqn:E; [|done].
    destruct (Hin _ _ E) as [Hi _]. congruence. }
  pose proof (level_addOrder_fresh h _ order o Ho Hp Hfresh) as Hadd.
  unfold OrderBook.levels_add, base_level in *.
  destruct (StdMap.find (comp_of s) m (Order.price_ o)) as [l|]; simpl in *;
    by rewrite Hadd.
Qed.

Lemma level_order_count_set_book b s m idx :
  (level_order_count (set_book b s m idx)
   + StdMap.total PriceLevel.getOrderCount (levels b s)
   = level_order_count b + StdMap.total PriceLevel.getOrderCount m)%nat.
Proof. unfold level_order_count. destruct s; simpl; lia. Qed.

Lemma total_assign_level s m p l :
  StdMap.sorted (comp_of s) m →
  (StdMap.total PriceLevel.getOrderCount (StdMap.assign (comp_of s) m p l)
   + PriceLevel.getOrderCount (base_level m s p)
   = StdMap.total PriceLevel.getOrderCount m + PriceLevel.getOrderCount l)%nat.
Proof.
  intros Hsorted. unfold base_level.
  destruct (StdMap.find (comp_of s) m p) as [l0|] eqn:Hf; simpl.
  - by apply lv_total_assign_Some.
  - rewrite lv_total_assign_None by done.
    unfold PriceLevel.getOrderCount, PriceLevel.new; simpl.
    rewrite map_size_empty. lia.
Qed.

Lemma addOrder_fresh h b order o :
  book_wf h b → h !! order = Some o →
  OrderBook.orders_ b !! Order.id_ o = None →
  OrderBook.addOrder h b order = Some (book_plus b order o, true).
Proof.
  intros (Hs & _ & _) Ho Hidx. rewrite addOrder_side, Ho; simpl. rewrite Hidx.
  by rewrite (levels_add_fresh h (OrderBook.orders_ b)).
Qed.

Lemma addOrder_duplicate h b order o :
  h !! order = Some o → is_Some (OrderBook.orders_ b !! Order.id_ o) →
  OrderBook.addOrder h b order = Some (b, false).
Proof.
  intros Ho [a Ha]. unfold OrderBook.addOrder. rewrite Ho; simpl. by rewrite Ha.
Qed.

Lemma book_wf_plus h b order o :
  book_wf h b → h !! order = Some o →
  OrderBook.orders_ b !! Order.id_ o = None →
  book_wf h (book_plus b order o).
Proof.
  intros (Hs & Hi & Hc) Ho Hidx. unfold book_plus.
  set (s := Order.side_ o). set (p := Order.price_ o).
  set (l0 := base_level (levels b s) s p).
  destruct (base_level_ok h _ s _ p (Hs s)) as [Hp0 Hin0]. fold l0 in Hp0, Hin0.
  split; [|split].
  - intros s'. rewrite orders_set_book. destruct (decide (s = s')) as [<-|Hne].
    + rewrite levels_set_book_eq. destruct (Hs s) as [Hsorted Hl].
      split; [by apply lv_sorted_assign|]. intros k l' Hf.
      destruct (decide (p = k)) as [<-|Hnk].
      * rewrite lv_find_assign_eq in Hf. injection Hf as <-.
        split; [done|]. split; [apply insert_non_empty|].
        intros id a; simpl. rewrite lookup_insert. case_decide as Hd.
        -- intros [= <-]. subst id. rewrite lookup_insert_eq. split; [done|].
           by exists o.
        -- intros Hid. destruct (Hin0 _ _ Hid) as [Hi0 Hex].
           split; [|done]. by rewrite lookup_insert_ne.
      * rewrite lv_find_assign_ne in Hf by done.
        apply level_ok_insert_fresh; [done|]. by apply Hl.
    + rewrite levels_set_book_ne by done. destruct (Hs s') as [Hsorted Hl].
      split; [done|]. intros k l' Hf.
      apply level_ok_insert_fresh; [done|]. by apply Hl.
  - intros id a. rewrite orders_set_book, lookup_insert. case_decide as Hd.
    + intros [= <-]. subst id. exists o, (level_plus l0 order o).
      fold s p. rewrite levels_set_book_eq, lv_find_assign_eq; simpl.
      by rewrite lookup_insert_eq.
    + intros Hid. destruct (Hi _ _ Hid) as (o2 & l2 & Ho2 & Hid2 & Hf2 & Hl2).
      destruct (decide (s = Order.side_ o2)) as [Es|Ns].
      * rewrite <-Es in Hf2. destruct (decide (p = Order.price_ o2)) as [Ep|Np].
        -- exists o2, (level_plus l0 order o). rewrite <-Es, <-Ep.
           rewrite levels_set_book_eq, lv_find_assign_eq; simpl.
           rewrite lookup_insert_ne by done. repeat split; try done.
           unfold l0, base_level. by rewrite Ep, Hf2.
        -- exists o2, l2. rewrite <-Es, levels_set_book_eq.
           by rewrite lv_find_assign_ne.
      * exists o2, l2. by rewrite levels_set_book_ne.
  - unfold OrderBook.getOrderCount in *. rewrite orders_set_book.
    rewrite map_size_insert_None by done.
    pose proof (level_order_count_set_book b s
      (StdMap.assign (comp_of s) (levels b s) p (level_plus l0 order o))
      (<[Order.id_ o := order]> (OrderBook.orders_ b))) as E1.
    pose proof (total_assign_level s (levels b s) p (level_plus l0 order o)
                  (proj1 (Hs s))) as E2.
    fold l0 in E2.
    assert (PriceLevel.getOrderCount (level_plus l0 order o)
            = S (PriceLevel.getOrderCount l0)) as E3.
    { unfold PriceLevel.getOrderCount; simpl. apply map_size_insert_None.
      destruct (PriceLevel.orders_ l0 !! Order.id_ o) as [a|] eqn:E; [|done].
      destruct (Hin0 _ _ E) as [Hi0 _]. congruence. }
    lia.
Qed.

(** *** removeOrder *)

Lemma resting_intro h b id a :
  book_wf h b → OrderBook.orders_ b !! id = Some a → ∃ o l, resting h b id a o l.
Proof.
  intros (_ & Hi & _) Hid. destruct (Hi _ _ Hid) as (o & l & ? & ? & ? & ?).
  by exists o, l.
Qed.

Lemma removeOrder_resting h b id a o l :
  resting h b id a o l →
  OrderBook.removeOrder h b id = Some (book_minus b id o l, true).
Proof.
  intros (Hid & Ho & _ & Hf & Hl). rewrite removeOrder_side, Hid, Ho; simpl.
  unfold OrderBook.levels_remove. rewrite Hf.
  unfold PriceLevel.removeOrder. rewrite Hl, Ho; simpl.
  unfold book_minus, level_minus.
  by destruct (PriceLevel.isEmpty _).
Qed.

Lemma removeOrder_unknown h b id :
  OrderBook.orders_ b !! id = None → OrderBook.removeOrder h b id = Some (b, false).
Proof. intros Hid. unfold OrderBook.removeOrder. by rewrite Hid. Qed.

(** No other level holds the id of a resting order. *)
Lemma resting_elsewhere h b id a o l s k l' :
  book_wf h b → resting h b id a o l →
  StdMap.find (comp_of s) (levels b s) k = Some l' →
  (s, k) ≠ (Order.side_ o, Order.price_ o) →
  PriceLevel.orders_ l' !! id = None.
Proof.
  intros (Hs & _ & _) (Hid & Ho & _ & _ & _) Hf Hne.
  destruct (PriceLevel.orders_ l' !! id) as [a'|] eqn:E; [|done].
  destruct (Hs s) as [_ Hl]. destruct (Hl _ _ Hf) as (_ & _ & Hin).
  destruct (Hin _ _ E) as (Hi & o' & Ho' & _ & Hside & Hprice).
  destruct Hne. simplify_eq. done.
Qed.

Lemma level_ok_delete h idx s k l id :
  PriceLevel.orders_ l !! id = None →
  level_ok h idx s k l → level_ok h (delete id idx) s k l.
Proof.
  intros Hfree (Hp & Hne & Hl). split; [done|]. split; [done|].
  intros id' a' Hid'. destruct (Hl _ _ Hid') as [Hi Ho]. split; [|done].
  rewrite lookup_delete_ne; [done|]. congruence.
Qed.

Lemma book_wf_minus h b id a o l :
  book_wf h b → resting h b id a o l → book_wf h (book_minus b id o l).
Proof.
  intros Hwf Hrest. pose proof Hwf as (Hs & Hi & Hc).
  pose proof Hrest as (Hid & Ho & Hoid & Hf & Hl).
  pose proof (λ s k l', resting_elsewhere h b id a o l s k l' Hwf Hrest) as Helse.
  unfold book_minus.
  set (s := Order.side_ o) in *. set (p := Order.price_ o) in *.
  set (l1 := level_minus l id o).
  destruct (Hs s) as [Hsorted Hlv].
  destruct (Hlv _ _ Hf) as (Hp & Hnonempty & Hin).
  assert (∀ s' k l', StdMap.find (comp_of s') (levels b s') k = Some l' →
            (s', k) ≠ (s, p) → level_ok h (delete id (OrderBook.orders_ b)) s' k l')
    as Hother.
  { intros s' k l' Hf' Hne. apply level_ok_delete; [by eapply Helse|].
    destruct (Hs s') as [_ Hlv']. by apply Hlv'. }
  split; [|split].
  - intros s'. rewrite orders_set_book. destruct (decide (s = s')) as [<-|Hne].
    + rewrite levels_set_book_eq.
      destruct (PriceLevel.isEmpty l1) eqn:Hempty.
      * split; [by apply lv_sorted_erase|]. intros k l' Hf'.
        destruct (decide (p = k)) as [<-|Hnk].
        -- by rewrite lv_find_erase_eq in Hf'.
        -- rewrite lv_find_erase_ne in Hf' by done.
           apply Hother; [done|]. congruence.
      * split; [by apply lv_sorted_assign|]. intros k l' Hf'.
        destruct (decide (p = k)) as [<-|Hnk].
        -- rewrite lv_find_assign_eq in Hf'. injection Hf' as <-.
           split; [done|]. split.
           { unfold PriceLevel.isEmpty in Hempty.
             by apply bool_decide_eq_false in Hempty. }
           intros id' a'; simpl. intros [Hne' Hid']%lookup_delete_Some.
           destruct (Hin _ _ Hid') as [Hi1 Hex]. split; [|done].
           by rewrite lookup_delete_ne.
        -- rewrite lv_find_assign_ne in Hf' by done.
           apply Hother; [done|]. congruence.
    + rewrite levels_set_book_ne by done. split; [apply (Hs s')|].
      intros k l' Hf'. apply Hother; [done|]. congruence.
  - intros id' a'. rewrite orders_set_book.
    intros [Hne' Hid']%lookup_delete_Some.
    destruct (Hi _ _ Hid') as (o2 & l2 & Ho2 & Hid2 & Hf2 & Hl2).
    destruct (decide (s = Order.side_ o2)) as [Es|Ns].
    * rewrite <-Es in Hf2. destruct (decide (p = Order.price_ o2)) as [Ep|Np].
      -- rewrite <-Ep in Hf2. assert (l2 = l) as -> by congruence.
         assert (PriceLevel.isEmpty l1 = false) as ->.
         { apply bool_decide_eq_false. simpl. intros E.
           assert (delete id (PriceLevel.orders_ l) !! id' = Some a') as E'
             by (by rewrite lookup_delete_ne).
           by rewrite E, lookup_empty in E'. }
         exists o2, l1. rewrite <-Es, <-Ep, levels_set_book_eq, lv_find_assign_eq.
         simpl. by rewrite lookup_delete_ne.
      -- exists o2, l2. rewrite <-Es, levels_set_book_eq.
         destruct (PriceLevel.isEmpty l1).
         ++ by rewrite lv_find_erase_ne.
         ++ by rewrite lv_find_assign_ne.
    * exists o2, l2. by rewrite levels_set_book_ne.
  - unfold OrderBook.getOrderCount in *. rewrite orders_set_book.
    rewrite map_size_delete_Some by done.
    assert (PriceLevel.getOrderCount l1 = pred (PriceLevel.getOrderCount l)) as E3.
    { unfold PriceLevel.getOrderCount; simpl. by apply map_size_delete_Some. }
    assert (PriceLevel.getOrderCount l ≠ 0%nat) as E4.
    { unfold PriceLevel.getOrderCount. by apply map_size_non_empty_iff. }
    destruct (PriceLevel.isEmpty l1) eqn:Hempty.
    + pose proof (level_order_count_set_book b s
        (StdMap.erase (comp_of s) (levels b s) p)
        (delete id (OrderBook.orders_ b))) as E1.
      pose proof (lv_total_erase_Some s PriceLevel.getOrderCount _ _ _ Hf) as E2.
      assert (PriceLevel.getOrderCount l1 = 0%nat) as E5.
      { apply bool_decide_eq_true in Hempty. unfold PriceLevel.getOrderCount.
        by rewrite Hempty, map_size_empty. }
      lia.
    + pose proof (level_order_count_set_book b s
        (StdMap.assign (comp_of s) (levels b s) p l1)
        (delete id (OrderBook.orders_ b))) as E1.
      pose proof (lv_total_assign_Some s PriceLevel.getOrderCount _ _ l1 _ Hsorted Hf) as E2.
      lia.
Qed.

(** *** modifyOrder *)

Lemma modifyOrder_resting h b id a o l new_size :
  resting h b id a o l →
  OrderBook.modifyOrder h b id new_size
  = Some (<[a := Order.setSize o new_size]> h, book_resized b o l new_size, true).
Proof.
  intros (Hid & Ho & _ & Hf & Hl). rewrite modifyOrder_side, Hid, Ho; simpl.
  unfold OrderBook.levels_update. rewrite Hf.
  unfold PriceLevel.updateOrder. by rewrite Hl, Ho.
Qed.

Lemma modifyOrder_unknown h b id new_size :
  OrderBook.orders_ b !! id = None →
  OrderBook.modifyOrder h b id new_size = Some (h, b, false).
Proof. intros Hid. unfold OrderBook.modifyOrder. by rewrite Hid. Qed.

(** Replacing a level by one with the same price and the same orders. *)
Lemma book_wf_relevel h b s p l l1 :
  book_wf h b → StdMap.find (comp_of s) (levels b s) p = Some l →
  PriceLevel.price_ l1 = PriceLevel.price_ l →
  PriceLevel.orders_ l1 = PriceLevel.orders_ l →
  book_wf h (set_book b s (StdMap.assign (comp_of s) (levels b s) p l1) (OrderBook.orders_ b)).
Proof.
  intros (Hs & Hi & Hc) Hf Hp1 Ho1. split; [|split].
  - intros s'. rewrite orders_set_book. destruct (decide (s = s')) as [<-|Hne].
    + rewrite levels_set_book_eq. destruct (Hs s) as [Hsorted Hlv].
      split; [by apply lv_sorted_assign|]. intros k l' Hf'.
      destruct (decide (p = k)) as [<-|Hnk].
      * rewrite lv_find_assign_eq in Hf'. injection Hf' as <-.
        destruct (Hlv _ _ Hf) as (Hp & Hnonempty & Hin).
        unfold level_ok. by rewrite Hp1, Ho1.
      * rewrite lv_find_assign_ne in Hf' by done. by apply Hlv.
    + rewrite levels_set_book_ne by done. apply (Hs s').
  - intros id a. rewrite orders_set_book. intros Hid.
    destruct (Hi _ _ Hid) as (o2 & l2 & Ho2 & Hid2 & Hf2 & Hl2).
    destruct (decide (s = Order.side_ o2)) as [Es|Ns].
    * rewrite <-Es in Hf2. destruct (decide (p = Order.price_ o2)) as [Ep|Np].
      -- rewrite <-Ep in Hf2. assert (l2 = l) as -> by congruence.
         exists o2, l1. rewrite <-Es, <-Ep, levels_set_book_eq, lv_find_assign_eq.
         by rewrite Ho1.
      -- exists o2, l2. rewrite <-Es, levels_set_book_eq.
         by rewrite lv_find_assign_ne.
    * exists o2, l2. by rewrite levels_set_book_ne.
  - unfold OrderBook.getOrderCount in *. rewrite orders_set_book.
    pose proof (level_order_count_set_book b s
      (StdMap.assign (comp_of s) (levels b s) p l1) (OrderBook.orders_ b)) as E1.
    pose proof (lv_total_assign_Some s PriceLevel.getOrderCount _ _ l1 _
                  (proj1 (Hs s)) Hf) as E2.
    assert (PriceLevel.getOrderCount l1 = PriceLevel.getOrderCount l) as E3
      by (unfold PriceLevel.getOrderCount; by rewrite Ho1).
    lia.
Qed.

Lemma book_wf_resized h b id a o l new_size :
  book_wf h b → resting h b id a o l →
  book_wf (<[a := Order.setSize o new_size]> h) (book_resized b o l new_size).
Proof.
  intros Hwf (Hid & Ho & Hoid & Hf & Hl). unfold book_resized.
  apply (book_wf_relevel _ b _ _ l); [|done..].
  eapply book_wf_heap_le; [|done]. by apply heap_le_setSize.
Qed.

End order_book_ops.

(** * Sequences of book operations keep the book well formed *)

Section book_runs.
Implicit Types (h : heap) (b : OrderBook.t).

Lemma addOrder_wf h b order :
  book_wf h b → (order < length h)%nat →
  ∃ b' r, OrderBook.addOrder h b order = Some (b', r) ∧ book_wf h b'.
Proof.
  intros Hwf Hlt. destruct (lookup_lt_is_Some_2 h order Hlt) as [o Ho].
  destruct (OrderBook.orders_ b !! Order.id_ o) as [a|] eqn:Hid.
  - exists b, false. by rewrite (addOrder_duplicate h b order o).
  - exists (book_plus b order o), true.
    rewrite (addOrder_fresh h b order o) by done. split; [done|].
    by apply book_wf_plus.
Qed.

Lemma removeOrder_wf h b order_id :
  book_wf h b →
  ∃ b' r, OrderBook.removeOrder h b order_id = Some (b', r) ∧ book_wf h b'.
Proof.
  intros Hwf. destruct (OrderBook.orders_ b !! order_id) as [a|] eqn:Hid.
  - destruct (resting_intro h b order_id a Hwf Hid) as (o & l & Hrest).
    exists (book_minus b order_id o l), true.
    rewrite (removeOrder_resting h b order_id a o l) by done.
    split; [done|]. by eapply book_wf_minus.
  - exists b, false. by rewrite removeOrder_unknown.
Qed.

Lemma modifyOrder_wf h b order_id new_size :
  book_wf h b →
  ∃ h' b' r, OrderBook.modifyOrder h b order_id new_size = Some (h', b', r)
             ∧ book_wf h' b' ∧ length h' = length h.
Proof.
  intros Hwf. destruct (OrderBook.orders_ b !! order_id) as [a|] eqn:Hid.
  - destruct (resting_intro h b order_id a Hwf Hid) as (o & l & Hrest).
    eexists _, _, true.
    rewrite (modifyOrder_resting h b order_id a o l) by done.
    split; [done|]. split; [by eapply book_wf_resized | by rewrite length_insert].
  - exists h, b, false. by rewrite modifyOrder_unknown.
Qed.

Lemma processL3Update_wf now h b type order_id side price size :
  book_wf h b →
  ∃ h' b', OrderBook.processL3Update now h b type order_id side price size = Some (h', b')
           ∧ book_wf h' b'
           ∧ length h' = allocated_after (length h)
                           (L3Update now type order_id side price size).
Proof.
  intros Hwf. unfold OrderBook.processL3Update, allocated_after, make_shared.
  destruct (bool_decide (type = "open") || bool_decide (type = "received")).
  - set (o := Order.make order_id side price size now).
    destruct (addOrder_wf (h ++ [o]) b (length h)) as (b' & r & -> & Hwf').
    + eapply book_wf_heap_le; [apply heap_le_app | done].
    + rewrite length_app; simpl. lia.
    + simpl. exists (h ++ [o]), b'. rewrite length_app; simpl.
      split; [done|]. split; [done | lia].
  - destruct (bool_decide (type = "match") || bool_decide (type = "change")).
    + destruct (modifyOrder_wf h b order_id size Hwf) as (h' & b' & r & -> & ? & ?).
      simpl. eauto.
    + destruct (bool_decide (type = "done")); [|by eauto].
      destruct (removeOrder_wf h b order_id Hwf) as (b' & r & -> & ?).
      simpl. eauto.
Qed.

Lemma book_step_wf h b op :
  book_wf h b →
  match op with AddOrder order => (order < length h)%nat | _ => True end →
  ∃ h' b', book_step (h, b) op = Some (h', b') ∧ book_wf h' b'
           ∧ length h' = allocated_after (length h) op.
Proof.
  intros Hwf Hok. destruct op as [order|order_id|order_id new_size|now type order_id side price size];
    simpl.
  - destruct (addOrder_wf h b order Hwf Hok) as (b' & r & -> & ?). simpl. eauto.
  - destruct (removeOrder_wf h b order_id Hwf) as (b' & r & -> & ?). simpl. eauto.
  - destruct (modifyOrder_wf h b order_id new_size Hwf) as (h' & b' & r & -> & ? & ?).
    simpl. eauto.
  - by apply processL3Update_wf.
Qed.

Lemma book_run_wf ops : ∀ h b,
  book_wf h b → book_ops_ok (length h) ops →
  ∃ h' b', book_run (h, b) ops = Some (h', b') ∧ book_wf h' b'.
Proof.
  induction ops as [|op ops IH]; intros h b Hwf Hok; simpl; [by eauto|].
  destruct Hok as [Hop Hops].
  destruct (book_step_wf h b op Hwf Hop) as (h1 & b1 & -> & Hwf1 & Hlen); simpl.
  apply IH; [done|]. by rewrite Hlen.
Qed.

Lemma book_ops_ok_take ops : ∀ n k, book_ops_ok n ops → book_ops_ok n (take k ops).
Proof.
  induction ops as [|op ops IH]; intros n k Hok; [by destruct k|].
  destruct k as [|k]; [done|]. destruct Hok as [Hop Hops]. simpl. eauto.
Qed.

End book_runs.

(** * The metrics walk *)

Section metrics_facts.
Import ConsoleVisualizer.
Implicit Types (asks levels : list (double * double)).







(** The reached price is unique. *)
Lemma reached_unique asks target (r1 r2 : double) :
  reached asks target r1 → reached asks target r2 → r1 = r2.
Proof.
  intros [(k1 & s1 & Hk1 & Hge1 & Hlt1)|[Hall1 [s1 Hl1]]]
         [(k2 & s2 & Hk2 & Hge2 & Hlt2)|[Hall2 [s2 Hl2]]].
  - destruct (lt_eq_lt_dec k1 k2) as [[Hlt|Heq]|Hgt].
    + specialize (Hlt2 k1 Hlt). by apply Qclt_not_le in Hlt2.
    + subst. congruence.
    + specialize (Hlt1 k2 Hgt). by apply Qclt_not_le in Hlt1.
  - apply lookup_lt_Some in Hk1 as Hlen. specialize (Hall2 k1 Hlen).
    by apply Qclt_not_le in Hall2.
  - apply lookup_lt_Some in Hk2 as Hlen. specialize (Hall1 k2 Hlen).
    by apply Qclt_not_le in Hall1.
  - congruence.
Qed.

End metrics_facts.

(** * Adding an order and removing it again *)

Section add_then_remove.
Implicit Types (h : heap) (b : OrderBook.t) (l : PriceLevel.t) (o : Order.t).


Lemma base_level_fresh h b o :
  book_wf h b → OrderBook.orders_ b !! Order.id_ o = None →
  PriceLevel.orders_ (base_level (levels b (Order.side_ o)) (Order.side_ o) (Order.price_ o))
    !! Order.id_ o = None.
Proof.
  intros (Hs & _ & _) Hidx.
  destruct (base_level_ok h _ _ _ (Order.price_ o) (Hs (Order.side_ o))) as [_ Hin].
  destruct (PriceLevel.orders_ _ !! Order.id_ o) as [a|] eqn:E; [|done].
  destruct (Hin _ _ E) as [Hi _]. congruence.
Qed.




(** Counting the levels of a side. *)
Lemma total_one {V : Type} (m : list (double * V)) : StdMap.total (λ _, 1%nat) m = length m.
Proof. induction m as [|[k v] m IH]; simpl; [done | by rewrite IH]. Qed.

Lemma length_assign_Some s (m : list (double * PriceLevel.t)) (k : double) l l0 :
  StdMap.sorted (comp_of s) m → StdMap.find (comp_of s) m k = Some l0 →
  length (StdMap.assign (comp_of s) m k l) = length m.
Proof.
  intros Hsorted Hf.
  pose proof (lv_total_assign_Some s (λ _, 1%nat) m k l l0 Hsorted Hf) as E.
  rewrite !total_one in E. lia.
Qed.

Lemma level_counts_resized h b id (a : addr) o l (new_size : double) :
  book_wf h b → resting h b id a o l →
  OrderBook.getBidLevelCount (book_resized b o l new_size) = OrderBook.getBidLevelCount b
  ∧ OrderBook.getAskLevelCount (book_resized b o l new_size) = OrderBook.getAskLevelCount b.
Proof.
  intros (Hs & _ & _) (_ & _ & _ & Hf & _). unfold book_resized.
  pose proof (length_assign_Some (Order.side_ o) _ _
                (level_resized l (Order.size_ o) new_size) _
                (proj1 (Hs (Order.side_ o))) Hf) as E.
  unfold OrderBook.getBidLevelCount, OrderBook.getAskLevelCount.
  by destruct (Order.side_ o); simpl in *.
Qed.

End add_then_remove.

(** * The message handler *)

Section handler_facts.
Variable stod : string → option double.
Variable clock : nat → Z.
Variable processL2Update : CoinbaseHandler.t → Json.t → CoinbaseHandler.outcome.
Implicit Types (st : CoinbaseHandler.t) (j : Json.t) (h : heap) (b : OrderBook.t).

Lemma field_contains j key v : field j key = Some v → Json.contains j key = true.
Proof.
  destruct j; simpl; try done. intros Hf. apply bool_decide_eq_true. by rewrite Hf.
Qed.

Lemma field_None_contains j key : field j key = None → Json.contains j key = false.
Proof.
  destruct j; simpl; try done. intros Hf. apply bool_decide_eq_false.
  rewrite Hf. by intros [? [=]].
Qed.

Lemma contains_field j key : Json.contains j key = true → ∃ v, field j key = Some v.
Proof.
  destruct j; simpl; try done. intros Hc. by apply bool_decide_eq_true in Hc as [v Hv]; eauto.
Qed.

Lemma field_at_key j key v : field j key = Some v → Json.at_key j key = Ok v.
Proof. destruct j; simpl; try done. by intros ->. Qed.

Lemma field_at_key_mut j key v : field j key = Some v → Json.at_key_mut j key = Ok v.
Proof. destruct j; simpl; try done. by intros ->. Qed.

Lemma book_wf_clear h b : book_wf h (OrderBook.clear b).
Proof. apply (book_wf_new h (OrderBook.symbol_ b)). Qed.

Lemma prefix_ne (s : string) : "bid-" +:+ s ≠ "ask-" +:+ s.
Proof. simpl. discriminate. Qed.

Lemma processTicker_replaces st j symbol b (sequence_str : string)
    (best_bid best_bid_size best_ask best_ask_size : double) :
  field j "product_id" = Some (Json.String symbol) →
  CoinbaseHandler.order_books_ st !! symbol = Some b →
  CoinbaseHandler.ticker_field stod j "best_bid" = Ok best_bid →
  CoinbaseHandler.ticker_field stod j "best_bid_size" = Ok best_bid_size →
  CoinbaseHandler.ticker_field stod j "best_ask" = Ok best_ask →
  CoinbaseHandler.ticker_field stod j "best_ask_size" = Ok best_ask_size →
  CoinbaseHandler.ticker_sequence j = Ok sequence_str →
  let h := CoinbaseHandler.heap_ st in
  let bid := Order.make ("bid-" +:+ sequence_str) BUY best_bid best_bid_size
               (clock (length h)) in
  let ask := Order.make ("ask-" +:+ sequence_str) SELL best_ask best_ask_size
               (clock (S (length h))) in
  CoinbaseHandler.processTicker stod clock st j
  = CoinbaseHandler.Returned
      (CoinbaseHandler.make (h ++ [bid; ask])
         (<[symbol := ticker_book b (length h) bid ask]> (CoinbaseHandler.order_books_ st)))
  ∧ book_wf (h ++ [bid; ask]) (ticker_book b (length h) bid ask).
Proof.
  intros Hsym Hbook Hb Hbs Ha Has Hseq h bid ask.
  assert (length (h ++ [bid]) = S (length h)) as Hlen by (rewrite length_app; simpl; lia).
  assert ((h ++ [bid]) ++ [ask] = h ++ [bid; ask]) as Happ by (by rewrite <-app_assoc).
  assert ((h ++ [bid; ask]) !! length h = Some bid) as Hbid.
  { rewrite lookup_app_r by lia. by rewrite Nat.sub_diag. }
  assert ((h ++ [bid; ask]) !! S (length h) = Some ask) as Hask.
  { rewrite lookup_app_r by lia. by replace (S (length h) - length h)%nat with 1%nat by lia. }
  pose proof (book_wf_clear (h ++ [bid; ask]) b) as Hwf0.
  assert (OrderBook.orders_ (OrderBook.clear b) !! Order.id_ bid = None) as Hfree0 by done.
  pose proof (book_wf_plus _ _ _ _ Hwf0 Hbid Hfree0) as Hwf1.
  assert (OrderBook.orders_ (book_plus (OrderBook.clear b) (length h) bid) !! Order.id_ ask = None)
    as Hfree1.
  { unfold book_plus. rewrite orders_set_book, lookup_insert_ne; [done|]. apply prefix_ne. }
  split; [|by apply book_wf_plus].
  unfold CoinbaseHandler.processTicker, CoinbaseHandler.string_field.
  rewrite (field_at_key _ _ _ Hsym). simpl.
  unfold CoinbaseHandler.getOrderBook. rewrite Hbook.
  rewrite Hb, Hbs, Ha, Has, Hseq. simpl.
  unfold make_shared. fold h. fold bid. rewrite Hlen. fold ask. rewrite Happ.
  unfold CoinbaseHandler.on_book; simpl. rewrite Hbook.
  rewrite (addOrder_fresh _ _ _ _ Hwf0 Hbid Hfree0). simpl.
  rewrite (addOrder_fresh _ _ _ _ Hwf1 Hask Hfree1). done.
Qed.

Lemma ticker_field_contains j key (x : double) :
  CoinbaseHandler.ticker_field stod j key = Ok x → Json.contains j key = true.
Proof.
  unfold CoinbaseHandler.ticker_field, Json.at_key, Json.contains.
  destruct j as [| | | | | |fields]; try done.
  destruct (Json.assoc fields key) eqn:E; [|done]. intros _.
  by apply bool_decide_eq_true.
Qed.

(** *** Snapshots *)

Lemma book_extends_refl h b : book_wf h b → book_extends h b h b [].
Proof.
  intros Hwf. split; [done|]. split; [exists []; by rewrite app_nil_r|].
  split; [done|]. intros id. rewrite elem_of_nil. tauto.
Qed.

Lemma book_extends_trans h b h1 b1 h2 b2 ids1 ids2 :
  book_extends h b h1 b1 ids1 → book_extends h1 b1 h2 b2 ids2 →
  book_extends h b h2 b2 (ids1 ++ ids2).
Proof.
  intros (_ & [hx ->] & Hkeep1 & Hids1) (Hwf & [hy ->] & Hkeep2 & Hids2).
  split; [done|]. split; [exists (hx ++ hy); by rewrite app_assoc|].
  split; [by auto|]. intros id. rewrite Hids2, Hids1, elem_of_app. tauto.
Qed.

Lemma add_new_order_extends now id side (price size : double) h b :
  book_wf h b →
  ∃ b', CoinbaseHandler.add_new_order now id side price size h b
        = Some (h ++ [Order.make id side price size now], b')
        ∧ book_extends h b (h ++ [Order.make id side price size now]) b' [id].
Proof.
  intros Hwf. set (o := Order.make id side price size now).
  assert (book_wf (h ++ [o]) b) as Hwf1
    by (eapply book_wf_heap_le; [apply heap_le_app | done]).
  assert ((h ++ [o]) !! length h = Some o) as Ho
    by (by rewrite lookup_app_r, Nat.sub_diag).
  unfold CoinbaseHandler.add_new_order, make_shared. fold o.
  destruct (OrderBook.orders_ b !! id) as [a|] eqn:Hid.
  - exists b. rewrite (addOrder_duplicate _ _ _ o Ho) by (by simpl; rewrite Hid).
    split; [done|]. split; [done|]. split; [by exists [o]|]. split; [done|].
    intros id'. rewrite list_elem_of_singleton. split; [by left|].
    intros [?| ->]; [done|]. unfold OrderBook.getOrder. by rewrite Hid.
  - exists (book_plus b (length h) o).
    rewrite (addOrder_fresh _ _ _ o Hwf1 Ho) by done.
    split; [done|]. split; [by apply book_wf_plus|]. split; [by exists [o]|].
    unfold OrderBook.getOrder, book_plus. rewrite orders_set_book. simpl. split.
    + intros id' a Hid'. rewrite lookup_insert_ne; [done|]. congruence.
    + intros id'. rewrite list_elem_of_singleton, lookup_insert_is_Some.
      destruct (decide (id = id')) as [->|Hne]; [split; auto|].
      split; [intros [?|[_ ?]]; [done | by left] | intros [?| ->]; [|done]; by right].
Qed.

Lemma entry_ids_cons prefix entry entries (price size : double) (order_id : string) :
  CoinbaseHandler.snapshot_entry stod prefix entry = Ok (price, size, order_id) →
  entry_ids stod prefix (entry :: entries) = order_id :: entry_ids stod prefix entries.
Proof. intros E. unfold entry_ids; simpl. by rewrite E. Qed.

Lemma snapshot_loop_extends side prefix symbol entries : ∀ st b,
  CoinbaseHandler.order_books_ st !! symbol = Some b →
  book_wf (CoinbaseHandler.heap_ st) b →
  Forall (entry_ok stod prefix) entries →
  ∃ h' b',
    CoinbaseHandler.snapshot_loop stod clock side prefix symbol st entries
    = CoinbaseHandler.Returned
        (CoinbaseHandler.make h' (<[symbol := b']> (CoinbaseHandler.order_books_ st)))
    ∧ book_extends (CoinbaseHandler.heap_ st) b h' b' (entry_ids stod prefix entries).
Proof.
  induction entries as [|entry entries IH]; intros st b Hb Hwf Hok.
  - exists (CoinbaseHandler.heap_ st), b. simpl. rewrite insert_id by done.
    split; [by destruct st | by apply book_extends_refl].
  - apply Forall_cons in Hok as [[[[price size] order_id] Hentry] Hok].
    rewrite (entry_ids_cons _ _ _ _ _ _ Hentry).
    cbn [CoinbaseHandler.snapshot_loop]. rewrite Hentry.
    unfold CoinbaseHandler.on_book. rewrite Hb.
    destruct (add_new_order_extends (clock (length (CoinbaseHandler.heap_ st)))
                order_id side price size _ b Hwf) as (b1 & -> & Hext1).
    set (h1 := CoinbaseHandler.heap_ st ++ _) in *.
    destruct (IH (CoinbaseHandler.make h1 (<[symbol := b1]> (CoinbaseHandler.order_books_ st))) b1)
      as (h' & b' & -> & Hext2);
      [simpl; by rewrite lookup_insert_eq | simpl; by destruct Hext1 | done |].
    exists h', b'. simpl. rewrite insert_insert_eq. split; [done|].
    by apply (book_extends_trans _ _ h1 b1 _ _ [order_id]).
Qed.

(** A malformed entry ends the loop where it stands. *)
Lemma snapshot_loop_bad side prefix symbol bad rest good : ∀ st,
  CoinbaseHandler.snapshot_entry stod prefix bad = Throw →
  CoinbaseHandler.snapshot_loop stod clock side prefix symbol st (good ++ bad :: rest)
  = match CoinbaseHandler.snapshot_loop stod clock side prefix symbol st good with
    | CoinbaseHandler.Returned st' => CoinbaseHandler.Thrown st'
    | other => other
    end.
Proof.
  intros st Hbad. revert st. induction good as [|entry good IH]; intros st; simpl.
  - by rewrite Hbad.
  - destruct (CoinbaseHandler.snapshot_entry stod prefix entry) as [[[price size] order_id]| |];
      [|done..].
    destruct (CoinbaseHandler.on_book _ _ _); [apply IH | done..].
Qed.

Lemma processSnapshot_extends st j symbol b bids asks :
  field j "product_id" = Some (Json.String symbol) →
  CoinbaseHandler.order_books_ st !! symbol = Some b →
  book_wf (CoinbaseHandler.heap_ st) b →
  field j "bids" = Some bids → field j "asks" = Some asks →
  Forall (entry_ok stod "bid-") (Json.items bids) →
  Forall (entry_ok stod "ask-") (Json.items asks) →
  ∃ h' b',
    CoinbaseHandler.processSnapshot stod clock st j
    = CoinbaseHandler.Returned
        (CoinbaseHandler.make h' (<[symbol := b']> (CoinbaseHandler.order_books_ st)))
    ∧ book_extends (CoinbaseHandler.heap_ st) b h' b'
        (entry_ids stod "bid-" (Json.items bids) ++ entry_ids stod "ask-" (Json.items asks)).
Proof.
  intros Hsym Hb Hwf Hbids Hasks Hokb Hoka.
  unfold CoinbaseHandler.processSnapshot, CoinbaseHandler.string_field.
  rewrite (field_contains _ _ _ Hsym), (field_contains _ _ _ Hbids),
    (field_contains _ _ _ Hasks), (field_at_key _ _ _ Hsym),
    (field_at_key _ _ _ Hbids), (field_at_key _ _ _ Hasks). simpl.
  unfold CoinbaseHandler.getOrderBook. rewrite Hb.
  destruct (snapshot_loop_extends BUY "bid-" symbol _ st b Hb Hwf Hokb)
    as (h1 & b1 & -> & Hext1).
  set (st1 := CoinbaseHandler.make h1 _).
  destruct (snapshot_loop_extends SELL "ask-" symbol (Json.items asks) st1 b1)
    as (h2 & b2 & -> & Hext2);
    [by apply lookup_insert_eq | by destruct Hext1 | done |].
  exists h2, b2. simpl. rewrite insert_insert_eq. split; [done|].
  by apply (book_extends_trans _ _ h1 b1).
Qed.

(** *** The dispatch of [handleMessage] *)

Local Abbreviation handle := (CoinbaseHandler.handleMessage stod clock processL2Update).

Lemma handle_no_type st j : field j "type" = None → handle st j = Some st.
Proof.
  unfold CoinbaseHandler.handleMessage, Json.at_key_mut.
  destruct j as [| | | | | |fields]; simpl; try done. by intros ->.
Qed.

Lemma handle_snapshot st j :
  field j "type" = Some (Json.String "snapshot") →
  handle st j = finish (CoinbaseHandler.processSnapshot stod clock st j).
Proof.
  intros Ht. unfold CoinbaseHandler.handleMessage.
  by rewrite (field_at_key_mut _ _ _ Ht).
Qed.

Lemma handle_ticker st j :
  field j "type" = Some (Json.String "ticker") →
  handle st j =
  if Json.contains j "product_id"
     && Json.contains j "best_bid" && Json.contains j "best_ask"
     && Json.contains j "best_bid_size" && Json.contains j "best_ask_size"
  then finish (CoinbaseHandler.processTicker stod clock st j)
  else Some st.
Proof.
  intros Ht. unfold CoinbaseHandler.handleMessage.
  by rewrite (field_at_key_mut _ _ _ Ht).
Qed.

Lemma handle_l3 st j (type : string) :
  field j "type" = Some (Json.String type) →
  type ∈ ["received"; "open"; "done"; "match"; "change"] →
  handle st j = finish (CoinbaseHandler.processL3Update stod clock st j).
Proof.
  intros Ht Hin. unfold CoinbaseHandler.handleMessage.
  rewrite (field_at_key_mut _ _ _ Ht).
  repeat (apply elem_of_cons in Hin as [->|Hin]; [done|]).
  by apply elem_of_nil in Hin.
Qed.

(** *** Messages that leave the state as it is *)

Lemma string_field_defined j key :
  Json.contains j key = true → CoinbaseHandler.string_field j key ≠ Undefined.
Proof.
  intros [v Hv]%contains_field. unfold CoinbaseHandler.string_field.
  rewrite (field_at_key _ _ _ Hv). simpl. by destruct v.
Qed.

Lemma stod_field_defined j key :
  Json.contains j key = true → CoinbaseHandler.stod_field stod j key ≠ Undefined.
Proof.
  intros [v Hv]%contains_field. unfold CoinbaseHandler.stod_field.
  rewrite (field_at_key _ _ _ Hv). simpl. destruct v; simpl; try done.
  unfold CoinbaseHandler.stod_result. by destruct (stod s).
Qed.

Lemma ticker_field_defined j key :
  Json.contains j key = true → CoinbaseHandler.ticker_field stod j key ≠ Undefined.
Proof.
  intros [v Hv]%contains_field. unfold CoinbaseHandler.ticker_field.
  rewrite (field_at_key _ _ _ Hv). simpl.
  unfold CoinbaseHandler.getDoubleValue, CoinbaseHandler.stod_result.
  destruct v; simpl; try done. by destruct (stod s).
Qed.

(** Split on how the next read of a field ends; a checked field is never
    undefined. *)
Local Ltac next_field :=
  match goal with
  | |- context [CoinbaseHandler.with_result _ ?r _] =>
      let E := fresh "E" in
      destruct r eqn:E; simpl; try done; try congruence;
      try (exfalso;
           match type of E with
           | CoinbaseHandler.string_field ?j ?k = _ => apply (string_field_defined j k)
           | CoinbaseHandler.stod_field _ ?j ?k = _ => apply (stod_field_defined j k)
           | CoinbaseHandler.ticker_field _ ?j ?k = _ => apply (ticker_field_defined j k)
           end; assumption)
  end.

Local Ltac check_field key :=
  let C := fresh "C" in
  destruct (Json.contains _ key) eqn:C; simpl; try done.

Lemma processSnapshot_missing st j key :
  key ∈ ["product_id"; "bids"; "asks"] → field j key = None →
  finish (CoinbaseHandler.processSnapshot stod clock st j) = Some st.
Proof.
  intros Hkey Hnone%field_None_contains. unfold CoinbaseHandler.processSnapshot.
  check_field "product_id". next_field.
  destruct (CoinbaseHandler.getOrderBook st a); [|done].
  repeat (apply elem_of_cons in Hkey as [->|Hkey]; [by rewrite ?Hnone, ?orb_true_r in *|]).
  by apply elem_of_nil in Hkey.
Qed.

Lemma processL3Update_missing st j (type key : string) :
  field j "type" = Some (Json.String type) →
  type ∈ ["received"; "open"; "done"; "match"; "change"] →
  key ∈ checked_fields type → field j key = None →
  finish (CoinbaseHandler.processL3Update stod clock st j) = Some st.
Proof.
  intros Ht Hin Hkey Hnone%field_None_contains.
  unfold CoinbaseHandler.processL3Update.
  check_field "product_id". next_field.
  destruct (CoinbaseHandler.getOrderBook st a) as [order_book|]; [|done].
  unfold CoinbaseHandler.string_field at 1. rewrite (field_at_key _ _ _ Ht). simpl.
  repeat (apply elem_of_cons in Hin as [->|Hin];
    [simpl in Hkey |- *;
     repeat (apply elem_of_cons in Hkey as [->|Hkey];
             [by rewrite ?Hnone, ?orb_true_r in * |]);
     by apply elem_of_nil in Hkey |]).
  by apply elem_of_nil in Hin.
Qed.

Lemma processL3Update_malformed st j (type key : string) :
  field j "type" = Some (Json.String type) →
  key ∈ numeric_fields type →
  CoinbaseHandler.stod_field stod j key = Throw →
  finish (CoinbaseHandler.processL3Update stod clock st j) = Some st.
Proof.
  intros Ht Hkey Hbad. unfold CoinbaseHandler.processL3Update.
  check_field "product_id". next_field.
  destruct (CoinbaseHandler.getOrderBook st a) as [order_book|]; [|done].
  unfold CoinbaseHandler.string_field at 1. rewrite (field_at_key _ _ _ Ht). simpl.
  unfold numeric_fields in Hkey.
  destruct (bool_decide (type = "received") || bool_decide (type = "open")) eqn:T1.
  { check_field "order_id". check_field "side". check_field "price". check_field "size".
    repeat (apply elem_of_cons in Hkey as [->|Hkey]; [by repeat next_field|]).
    by apply elem_of_nil in Hkey. }
  apply orb_false_iff in T1 as [T1 T2].
  apply bool_decide_eq_false in T1, T2.
  case_bool_decide as T3; [subst type|].
  { simpl. check_field "maker_order_id". check_field "size".
    repeat (apply elem_of_cons in Hkey as [->|Hkey]; [by repeat next_field|]).
    by apply elem_of_nil in Hkey. }
  case_bool_decide as T4; [subst type|by apply elem_of_nil in Hkey].
  simpl. check_field "order_id". check_field "new_size".
  repeat (apply elem_of_cons in Hkey as [->|Hkey]; [by repeat next_field|]).
  by apply elem_of_nil in Hkey.
Qed.

Lemma processTicker_malformed st j (key : string) :
  Json.contains j "product_id" = true → Json.contains j "best_bid" = true →
  Json.contains j "best_ask" = true → Json.contains j "best_bid_size" = true →
  Json.contains j "best_ask_size" = true →
  key ∈ ["best_bid"; "best_bid_size"; "best_ask"; "best_ask_size"] →
  CoinbaseHandler.ticker_field stod j key = Throw →
  finish (CoinbaseHandler.processTicker stod clock st j) = Some st.
Proof.
  intros C1 C2 C3 C4 C5 Hkey Hbad. unfold CoinbaseHandler.processTicker.
  next_field. destruct (CoinbaseHandler.getOrderBook st a); [|done].
  repeat (apply elem_of_cons in Hkey as [->|Hkey]; [by repeat next_field|]).
  by apply elem_of_nil in Hkey.
Qed.

(** *** A snapshot is cut off at a malformed entry *)

Lemma processSnapshot_cut_bids st symbol good bad rest asks :
  CoinbaseHandler.snapshot_entry stod "bid-" bad = Throw →
  finish (CoinbaseHandler.processSnapshot stod clock st
            (snapshot_msg symbol (good ++ bad :: rest) asks))
  = finish (CoinbaseHandler.processSnapshot stod clock st (snapshot_msg symbol good [])).
Proof.
  intros Hbad.
  unfold CoinbaseHandler.processSnapshot, CoinbaseHandler.string_field, snapshot_msg.
  cbn [Json.contains Json.at_key Json.assoc]. simpl.
  destruct (CoinbaseHandler.getOrderBook st symbol); [|done].
  rewrite (snapshot_loop_bad _ _ _ _ _ _ _ Hbad).
  by destruct (CoinbaseHandler.snapshot_loop stod clock BUY "bid-" symbol st good).
Qed.

Lemma processSnapshot_cut_asks st symbol bids good bad rest :
  CoinbaseHandler.snapshot_entry stod "ask-" bad = Throw →
  finish (CoinbaseHandler.processSnapshot stod clock st
            (snapshot_msg symbol bids (good ++ bad :: rest)))
  = finish (CoinbaseHandler.processSnapshot stod clock st (snapshot_msg symbol bids good)).
Proof.
  intros Hbad.
  unfold CoinbaseHandler.processSnapshot, CoinbaseHandler.string_field, snapshot_msg.
  cbn [Json.contains Json.at_key Json.assoc]. simpl.
  destruct (CoinbaseHandler.getOrderBook st symbol); [|done].
  destruct (CoinbaseHandler.snapshot_loop stod clock BUY "bid-" symbol st bids)
    as [st1| |]; [|done..].
  rewrite (snapshot_loop_bad _ _ _ _ _ _ _ Hbad).
  by destruct (CoinbaseHandler.snapshot_loop stod clock SELL "ask-" symbol st1 good).
Qed.

(** *** The book a ticker leaves *)

Lemma ticker_book_orders b (n : nat) (id1 id2 : string) (p1 s1 p2 s2 : double) (t1 t2 : Z) :
  OrderBook.orders_
    (ticker_book b n (Order.make id1 BUY p1 s1 t1) (Order.make id2 SELL p2 s2 t2))
  = <[id2 := S n]> (<[id1 := n]> ∅).
Proof. done. Qed.

Lemma ticker_book_best b (n : nat) (id1 id2 : string) (p1 s1 p2 s2 : double) (t1 t2 : Z) :
  let b' := ticker_book b n (Order.make id1 BUY p1 s1 t1) (Order.make id2 SELL p2 s2 t2) in
  OrderBook.getBestBid b' = p1 ∧ OrderBook.getBestAsk b' = p2
  ∧ OrderBook.getBidLevelCount b' = 1%nat ∧ OrderBook.getAskLevelCount b' = 1%nat.
Proof. done. Qed.

End handler_facts.

(** * The worked examples are well formed *)

Lemma ex_one_bid_run :
  book_run ([], OrderBook.new "BTC-USD") ex_one_bid_ops = Some ex_one_bid.
Proof. vm_compute. reflexivity. Qed.

Lemma ex_one_bid_wf : book_wf ex_one_bid.1 ex_one_bid.2.
Proof.
  destruct (book_run_wf ex_one_bid_ops [] (OrderBook.new "BTC-USD"))
    as (h & b & Hrun & Hwf).
  - apply book_wf_new.
  - by vm_compute.
  - rewrite ex_one_bid_run in Hrun. by injection Hrun as <- <-.
Qed.

(** * The unit tests of the repository, replayed on the model *)

(** [OrderTests.ReduceSize] *)
Example test_Order_ReduceSize :
  let r1 := Order.reduceSize test_order (dec 1 2) in
  let r2 := Order.reduceSize r1.1 (dec 2 1) in
  let r3 := Order.reduceSize r2.1 (dec (-1) 2) in
  (r1.2, Order.size_ r1.1, r2.2, Order.size_ r2.1, r3.2, Order.size_ r3.1)
  = (true, dec 1 1, false, dec 1 1, false, dec 1 1).
Proof. compute_done. Qed.

(** [PriceLevelTests.AddOrder] *)
Example test_PriceLevel_AddOrder :
  (r1 ← PriceLevel.addOrder test_level_heap (PriceLevel.new (dec 100 1)) 0;
   r2 ← PriceLevel.addOrder test_level_heap r1.1 1;
   r3 ← PriceLevel.addOrder test_level_heap r2.1 2;
   r4 ← PriceLevel.addOrder test_level_heap r3.1 0;
   Some (r1.2, PriceLevel.getOrderCount r1.1, PriceLevel.getTotalSize r1.1,
         r2.2, PriceLevel.getOrderCount r2.1, PriceLevel.getTotalSize r2.1,
         r3.2, r4.2))
  = Some (true, 1%nat, dec 3 2, true, 2%nat, dec 4 1, false, false).
Proof. compute_done. Qed.

(** [PriceLevelTests.RemoveOrder] *)
Example test_PriceLevel_RemoveOrder :
  (r1 ← PriceLevel.addOrder test_level_heap (PriceLevel.new (dec 100 1)) 0;
   r2 ← PriceLevel.addOrder test_level_heap r1.1 1;
   r3 ← PriceLevel.removeOrder test_level_heap r2.1 "test-order-1";
   r4 ← PriceLevel.removeOrder test_level_heap r3.1 "non-existent";
   r5 ← PriceLevel.removeOrder test_level_heap r4.1 "test-order-2";
   Some (r3.2, PriceLevel.getOrderCount r3.1, PriceLevel.getTotalSize r3.1,
         r4.2,
         r5.2, PriceLevel.getOrderCount r5.1, PriceLevel.getTotalSize r5.1,
         PriceLevel.isEmpty r5.1))
  = Some (true, 1%nat, dec 5 2, false, true, 0%nat, dec 0 1, true).
Proof. compute_done. Qed.

(** [PriceLevelTests.UpdateOrder] *)
Example test_PriceLevel_UpdateOrder :
  (r1 ← PriceLevel.addOrder test_level_heap (PriceLevel.new (dec 100 1)) 0;
   r2 ← PriceLevel.updateOrder test_level_heap r1.1 "test-order-1" (dec 3 1);
   r3 ← PriceLevel.updateOrder r2.1.1 r2.1.2 "non-existent" (dec 1 1);
   Some (r2.2, PriceLevel.getTotalSize r2.1.2, r3.2))
  = Some (true, dec 3 1, false).
Proof. compute_done. Qed.

(** [OrderBookTests.AddOrder] *)
Example test_OrderBook_AddOrder :
  (b ← test_book;
   r ← OrderBook.addOrder test_book_heap b 0;
   Some (OrderBook.getOrderCount b, OrderBook.getBidLevelCount b,
         OrderBook.getAskLevelCount b, r.2))
  = Some (4%nat, 2%nat, 2%nat, false).
Proof. compute_done. Qed.

(** [OrderBookTests.RemoveOrder] *)
Example test_OrderBook_RemoveOrder :
  (r1 ← OrderBook.addOrder test_book_heap (OrderBook.new "BTC-USD") 0;
   r2 ← OrderBook.addOrder test_book_heap r1.1 1;
   r3 ← OrderBook.removeOrder test_book_heap r2.1 "bid-1";
   r4 ← OrderBook.removeOrder test_book_heap r3.1 "non-existent";
   Some (r3.2, OrderBook.getOrderCount r3.1, OrderBook.getBidLevelCount r3.1, r4.2))
  = Some (true, 1%nat, 1%nat, false).
Proof. compute_done. Qed.

(** [OrderBookTests.ModifyOrder] *)
Example test_OrderBook_ModifyOrder :
  (r1 ← OrderBook.addOrder test_book_heap (OrderBook.new "BTC-USD") 0;
   r2 ← OrderBook.modifyOrder test_book_heap r1.1 "bid-1" (dec 3 1);
   r3 ← OrderBook.modifyOrder r2.1.1 r2.1.2 "non-existent" (dec 1 1);
   Some (r2.2, r3.2))
  = Some (true, false).
Proof. compute_done. Qed.

(** [OrderBookTests.BestBidAsk] *)
Example test_OrderBook_BestBidAsk :
  (b ← test_book;
   Some (OrderBook.getBestBid (OrderBook.new "BTC-USD"),
         OrderBook.getBestAsk (OrderBook.new "BTC-USD"),
         OrderBook.getBestBid b, OrderBook.getBestAsk b,
         OrderBook.getSpread b, OrderBook.getMidpointPrice b))
  = Some (dec 0 1, DBL_MAX, dec 100 1, dec 101 1, dec 1 1, dec 201 2).
Proof. compute_done. Qed.

(** [OrderBookTests.GetLevels] *)
Example test_OrderBook_GetLevels :
  (b ← test_book; Some (OrderBook.getBidLevels b 10, OrderBook.getAskLevels b 10))
  = Some ([(dec 100 1, dec 3 2); (dec 99 1, dec 5 2)],
          [(dec 101 1, dec 1 1); (dec 102 1, dec 2 1)]).
Proof. compute_done. Qed.

(** [OrderBookTests.ProcessL3Update] *)
Example test_OrderBook_ProcessL3Update :
  (s1 ← OrderBook.processL3Update 0 [] (OrderBook.new "BTC-USD")
          "open" "bid-1" BUY (dec 100 1) (dec 3 2);
   s2 ← OrderBook.processL3Update 1 s1.1 s1.2 "done" "bid-1" BUY 0 0;
   Some (OrderBook.getOrderCount s1.2, OrderBook.getBestBid s1.2,
         OrderBook.getOrderCount s2.2, OrderBook.getBestBid s2.2))
  = Some (1%nat, dec 100 1, 0%nat, dec 0 1).
Proof. compute_done. Qed.

(** * The scenarios of the specification, replayed on the model *)

(** Scenario A: best prices, spread, midpoint and the level snapshots. *)
Example scenario_A_book :
  (λ b, (OrderBook.getBestBid b, OrderBook.getBestAsk b, OrderBook.getSpread b,
         OrderBook.getMidpointPrice b, OrderBook.getBidLevels b 10,
         OrderBook.getAskLevels b 10))
    <$> ex_book_after (ex_feed ex_empty_handler scenario_A)
  = Some (dec 100 1, dec 101 1, dec 1 1, dec 201 2,
          [(dec 100 1, dec 3 2); (dec 99 1, dec 5 2)],
          [(dec 101 1, dec 1 1); (dec 102 1, dec 2 1)]).
Proof. compute_done. Qed.

(** Scenario B: a match of 0.5 against b1 leaves it resting with size 1. *)
Example scenario_B_partial_fill :
  (λ b, (OrderBook.getOrderCount b, OrderBook.getBidLevels b 1))
    <$> ex_book_after (ex_feed ex_empty_handler (scenario_A ++ [match_msg "b1" "0.5"]))
  = Some (4%nat, [(dec 100 1, dec 1 1)]).
Proof. compute_done. Qed.

(** Scenario C: a match of 1.0 against a1 removes it and its level. *)
Example scenario_C_full_fill :
  (λ b, (OrderBook.getOrder b "a1", OrderBook.getBestAsk b, OrderBook.getAskLevelCount b))
    <$> ex_book_after (ex_feed ex_empty_handler (scenario_A ++ [match_msg "a1" "1.0"]))
  = Some (None, dec 102 1, 1%nat).
Proof. compute_done. Qed.

(** A change to size 0 goes to [modifyOrder] as it is: b1 stays in the
    book, with size 0. *)
Example change_to_zero_keeps_the_order :
  (λ b, (OrderBook.getOrder b "b1", OrderBook.getOrderCount b, OrderBook.getBidLevels b 1))
    <$> ex_book_after (ex_feed ex_empty_handler (scenario_A ++ [change_msg "b1" "0"]))
  = Some (Some 0%nat, 4%nat, [(dec 100 1, dec 0 1)]).
Proof. compute_done. Qed.

(** Scenario F: the metrics of bids [(100,10); (99,20)] and asks
    [(101,10); (102,20)]. *)
Example scenario_F_metrics :
  let m := ConsoleVisualizer.calculateHFTMetrics ex_metrics
             [(dec 100 1, dec 10 1); (dec 99 1, dec 20 1)]
             [(dec 101 1, dec 10 1); (dec 102 1, dec 20 1)] in
  (ConsoleVisualizer.order_book_imbalance_ m, ConsoleVisualizer.market_pressure_ m,
   ConsoleVisualizer.spread_bps_ m, ConsoleVisualizer.vwap_bid_ m,
   ConsoleVisualizer.vwap_ask_ m, ConsoleVisualizer.price_impact_1pct_ m)
  = (dec 1 1, dec 0 1, dec 20000 201, dec 2980 30, dec 3050 30, dec 0 1).
Proof. compute_done. Qed.

(** * The claims *)

(** ** Price levels and the book *)



(** C6.  Run any sequence of [addOrder], [removeOrder], [modifyOrder] and
    [processL3Update] calls on a new book (the pointers handed to
    [addOrder] pointing at existing orders).  After every prefix of the
    sequence the calls have all returned and [getOrderCount] is the sum of
    the per-level order counts over the bid levels and the ask levels. *)
Theorem C6_order_count_is_sum_of_level_counts (h0 : heap) (symbol : string)
    (ops : list book_op) (n : nat) :
  book_ops_ok (length h0) ops →
  ∃ h b,
    book_run (h0, OrderBook.new symbol) (take n ops) = Some (h, b)
    ∧ OrderBook.getOrderCount b
      = (StdMap.total PriceLevel.getOrderCount (OrderBook.bid_levels_ b)
         + StdMap.total PriceLevel.getOrderCount (OrderBook.ask_levels_ b))%nat.
Proof.
  intros Hok.
  destruct (book_run_wf (take n ops) h0 (OrderBook.new symbol)) as (h & b & Hrun & Hwf).
  - apply book_wf_new.
  - by apply book_ops_ok_take.
  - exists h, b. split; [done|]. by destruct Hwf as (_ & _ & Hc).
Qed.

Lemma C6_witness :
  book_ops_ok (length ([] : list Order.t)) ex_book_ops
  ∧ ∃ h b,
      book_run ([], OrderBook.new "BTC-USD") (take 5 ex_book_ops) = Some (h, b)
      ∧ OrderBook.getOrderCount b
        = (StdMap.total PriceLevel.getOrderCount (OrderBook.bid_levels_ b)
           + StdMap.total PriceLevel.getOrderCount (OrderBook.ask_levels_ b))%nat.
Proof.
  assert (book_ops_ok (length ([] : list Order.t)) ex_book_ops) as Hok
    by (simpl; repeat split; lia).
  split; [exact Hok|].
  exact (C6_order_count_is_sum_of_level_counts [] "BTC-USD" ex_book_ops 5 Hok).
Defined.

(** C9.  [addOrder] of an order whose id already rests in the book,
    [removeOrder] of an id that does not rest in it and [modifyOrder] of
    such an id each return false; the call returns normally and leaves the
    book (and the orders) as they were. *)
Theorem C9_logical_errors_return_false (h : heap) (b : OrderBook.t) :
  (∀ order o, h !! order = Some o →
     is_Some (OrderBook.getOrder b (Order.id_ o)) →
     OrderBook.addOrder h b order = Some (b, false))
  ∧ (∀ order_id, OrderBook.getOrder b order_id = None →
       OrderBook.removeOrder h b order_id = Some (b, false))
  ∧ (∀ order_id new_size, OrderBook.getOrder b order_id = None →
       OrderBook.modifyOrder h b order_id new_size = Some (h, b, false)).
Proof.
  split; [|split].
  - intros order o Ho Hid. by apply (addOrder_duplicate h b order o).
  - intros order_id Hid. by apply removeOrder_unknown.
  - intros order_id new_size Hid. by apply modifyOrder_unknown.
Qed.

Lemma C9_witness :
  OrderBook.addOrder ex_one_bid.1 ex_one_bid.2 0 = Some (ex_one_bid.2, false)
  ∧ OrderBook.removeOrder ex_one_bid.1 ex_one_bid.2 "y" = Some (ex_one_bid.2, false)
  ∧ OrderBook.modifyOrder ex_one_bid.1 ex_one_bid.2 "y" (dec 3 1)
    = Some (ex_one_bid.1, ex_one_bid.2, false).
Proof.
  destruct (C9_logical_errors_return_false ex_one_bid.1 ex_one_bid.2)
    as (Hadd & Hremove & Hmodify).
  split; [|split].
  - apply (Hadd 0%nat (Order.make "x" BUY (dec 100 1) (dec 1 1) 0)).
    + reflexivity.
    + exists 0%nat. reflexivity.
  - apply Hremove. reflexivity.
  - apply Hmodify. reflexivity.
Defined.

(** C10.  With no bid level [getBestBid] is 0.0, with no ask level
    [getBestAsk] is the largest finite double, and the two sentinels
    differ.  [getSpread] and [getMidpointPrice] answer 0 as soon as the
    best bid is 0.0 or the best ask is that maximum, and otherwise (best
    bid above 0, best ask below the maximum) the difference and the mean of
    the two prices. *)
Theorem C10_empty_side_sentinels (b : OrderBook.t) :
  (OrderBook.getBidLevelCount b = 0%nat → OrderBook.getBestBid b = 0)
  ∧ (OrderBook.getAskLevelCount b = 0%nat → OrderBook.getBestAsk b = DBL_MAX)
  ∧ (0 : double) ≠ DBL_MAX
  ∧ (OrderBook.getBestBid b = 0 ∨ OrderBook.getBestAsk b = DBL_MAX →
       OrderBook.getSpread b = 0 ∧ OrderBook.getMidpointPrice b = 0)
  ∧ (0 < OrderBook.getBestBid b → OrderBook.getBestAsk b < DBL_MAX →
       OrderBook.getSpread b = OrderBook.getBestAsk b - OrderBook.getBestBid b
       ∧ OrderBook.getMidpointPrice b
         = (OrderBook.getBestBid b + OrderBook.getBestAsk b) / 2).
Proof.
  split; [|split; [|split; [|split]]].
  - unfold OrderBook.getBidLevelCount, OrderBook.getBestBid.
    by destruct (OrderBook.bid_levels_ b).
  - unfold OrderBook.getAskLevelCount, OrderBook.getBestAsk.
    by destruct (OrderBook.ask_levels_ b).
  - intros H. apply Q2Qc_eq_iff in H. by vm_compute in H.
  - intros Hguard. unfold OrderBook.getSpread, OrderBook.getMidpointPrice.
    assert (bool_decide (0 < OrderBook.getBestBid b)
            && bool_decide (OrderBook.getBestAsk b < DBL_MAX) = false) as ->; [|done].
    apply andb_false_iff. destruct Hguard as [-> | ->]; [left | right];
      apply bool_decide_eq_false; intros H; by apply Qclt_not_eq in H.
  - intros Hbid Hask. unfold OrderBook.getSpread, OrderBook.getMidpointPrice.
    by rewrite !bool_decide_eq_true_2.
Qed.

Lemma C10_witness :
  OrderBook.getBestBid (OrderBook.new "BTC-USD") = 0
  ∧ OrderBook.getBestAsk (OrderBook.new "BTC-USD") = DBL_MAX
  ∧ OrderBook.getSpread (OrderBook.new "BTC-USD") = 0
  ∧ OrderBook.getMidpointPrice (OrderBook.new "BTC-USD") = 0.
Proof.
  destruct (C10_empty_side_sentinels (OrderBook.new "BTC-USD"))
    as (Hbid & Hask & _ & Hguard & _).
  split; [by apply Hbid|]. split; [by apply Hask|].
  apply Hguard. left. by apply Hbid.
Defined.

(** C1, as stated, fails: with the bid "x" resting, [modifyOrder("x", 0)]
    returns true and keeps the order in the book; [getOrder("x")] still
    finds it, and the order count and the level count stay at 1. *)
Lemma C1_counterexample :
  ∃ h' b',
    OrderBook.getOrder ex_one_bid.2 "x" = Some 0%nat
    ∧ OrderBook.modifyOrder ex_one_bid.1 ex_one_bid.2 "x" 0 = Some (h', b', true)
    ∧ OrderBook.getOrder b' "x" ≠ None
    ∧ OrderBook.getOrderCount b' = OrderBook.getOrderCount ex_one_bid.2
    ∧ OrderBook.getBidLevelCount b' = 1%nat.
Proof.
  eexists _, _. split; [reflexivity|]. split; [vm_compute; reflexivity|].
  split; [by vm_compute|]. split; reflexivity.
Qed.

(** C1, amended.  In a well-formed book where order [x] rests,
    [modifyOrder(x, new_size)] returns true for every [new_size], also one
    ≤ 0, and only rewrites the size: [getOrder(x)] still returns the order,
    whose size is now [new_size]; the order count and the level counts are
    unchanged, and the order's level stays, its total moved by
    [new_size - old_size].  It is [removeOrder(x)] after which [getOrder(x)]
    returns none, the order count is one less and the order's level is
    erased exactly if that emptied it. *)
Theorem C1_modify_rewrites_size_remove_evicts (h : heap) (b : OrderBook.t)
    (x : string) (a : addr) (new_size : double) :
  book_wf h b → OrderBook.getOrder b x = Some a →
  ∃ o l h' b' b'',
    resting h b x a o l
    ∧ OrderBook.modifyOrder h b x new_size = Some (h', b', true)
    ∧ OrderBook.getOrder b' x = Some a
    ∧ h' !! a = Some (Order.setSize o new_size)
    ∧ OrderBook.getOrderCount b' = OrderBook.getOrderCount b
    ∧ OrderBook.getBidLevelCount b' = OrderBook.getBidLevelCount b
    ∧ OrderBook.getAskLevelCount b' = OrderBook.getAskLevelCount b
    ∧ StdMap.find (comp_of (Order.side_ o)) (levels b' (Order.side_ o)) (Order.price_ o)
      = Some (PriceLevel.make (PriceLevel.price_ l)
                (PriceLevel.getTotalSize l - Order.size_ o + new_size)
                (PriceLevel.orders_ l))
    ∧ OrderBook.removeOrder h b x = Some (b'', true)
    ∧ OrderBook.getOrder b'' x = None
    ∧ OrderBook.getOrderCount b'' = pred (OrderBook.getOrderCount b)
    ∧ StdMap.find (comp_of (Order.side_ o)) (levels b'' (Order.side_ o)) (Order.price_ o)
      = (if PriceLevel.isEmpty (level_minus l x o) then None
         else Some (level_minus l x o)).
Proof.
  intros Hwf Hx. destruct (resting_intro h b x a Hwf Hx) as (o & l & Hrest).
  pose proof Hrest as (Hid & Ho & Hoid & Hf & Hl).
  exists o, l, (<[a := Order.setSize o new_size]> h), (book_resized b o l new_size),
    (book_minus b x o l).
  split; [done|]. split; [by apply modifyOrder_resting|].
  split; [unfold OrderBook.getOrder, book_resized; by rewrite orders_set_book|].
  split; [apply list_lookup_insert_eq; by eapply lookup_lt_Some|].
  split; [unfold OrderBook.getOrderCount, book_resized; by rewrite orders_set_book|].
  destruct (level_counts_resized h b x a o l new_size Hwf Hrest) as [Hbids Hasks].
  split; [done|]. split; [done|].
  split; [unfold book_resized; by rewrite levels_set_book_eq, lv_find_assign_eq|].
  split; [by apply (removeOrder_resting h b x a o l)|].
  split; [unfold OrderBook.getOrder, book_minus;
          by rewrite orders_set_book, lookup_delete_eq|].
  split.
  - unfold OrderBook.getOrderCount, book_minus. rewrite orders_set_book.
    by apply map_size_delete_Some.
  - unfold book_minus. rewrite levels_set_book_eq.
    destruct (PriceLevel.isEmpty (level_minus l x o)).
    + apply lv_find_erase_eq. by destruct Hwf as (Hs & _ & _); apply Hs.
    + apply lv_find_assign_eq.
Qed.

Lemma C1_witness :
  book_wf ex_one_bid.1 ex_one_bid.2
  ∧ OrderBook.getOrder ex_one_bid.2 "x" = Some 0%nat
  ∧ ∃ o l h' b' b'',
      resting ex_one_bid.1 ex_one_bid.2 "x" 0%nat o l
      ∧ OrderBook.modifyOrder ex_one_bid.1 ex_one_bid.2 "x" 0 = Some (h', b', true)
      ∧ OrderBook.getOrder b' "x" = Some 0%nat
      ∧ h' !! 0%nat = Some (Order.setSize o 0)
      ∧ OrderBook.getOrderCount b' = OrderBook.getOrderCount ex_one_bid.2
      ∧ OrderBook.getBidLevelCount b' = OrderBook.getBidLevelCount ex_one_bid.2
      ∧ OrderBook.getAskLevelCount b' = OrderBook.getAskLevelCount ex_one_bid.2
      ∧ StdMap.find (comp_of (Order.side_ o)) (levels b' (Order.side_ o)) (Order.price_ o)
        = Some (PriceLevel.make (PriceLevel.price_ l)
                  (PriceLevel.getTotalSize l - Order.size_ o + 0)
                  (PriceLevel.orders_ l))
      ∧ OrderBook.removeOrder ex_one_bid.1 ex_one_bid.2 "x" = Some (b'', true)
      ∧ OrderBook.getOrder b'' "x" = None
      ∧ OrderBook.getOrderCount b'' = pred (OrderBook.getOrderCount ex_one_bid.2)
      ∧ StdMap.find (comp_of (Order.side_ o)) (levels b'' (Order.side_ o)) (Order.price_ o)
        = (if PriceLevel.isEmpty (level_minus l "x" o) then None
           else Some (level_minus l "x" o)).
Proof.
  split; [exact ex_one_bid_wf|]. split; [reflexivity|].
  apply (C1_modify_rewrites_size_remove_evicts ex_one_bid.1 ex_one_bid.2 "x" 0%nat 0).
  - exact ex_one_bid_wf.
  - reflexivity.
Defined.







(** ** The claims about the message handler *)

Section handler_claims.
Variable stod : string → option double.
Variable clock : nat → Z.
Variable processL2Update : CoinbaseHandler.t → Json.t → CoinbaseHandler.outcome.
Local Abbreviation handle := (CoinbaseHandler.handleMessage stod clock processL2Update).


(** C3, amended.  A ticker for a subscribed symbol that carries the four
    best-bid/best-ask numbers and a sequence replaces the book: the two
    synthetic orders "bid-<sequence>" and "ask-<sequence>" are allocated,
    and afterwards the book holds these two orders and no other, one level
    a side, with the ticker's best bid and best ask. *)
Theorem C3_ticker_replaces_the_book (st : CoinbaseHandler.t) (j : Json.t)
    (symbol : string) (b : OrderBook.t) (sequence_str : string)
    (best_bid best_bid_size best_ask best_ask_size : double) :
  field j "type" = Some (Json.String "ticker") →
  field j "product_id" = Some (Json.String symbol) →
  CoinbaseHandler.getOrderBook st symbol = Some b →
  CoinbaseHandler.ticker_field stod j "best_bid" = Ok best_bid →
  CoinbaseHandler.ticker_field stod j "best_bid_size" = Ok best_bid_size →
  CoinbaseHandler.ticker_field stod j "best_ask" = Ok best_ask →
  CoinbaseHandler.ticker_field stod j "best_ask_size" = Ok best_ask_size →
  CoinbaseHandler.ticker_sequence j = Ok sequence_str →
  ∃ st' b',
    handle st j = Some st'
    ∧ CoinbaseHandler.getOrderBook st' symbol = Some b'
    ∧ CoinbaseHandler.heap_ st'
      = CoinbaseHandler.heap_ st
        ++ [Order.make ("bid-" +:+ sequence_str) BUY best_bid best_bid_size
              (clock (length (CoinbaseHandler.heap_ st)));
            Order.make ("ask-" +:+ sequence_str) SELL best_ask best_ask_size
              (clock (S (length (CoinbaseHandler.heap_ st))))]
    ∧ OrderBook.getOrderCount b' = 2%nat
    ∧ OrderBook.getOrder b' ("bid-" +:+ sequence_str)
      = Some (length (CoinbaseHandler.heap_ st))
    ∧ OrderBook.getOrder b' ("ask-" +:+ sequence_str)
      = Some (S (length (CoinbaseHandler.heap_ st)))
    ∧ (∀ id, id ≠ "bid-" +:+ sequence_str → id ≠ "ask-" +:+ sequence_str →
         OrderBook.getOrder b' id = None)
    ∧ OrderBook.getBestBid b' = best_bid ∧ OrderBook.getBestAsk b' = best_ask
    ∧ OrderBook.getBidLevelCount b' = 1%nat ∧ OrderBook.getAskLevelCount b' = 1%nat
    ∧ book_wf (CoinbaseHandler.heap_ st') b'.
Proof.
  intros Ht Hsym Hb Hbb Hbs Hba Has Hseq.
  destruct (processTicker_replaces stod clock st j symbol b sequence_str
              best_bid best_bid_size best_ask best_ask_size
              Hsym Hb Hbb Hbs Hba Has Hseq) as [Hrun Hwf].
  eexists _, _. rewrite (handle_ticker _ _ _ _ _ Ht), Hrun.
  rewrite (field_contains _ _ _ Hsym), (ticker_field_contains _ _ _ _ Hbb),
    (ticker_field_contains _ _ _ _ Hbs), (ticker_field_contains _ _ _ _ Hba),
    (ticker_field_contains _ _ _ _ Has). simpl.
  split; [done|]. split; [by apply lookup_insert_eq|]. split; [done|].
  unfold OrderBook.getOrderCount, OrderBook.getOrder. rewrite ticker_book_orders.
  split.
  { rewrite !map_size_insert_None, map_size_empty; [done | done |].
    rewrite lookup_insert_ne; [done|]. apply prefix_ne. }
  split.
  { rewrite lookup_insert_ne; [by rewrite lookup_insert_eq|].
    intros E. by apply (prefix_ne sequence_str). }
  split; [by rewrite lookup_insert_eq|].
  split. { intros id H1 H2. by rewrite !lookup_insert_ne. }
  pose proof (ticker_book_best b (length (CoinbaseHandler.heap_ st))
    ("bid-" +:+ sequence_str) ("ask-" +:+ sequence_str)
    best_bid best_bid_size best_ask best_ask_size
    (clock (length (CoinbaseHandler.heap_ st)))
    (clock (S (length (CoinbaseHandler.heap_ st))))) as (? & ? & ? & ?).
  done.
Qed.

(** C4, amended.  A message is dropped with the state untouched when it has
    no "type", when a field the handler checks for is missing, when a
    numeric field of a received/open/match/change message does not parse,
    or when one of the four numbers of a ticker does not parse.  A snapshot
    is not dropped as a whole: one whose entry does not parse has the
    effect of the snapshot cut off just before that entry (the entries
    before it are applied; the rest, and every ask when the entry is a bid,
    are skipped). *)
Theorem C4_dropped_messages_and_cut_snapshots (st : CoinbaseHandler.t) :
  (∀ j, field j "type" = None → handle st j = Some st)
  ∧ (∀ j (type key : string),
       field j "type" = Some (Json.String type) →
       key ∈ checked_fields type → field j key = None →
       handle st j = Some st)
  ∧ (∀ j (type key : string),
       field j "type" = Some (Json.String type) →
       key ∈ numeric_fields type →
       CoinbaseHandler.stod_field stod j key = Throw →
       handle st j = Some st)
  ∧ (∀ j (key : string),
       field j "type" = Some (Json.String "ticker") →
       key ∈ ["best_bid"; "best_bid_size"; "best_ask"; "best_ask_size"] →
       CoinbaseHandler.ticker_field stod j key = Throw →
       handle st j = Some st)
  ∧ (∀ symbol good bad rest asks,
       CoinbaseHandler.snapshot_entry stod "bid-" bad = Throw →
       handle st (snapshot_msg symbol (good ++ bad :: rest) asks)
       = handle st (snapshot_msg symbol good []))
  ∧ (∀ symbol bids good bad rest,
       CoinbaseHandler.snapshot_entry stod "ask-" bad = Throw →
       handle st (snapshot_msg symbol bids (good ++ bad :: rest))
       = handle st (snapshot_msg symbol bids good)).
Proof.
  split; [by apply handle_no_type|]. split; [|split; [|split; [|split]]].
  - intros j type key Ht Hkey Hnone. unfold checked_fields in Hkey.
    case_bool_decide as T1; [subst type|].
    { rewrite (handle_snapshot _ _ _ _ _ Ht). by eapply processSnapshot_missing. }
    case_bool_decide as T2; [subst type|].
    { rewrite (handle_ticker _ _ _ _ _ Ht). apply field_None_contains in Hnone.
      repeat (apply elem_of_cons in Hkey as [->|Hkey];
              [by rewrite Hnone, ?andb_false_r|]).
      by apply elem_of_nil in Hkey. }
    assert (type ∈ ["received"; "open"; "done"; "match"; "change"]) as Hin.
    { destruct (bool_decide (type = "received") || bool_decide (type = "open")) eqn:T3.
      - apply orb_true_iff in T3 as [->%bool_decide_eq_true | ->%bool_decide_eq_true];
          repeat first [apply list_elem_of_here | apply list_elem_of_further].
      - repeat (case_bool_decide;
                [subst; repeat first [apply list_elem_of_here | apply list_elem_of_further]|]).
        by apply elem_of_nil in Hkey. }
    rewrite (handle_l3 _ _ _ _ _ _ Ht Hin).
    eapply processL3Update_missing; [done | done | | done].
    unfold checked_fields.
    rewrite (bool_decide_eq_false_2 (type = "snapshot")) by done.
    by rewrite (bool_decide_eq_false_2 (type = "ticker")).
  - intros j type key Ht Hkey Hbad.
    assert (type ∈ ["received"; "open"; "done"; "match"; "change"]) as Hin.
    { unfold numeric_fields in Hkey.
      destruct (bool_decide (type = "received") || bool_decide (type = "open")) eqn:T3.
      - apply orb_true_iff in T3 as [->%bool_decide_eq_true | ->%bool_decide_eq_true];
          repeat first [apply list_elem_of_here | apply list_elem_of_further].
      - repeat (case_bool_decide;
                [subst; repeat first [apply list_elem_of_here | apply list_elem_of_further]|]).
        by apply elem_of_nil in Hkey. }
    rewrite (handle_l3 _ _ _ _ _ _ Ht Hin). by eapply processL3Update_malformed.
  - intros j key Ht Hkey Hbad. rewrite (handle_ticker _ _ _ _ _ Ht).
    destruct (Json.contains j "product_id") eqn:C1; [|done].
    destruct (Json.contains j "best_bid") eqn:C2; [|done].
    destruct (Json.contains j "best_ask") eqn:C3; [|done].
    destruct (Json.contains j "best_bid_size") eqn:C4; [|done].
    destruct (Json.contains j "best_ask_size") eqn:C5; [|done].
    simpl. by eapply processTicker_malformed.
  - intros symbol good bad rest asks Hbad.
    rewrite !(handle_snapshot stod clock processL2Update) by done.
    by apply processSnapshot_cut_bids.
  - intros symbol bids good bad rest Hbad.
    rewrite !(handle_snapshot stod clock processL2Update) by done.
    by apply processSnapshot_cut_asks.
Qed.

End handler_claims.



(** C3, as stated, fails: a ticker handled while the bid "x" rests removes
    "x" and puts the two synthetic orders of the ticker in the book. *)
Lemma C3_counterexample :
  ∃ b',
    ex_book_after (ex_handle ex_one_bid_handler ex_ticker) = Some b'
    ∧ OrderBook.getOrder ex_one_bid.2 "x" = Some 0%nat
    ∧ OrderBook.getOrder b' "x" = None
    ∧ OrderBook.getOrder b' "bid-7" = Some 1%nat
    ∧ OrderBook.getOrder b' "ask-7" = Some 2%nat
    ∧ OrderBook.getBestBid ex_one_bid.2 ≠ OrderBook.getBestBid b'.
Proof.
  eexists. split; [vm_compute; reflexivity|]. split; [reflexivity|].
  split; [reflexivity|]. split; [reflexivity|]. split; [reflexivity|].
  intros H. apply (f_equal this) in H. by vm_compute in H.
Qed.

Lemma C3_witness :
  CoinbaseHandler.getOrderBook ex_one_bid_handler "BTC-USD" = Some ex_one_bid.2
  ∧ ∃ st' b',
      ex_handle ex_one_bid_handler ex_ticker = Some st'
      ∧ CoinbaseHandler.getOrderBook st' "BTC-USD" = Some b'
      ∧ CoinbaseHandler.heap_ st'
        = CoinbaseHandler.heap_ ex_one_bid_handler
          ++ [Order.make "bid-7" BUY (dec 995 10) (dec 2 1) 0;
              Order.make "ask-7" SELL (dec 1005 10) (dec 3 1) 0]
      ∧ OrderBook.getOrderCount b' = 2%nat
      ∧ OrderBook.getOrder b' "bid-7" = Some 1%nat
      ∧ OrderBook.getOrder b' "ask-7" = Some 2%nat
      ∧ (∀ id, id ≠ "bid-7" → id ≠ "ask-7" → OrderBook.getOrder b' id = None)
      ∧ OrderBook.getBestBid b' = dec 995 10 ∧ OrderBook.getBestAsk b' = dec 1005 10
      ∧ OrderBook.getBidLevelCount b' = 1%nat ∧ OrderBook.getAskLevelCount b' = 1%nat
      ∧ book_wf (CoinbaseHandler.heap_ st') b'.
Proof.
  split; [reflexivity|].
  apply (C3_ticker_replaces_the_book stod_decimal ex_clock ex_l2
           ex_one_bid_handler ex_ticker "BTC-USD" ex_one_bid.2 "7"
           (dec 995 10) (dec 2 1) (dec 1005 10) (dec 3 1)).
  - reflexivity.
  - reflexivity.
  - reflexivity.
  - vm_compute. reflexivity.
  - vm_compute. reflexivity.
  - vm_compute. reflexivity.
  - vm_compute. reflexivity.
  - reflexivity.
Defined.

(** C4, as stated, fails: of a snapshot whose second bid has the price
    "abc", the first bid is in the book afterwards; the book, empty
    before, holds one order. *)
Lemma C4_counterexample :
  ∃ b',
    stod_decimal "abc" = None
    ∧ ex_book_after (Some ex_empty_handler) = Some (OrderBook.new "BTC-USD")
    ∧ ex_book_after (ex_handle ex_empty_handler ex_bad_snapshot) = Some b'
    ∧ OrderBook.getOrderCount b' = 1%nat
    ∧ OrderBook.getOrder b' "b1" = Some 0%nat
    ∧ OrderBook.getOrder b' "a1" = None.
Proof.
  eexists. split; [reflexivity|]. split; [reflexivity|].
  split; [vm_compute; reflexivity|]. split; [reflexivity|]. split; reflexivity.
Qed.

Lemma C4_witness :
  ex_handle ex_empty_handler ex_snapshot_no_asks = Some ex_empty_handler
  ∧ ex_handle ex_empty_handler ex_bad_snapshot
    = ex_handle ex_empty_handler
        (snapshot_msg "BTC-USD"
           [Json.Array [Json.String "100"; Json.String "1"; Json.String "b1"]] []).
Proof.
  destruct (C4_dropped_messages_and_cut_snapshots stod_decimal ex_clock ex_l2
              ex_empty_handler) as (_ & Hmissing & _ & _ & Hbids & _).
  split.
  - apply (Hmissing ex_snapshot_no_asks "snapshot" "asks").
    + reflexivity.
    + vm_compute. repeat first [apply list_elem_of_here | apply list_elem_of_further].
    + reflexivity.
  - apply (Hbids "BTC-USD"
             [Json.Array [Json.String "100"; Json.String "1"; Json.String "b1"]]
             (Json.Array [Json.String "abc"; Json.String "1"; Json.String "b2"])
             []
             [Json.Array [Json.String "101"; Json.String "1"; Json.String "a1"]]).
    vm_compute. reflexivity.
Defined.

(** * Further properties of orders, levels and the book *)

Section order_facts.




End order_facts.

(** ** The price guard of a level *)

Section level_prices.
Import PriceLevel.

Lemma step_prices h l o :
  op_ok h o → level_prices_ok h l →
  ∃ h' l', step (h, l) o = Some (h', l') ∧ length h' = length h
           ∧ getPrice l' = getPrice l ∧ level_prices_ok h' l'.
Proof.
  intros Hok Hinv. destruct o as [order|order_id|order_id new_size]; simpl.
  - simpl in Hok. destruct (lookup_lt_is_Some_2 h order Hok) as [o Ho].
    unfold addOrder. rewrite Ho; simpl.
    case_bool_decide as Hguard; simpl; [by eauto 6|].
    destruct (orders_ l !! Order.id_ o) as [a|] eqn:Hid; simpl; [by eauto 6|].
    eexists _, _. split; [done|]. split; [done|]. split; [done|].
    intros id a; simpl. rewrite lookup_insert. case_decide as Hd.
    + intros [= <-]. subst id. exists o. split; [done|]. split; [done|].
      by apply Qcnot_lt_le.
    + intros Hl. by apply Hinv.
  - unfold removeOrder. destruct (orders_ l !! order_id) as [a|] eqn:Hid; simpl;
      [|by eauto 6].
    destruct (Hinv _ _ Hid) as (o & Ho & _). rewrite Ho; simpl.
    eexists _, _. split; [done|]. split; [done|]. split; [done|].
    intros id a'; simpl. intros [_ Hl]%lookup_delete_Some. by apply Hinv.
  - unfold updateOrder. destruct (orders_ l !! order_id) as [a|] eqn:Hid; simpl;
      [|by eauto 6].
    destruct (Hinv _ _ Hid) as (o & Ho & Hoid & Hp). rewrite Ho; simpl.
    eexists _, _. split; [done|]. split; [by rewrite length_insert|].
    split; [done|].
    intros id a'; simpl. intros Hl. destruct (Hinv _ _ Hl) as (o' & Ho' & Hid' & Hp').
    destruct (decide (a = a')) as [<-|Hne].
    + exists (Order.setSize o new_size).
      rewrite list_lookup_insert_eq by (by eapply lookup_lt_Some).
      simplify_eq. done.
    + exists o'. by rewrite list_lookup_insert_ne.
Qed.

Lemma run_prices ops : ∀ h l,
  Forall (op_ok h) ops → level_prices_ok h l →
  ∃ h' l', run (h, l) ops = Some (h', l') ∧ getPrice l' = getPrice l
           ∧ level_prices_ok h' l'.
Proof.
  induction ops as [|o ops IH]; intros h l Hok Hinv; simpl; [by eauto|].
  apply Forall_cons in Hok as [Ho Hops].
  destruct (step_prices h l o Ho Hinv) as (h1 & l1 & -> & Hlen & Hp & Hinv1); simpl.
  destruct (IH h1 l1) as (h' & l' & Hrun & Hp' & Hinv'); [|done|].
  - eapply Forall_impl; [exact Hops|]. intros o'. by apply op_ok_length.
  - exists h', l'. split; [done|]. split; [congruence | done].
Qed.

(** X2.  Run any sequence of [addOrder] / [removeOrder] / [updateOrder]
    calls on a fresh level of price [price] (the pointers handed to
    [addOrder] being live).  The calls all return, the level keeps its
    price, and every order it stores is live, is filed under its own id,
    and has a price within epsilon of the level's: [addOrder] never lets in
    an order priced elsewhere. *)
Theorem X2_level_holds_only_orders_at_its_price (h0 : heap) (price : double)
    (ops : list PriceLevel.op) :
  Forall (PriceLevel.op_ok h0) ops →
  ∃ h l,
    PriceLevel.run (h0, PriceLevel.new price) ops = Some (h, l)
    ∧ PriceLevel.getPrice l = price
    ∧ level_prices_ok h l.
Proof.
  intros Hok.
  destruct (run_prices ops h0 (PriceLevel.new price) Hok) as (h & l & Hrun & Hp & Hinv).
  - intros id a. unfold new; simpl. by rewrite lookup_empty.
  - by exists h, l.
Qed.

Lemma X2_witness :
  Forall (PriceLevel.op_ok test_level_heap)
    [PriceLevel.Add 0; PriceLevel.Add 2; PriceLevel.Add 1; PriceLevel.Update "test-order-1" 0]
  ∧ ∃ h l,
      PriceLevel.run (test_level_heap, PriceLevel.new (dec 100 1))
        [PriceLevel.Add 0; PriceLevel.Add 2; PriceLevel.Add 1;
         PriceLevel.Update "test-order-1" 0] = Some (h, l)
      ∧ PriceLevel.getPrice l = dec 100 1
      ∧ level_prices_ok h l.
Proof.
  assert (Forall (PriceLevel.op_ok test_level_heap)
            [PriceLevel.Add 0; PriceLevel.Add 2; PriceLevel.Add 1;
             PriceLevel.Update "test-order-1" 0]) as Hok
    by (repeat constructor; simpl; lia).
  split; [exact Hok|].
  exact (X2_level_holds_only_orders_at_its_price test_level_heap (dec 100 1) _ Hok).
Defined.

End level_prices.

(** ** Reachable books *)

Section sorted_maps.
Context {V : Type} (comp : double → double → bool).
Hypothesis comp_irrefl : ∀ a, comp a a = false.
Hypothesis comp_trans : ∀ a b c, comp a b = true → comp b c = true → comp a c = true.
Hypothesis comp_total : ∀ a b, comp a b = false → comp b a = false → a = b.
Implicit Types (m : list (double * V)) (k : double) (v : V).

Lemma find_sorted_elem m k v :
  StdMap.sorted comp m → (k, v) ∈ m → StdMap.find comp m k = Some v.
Proof.
  induction m as [|[k' v'] m IH]; simpl; [by intros _ ?%elem_of_nil|].
  intros [Hall Hsorted] [E|Hin]%elem_of_cons.
  - injection E as <- <-. by rewrite (equiv_refl comp comp_irrefl comp_total).
  - rewrite Forall_forall in Hall. pose proof (Hall _ Hin) as Hlt. simpl in Hlt.
    rewrite (equiv_ne comp comp_irrefl comp_total k k'); [by apply IH|].
    intros ->. by rewrite comp_irrefl in Hlt.
Qed.

Lemma sorted_lookup_lt m (i j : nat) k v k' v' :
  StdMap.sorted comp m → (i < j)%nat →
  m !! i = Some (k, v) → m !! j = Some (k', v') → comp k k' = true.
Proof.
  revert i j. induction m as [|[k0 v0] m IH]; intros i j; simpl; [done|].
  intros [Hall Hsorted] Hij Hi Hj. destruct j as [|j]; [lia|]. simpl in Hj.
  destruct i as [|i]; simpl in Hi.
  - injection Hi as <- <-. rewrite Forall_forall in Hall.
    apply (Hall (k', v')). by eapply list_elem_of_lookup_2.
  - apply (IH i j); try done. lia.
Qed.

Lemma total_ge_length (f : V → nat) m :
  Forall (λ e, (1 ≤ f e.2)%nat) m → (length m ≤ StdMap.total f m)%nat.
Proof.
  induction 1 as [|[k v] m Hv _ IH]; simpl in *; lia.
Qed.

End sorted_maps.

Section book_invariants.
Implicit Types (h : heap) (b : OrderBook.t) (s : OrderSide)
  (l : PriceLevel.t) (k p : double) (o : Order.t).

Lemma lv_find_sorted_elem s (m : list (double * PriceLevel.t)) k l :
  StdMap.sorted (comp_of s) m → (k, l) ∈ m → StdMap.find (comp_of s) m k = Some l.
Proof.
  apply find_sorted_elem;
    first [apply comp_of_irrefl | apply comp_of_trans | apply comp_of_total].
Qed.

Lemma lv_find_Some_elem s (m : list (double * PriceLevel.t)) k l :
  StdMap.find (comp_of s) m k = Some l → (k, l) ∈ m.
Proof.
  apply find_Some_elem;
    first [apply comp_of_irrefl | apply comp_of_trans | apply comp_of_total].
Qed.

Lemma level_ok_wf h idx s k l : level_ok h idx s k l → PriceLevel.wf h l.
Proof.
  intros (_ & _ & Hin) id a Hid. destruct (Hin _ _ Hid) as (_ & o & Ho & Hoid & _).
  by exists o.
Qed.

Lemma book_wf_level_wf h b s k l :
  book_wf h b → StdMap.find (comp_of s) (levels b s) k = Some l → PriceLevel.wf h l.
Proof.
  intros (Hs & _ & _) Hf. destruct (Hs s) as [_ Hlv].
  eapply level_ok_wf. by apply Hlv.
Qed.

Lemma sum_sizes_app h hx l :
  PriceLevel.wf h l → PriceLevel.sum_sizes (h ++ hx) l = PriceLevel.sum_sizes h l.
Proof.
  intros Hwf. unfold PriceLevel.sum_sizes. fold (add_size h) (add_size (h ++ hx)).
  apply fold_sizes_ext. intros id a Hid. destruct (Hwf _ _ Hid) as (o & Ho & _).
  unfold PriceLevel.size_at. by rewrite (lookup_app_l_Some _ _ _ _ Ho), Ho.
Qed.

Lemma book_sizes_app h hx b : book_wf h b → book_sizes h b → book_sizes (h ++ hx) b.
Proof.
  intros Hwf Hsz s k l Hf. rewrite sum_sizes_app; [by eapply Hsz|].
  by eapply book_wf_level_wf.
Qed.

Lemma book_sizes_new h symbol : book_sizes h (OrderBook.new symbol).
Proof. intros s k l. by destruct s. Qed.

Lemma book_sizes_plus h b (order : addr) o :
  book_wf h b → book_sizes h b → h !! order = Some o →
  OrderBook.orders_ b !! Order.id_ o = None →
  book_sizes h (book_plus b order o).
Proof.
  intros Hwf Hsz Ho Hidx s k l. unfold book_plus.
  pose proof (base_level_fresh h b o Hwf Hidx) as Hfresh.
  set (s0 := Order.side_ o) in *. set (p := Order.price_ o) in *.
  destruct (decide (s0 = s)) as [<-|Hns]; [|rewrite levels_set_book_ne by done; apply Hsz].
  rewrite levels_set_book_eq.
  destruct (decide (p = k)) as [<-|Hnk]; [|rewrite lv_find_assign_ne by done; apply Hsz].
  rewrite lv_find_assign_eq. intros [= <-].
  unfold PriceLevel.getTotalSize, PriceLevel.sum_sizes, level_plus; simpl.
  fold (add_size h). rewrite fold_sizes_insert by done.
  unfold PriceLevel.size_at at 1. rewrite Ho; simpl. f_equal.
  unfold base_level in *.
  destruct (StdMap.find (comp_of s0) (levels b s0) p) as [l0|] eqn:Hf; simpl.
  - apply (Hsz _ _ _ Hf).
  - by rewrite map_fold_empty.
Qed.

Lemma book_sizes_minus h b id (a : addr) o l :
  book_wf h b → book_sizes h b → resting h b id a o l →
  book_sizes h (book_minus b id o l).
Proof.
  intros Hwf Hsz (Hid & Ho & Hoid & Hf & Hl) s k l'. unfold book_minus.
  set (s0 := Order.side_ o) in *. set (p := Order.price_ o) in *.
  destruct (decide (s0 = s)) as [<-|Hns]; [|rewrite levels_set_book_ne by done; apply Hsz].
  rewrite levels_set_book_eq. destruct Hwf as (Hs & _ & _).
  destruct (Hs s0) as [Hsorted _].
  destruct (PriceLevel.isEmpty (level_minus l id o)).
  - destruct (decide (p = k)) as [<-|Hnk].
    + by rewrite lv_find_erase_eq.
    + rewrite lv_find_erase_ne by done. apply Hsz.
  - destruct (decide (p = k)) as [<-|Hnk]; [|rewrite lv_find_assign_ne by done; apply Hsz].
    rewrite lv_find_assign_eq. intros [= <-].
    unfold PriceLevel.getTotalSize, PriceLevel.sum_sizes, level_minus; simpl.
    pose proof (Hsz _ _ _ Hf) as E.
    unfold PriceLevel.getTotalSize, PriceLevel.sum_sizes in E. rewrite E.
    fold (add_size h). rewrite (fold_sizes_delete h _ _ _ Hl).
    unfold PriceLevel.size_at at 1. rewrite Ho; simpl. ring.
Qed.

Lemma book_sizes_resized h b id (a : addr) o l (new_size : double) :
  book_wf h b → book_sizes h b → resting h b id a o l →
  book_sizes (<[a := Order.setSize o new_size]> h) (book_resized b o l new_size).
Proof.
  intros Hwf Hsz Hrest s k l'. pose proof Hrest as (Hid & Ho & Hoid & Hf & Hl).
  unfold book_resized.
  set (s0 := Order.side_ o) in *. set (p := Order.price_ o) in *.
  assert (∀ s1 k1 l1, StdMap.find (comp_of s1) (levels b s1) k1 = Some l1 →
            (s1, k1) ≠ (s0, p) →
            PriceLevel.getTotalSize l1
            = PriceLevel.sum_sizes (<[a := Order.setSize o new_size]> h) l1) as Hother.
  { intros s1 k1 l1 Hf1 Hne. rewrite (Hsz _ _ _ Hf1).
    unfold PriceLevel.sum_sizes.
    fold (add_size h) (add_size (<[a := Order.setSize o new_size]> h)).
    apply fold_sizes_ext. intros id1 a1 Hid1. symmetry.
    apply size_at_insert_ne. intros <-.
    pose proof (resting_elsewhere h b id a o l s1 k1 l1 Hwf Hrest Hf1 Hne) as Hfree.
    destruct (book_wf_level_wf h b s1 k1 l1 Hwf Hf1 _ _ Hid1) as (o1 & Ho1 & Hoid1).
    simplify_eq; congruence. }
  destruct (decide (s0 = s)) as [<-|Hns].
  - rewrite levels_set_book_eq.
    destruct (decide (p = k)) as [<-|Hnk].
    + rewrite lv_find_assign_eq. intros [= <-].
      unfold PriceLevel.getTotalSize, level_resized; simpl.
      pose proof (sum_sizes_setSize h l id a o new_size
                    (book_wf_level_wf h b _ _ _ Hwf Hf) Hl Ho) as E.
      unfold PriceLevel.sum_sizes in *; simpl. rewrite E.
      pose proof (Hsz _ _ _ Hf) as E'.
      unfold PriceLevel.getTotalSize, PriceLevel.sum_sizes in E'. by rewrite E'.
    + rewrite lv_find_assign_ne by done. intros Hf1. apply (Hother s0 k); [done|].
      congruence.
  - rewrite levels_set_book_ne by done. intros Hf1. apply (Hother s k); [done|].
    congruence.
Qed.

Lemma book_inv_new h symbol : book_inv h (OrderBook.new symbol).
Proof. split; [apply book_wf_new | apply book_sizes_new]. Qed.

Lemma book_inv_app h hx b : book_inv h b → book_inv (h ++ hx) b.
Proof.
  intros [Hwf Hsz]. split; [|by apply book_sizes_app].
  eapply book_wf_heap_le; [apply heap_le_app | done].
Qed.

Lemma addOrder_inv_book h b order :
  book_inv h b → (order < length h)%nat →
  ∃ b' r, OrderBook.addOrder h b order = Some (b', r) ∧ book_inv h b'.
Proof.
  intros [Hwf Hsz] Hlt. destruct (lookup_lt_is_Some_2 h order Hlt) as [o Ho].
  destruct (OrderBook.orders_ b !! Order.id_ o) as [a|] eqn:Hid.
  - exists b, false. by rewrite (addOrder_duplicate h b order o).
  - exists (book_plus b order o), true.
    rewrite (addOrder_fresh h b order o) by done. split; [done|].
    split; [by apply book_wf_plus | by apply book_sizes_plus].
Qed.

Lemma removeOrder_inv_book h b order_id :
  book_inv h b →
  ∃ b' r, OrderBook.removeOrder h b order_id = Some (b', r) ∧ book_inv h b'.
Proof.
  intros [Hwf Hsz]. destruct (OrderBook.orders_ b !! order_id) as [a|] eqn:Hid.
  - destruct (resting_intro h b order_id a Hwf Hid) as (o & l & Hrest).
    exists (book_minus b order_id o l), true.
    rewrite (removeOrder_resting h b order_id a o l) by done.
    split; [done|]. split; [by eapply book_wf_minus | by eapply book_sizes_minus].
  - exists b, false. by rewrite removeOrder_unknown.
Qed.

Lemma modifyOrder_inv_book h b order_id new_size :
  book_inv h b →
  ∃ h' b' r, OrderBook.modifyOrder h b order_id new_size = Some (h', b', r)
             ∧ book_inv h' b' ∧ length h' = length h.
Proof.
  intros [Hwf Hsz]. destruct (OrderBook.orders_ b !! order_id) as [a|] eqn:Hid.
  - destruct (resting_intro h b order_id a Hwf Hid) as (o & l & Hrest).
    eexists _, _, true.
    rewrite (modifyOrder_resting h b order_id a o l) by done.
    split; [done|]. split; [|by rewrite length_insert].
    split; [by eapply book_wf_resized | by eapply book_sizes_resized].
  - exists h, b, false. by rewrite modifyOrder_unknown.
Qed.

Lemma book_step_inv h b op :
  book_inv h b →
  match op with AddOrder order => (order < length h)%nat | _ => True end →
  ∃ h' b', book_step (h, b) op = Some (h', b') ∧ book_inv h' b'
           ∧ length h' = allocated_after (length h) op.
Proof.
  intros Hinv Hok.
  destruct op as [order|order_id|order_id new_size|now type order_id side price size];
    simpl.
  - destruct (addOrder_inv_book h b order Hinv Hok) as (b' & r & -> & ?). simpl. eauto.
  - destruct (removeOrder_inv_book h b order_id Hinv) as (b' & r & -> & ?). simpl. eauto.
  - destruct (modifyOrder_inv_book h b order_id new_size Hinv) as (h' & b' & r & -> & ? & ?).
    simpl. eauto.
  - unfold OrderBook.processL3Update, make_shared.
    destruct (bool_decide (type = "open") || bool_decide (type = "received")).
    + set (o := Order.make order_id side price size now).
      destruct (addOrder_inv_book (h ++ [o]) b (length h)) as (b' & r & -> & Hinv').
      * by apply book_inv_app.
      * rewrite length_app; simpl. lia.
      * simpl. exists (h ++ [o]), b'. rewrite length_app; simpl.
        split; [done|]. split; [done | lia].
    + destruct (bool_decide (type = "match") || bool_decide (type = "change")).
      * destruct (modifyOrder_inv_book h b order_id size Hinv) as (h' & b' & r & -> & ? & ?).
        simpl. eauto.
      * destruct (bool_decide (type = "done")); [|by eauto].
        destruct (removeOrder_inv_book h b order_id Hinv) as (b' & r & -> & ?).
        simpl. eauto.
Qed.

Lemma book_run_inv ops : ∀ h b,
  book_inv h b → book_ops_ok (length h) ops →
  ∃ h' b', book_run (h, b) ops = Some (h', b') ∧ book_inv h' b'.
Proof.
  induction ops as [|op ops IH]; intros h b Hinv Hok; simpl; [by eauto|].
  destruct Hok as [Hop Hops].
  destruct (book_step_inv h b op Hinv Hop) as (h1 & b1 & -> & Hinv1 & Hlen); simpl.
  apply IH; [done|]. by rewrite Hlen.
Qed.

Lemma reachable_inv h b : reachable h b → book_inv h b.
Proof.
  intros (h0 & symbol & ops & Hok & Hrun).
  destruct (book_run_inv ops h0 (OrderBook.new symbol) (book_inv_new _ _) Hok)
    as (h' & b' & Hrun' & Hinv).
  rewrite Hrun in Hrun'. by injection Hrun' as <- <-.
Qed.

Lemma ex_two_sided_reachable : reachable ex_two_sided.1 ex_two_sided.2.
Proof.
  exists [], "BTC-USD", ex_two_sided_ops. split; [by vm_compute|].
  vm_compute. reflexivity.
Qed.

End book_invariants.

(** ** What a reachable book looks like *)

Section reachable_books.
Implicit Types (h : heap) (b : OrderBook.t) (s : OrderSide)
  (l : PriceLevel.t) (k p : double) (o : Order.t).

Lemma levels_nonempty h b s :
  book_wf h b → Forall (λ e, (1 ≤ PriceLevel.getOrderCount e.2)%nat) (levels b s).
Proof.
  intros (Hs & _ & _). destruct (Hs s) as [Hsorted Hlv].
  apply Forall_forall. intros [k l] Hin. simpl.
  destruct (Hlv k l (lv_find_sorted_elem s _ k l Hsorted Hin)) as (_ & Hne & _).
  unfold PriceLevel.getOrderCount.
  assert (size (PriceLevel.orders_ l) ≠ 0%nat) by (by apply map_size_non_empty_iff).
  lia.
Qed.

(** X3.  A reachable book has no empty level: every level of either side
    stores at least one order and is filed under its own price, so the
    levels never outnumber the orders. *)
Theorem X3_no_empty_level (h : heap) (b : OrderBook.t) :
  reachable h b →
  (∀ s k l, (k, l) ∈ levels b s →
     PriceLevel.isEmpty l = false ∧ PriceLevel.getPrice l = k)
  ∧ (OrderBook.getBidLevelCount b + OrderBook.getAskLevelCount b
     ≤ OrderBook.getOrderCount b)%nat.
Proof.
  intros [Hwf _]%reachable_inv. split.
  - intros s k l Hin. destruct Hwf as (Hs & _ & _). destruct (Hs s) as [Hsorted Hlv].
    destruct (Hlv k l (lv_find_sorted_elem s _ k l Hsorted Hin)) as (Hp & Hne & _).
    split; [by apply bool_decide_eq_false | done].
  - pose proof (total_ge_length PriceLevel.getOrderCount _ (levels_nonempty h b BUY Hwf)) as E1.
    pose proof (total_ge_length PriceLevel.getOrderCount _ (levels_nonempty h b SELL Hwf)) as E2.
    destruct Hwf as (_ & _ & Hc). rewrite Hc. unfold level_order_count.
    unfold OrderBook.getBidLevelCount, OrderBook.getAskLevelCount. simpl in *. lia.
Qed.

Lemma X3_witness :
  reachable ex_two_sided.1 ex_two_sided.2
  ∧ (∀ s k l, (k, l) ∈ levels ex_two_sided.2 s →
       PriceLevel.isEmpty l = false ∧ PriceLevel.getPrice l = k)
  ∧ (OrderBook.getBidLevelCount ex_two_sided.2 + OrderBook.getAskLevelCount ex_two_sided.2
     ≤ OrderBook.getOrderCount ex_two_sided.2)%nat.
Proof.
  split; [exact ex_two_sided_reachable|].
  exact (X3_no_empty_level ex_two_sided.1 ex_two_sided.2 ex_two_sided_reachable).
Defined.

Lemma snapshot_lookup (m : list (double * PriceLevel.t)) (depth i : nat) (p x : double) :
  ((λ e, (e.1, PriceLevel.getTotalSize e.2)) <$> take depth m) !! i = Some (p, x) →
  ∃ l, m !! i = Some (p, l) ∧ x = PriceLevel.getTotalSize l ∧ (i < depth)%nat.
Proof.
  rewrite list_lookup_fmap. intros H. apply fmap_Some in H as ([k l] & Hl & E).
  apply lookup_take_Some in Hl as [Hl Hi]. simpl in E. injection E as -> ->.
  by exists l.
Qed.

(** X4.  On a reachable book [getBidLevels(depth)] and
    [getAskLevels(depth)] return min(depth, number of levels) pairs, the
    bids in strictly falling and the asks in strictly rising price order;
    the first pair carries the best bid, respectively the best ask. *)
Theorem X4_level_snapshots_are_sorted (h : heap) (b : OrderBook.t) (depth : nat) :
  reachable h b →
  length (OrderBook.getBidLevels b depth) = min depth (OrderBook.getBidLevelCount b)
  ∧ length (OrderBook.getAskLevels b depth) = min depth (OrderBook.getAskLevelCount b)
  ∧ (∀ (i j : nat) (p q x y : double), (i < j)%nat →
       OrderBook.getBidLevels b depth !! i = Some (p, x) →
       OrderBook.getBidLevels b depth !! j = Some (q, y) → q < p)
  ∧ (∀ (i j : nat) (p q x y : double), (i < j)%nat →
       OrderBook.getAskLevels b depth !! i = Some (p, x) →
       OrderBook.getAskLevels b depth !! j = Some (q, y) → p < q)
  ∧ (∀ p x, OrderBook.getBidLevels b depth !! 0%nat = Some (p, x) →
       OrderBook.getBestBid b = p)
  ∧ (∀ p x, OrderBook.getAskLevels b depth !! 0%nat = Some (p, x) →
       OrderBook.getBestAsk b = p).
Proof.
  intros [(Hs & _ & _) _]%reachable_inv.
  unfold OrderBook.getBidLevels, OrderBook.getAskLevels.
  split; [by rewrite length_fmap, length_take|].
  split; [by rewrite length_fmap, length_take|].
  split; [|split; [|split]].
  - intros i j p q x y Hij Hi Hj.
    apply snapshot_lookup in Hi as (l1 & Hi & _). apply snapshot_lookup in Hj as (l2 & Hj & _).
    destruct (Hs BUY) as [Hsorted _]. simpl in Hsorted.
    pose proof (sorted_lookup_lt StdMap.greater _ i j p l1 q l2 Hsorted Hij Hi Hj) as E.
    by apply bool_decide_eq_true in E.
  - intros i j p q x y Hij Hi Hj.
    apply snapshot_lookup in Hi as (l1 & Hi & _). apply snapshot_lookup in Hj as (l2 & Hj & _).
    destruct (Hs SELL) as [Hsorted _]. simpl in Hsorted.
    pose proof (sorted_lookup_lt StdMap.less _ i j p l1 q l2 Hsorted Hij Hi Hj) as E.
    by apply bool_decide_eq_true in E.
  - intros p x Hi. apply snapshot_lookup in Hi as (l1 & Hi & _).
    unfold OrderBook.getBestBid. destruct (OrderBook.bid_levels_ b) as [|[k l] m]; [done|].
    by injection Hi as -> ->.
  - intros p x Hi. apply snapshot_lookup in Hi as (l1 & Hi & _).
    unfold OrderBook.getBestAsk. destruct (OrderBook.ask_levels_ b) as [|[k l] m]; [done|].
    by injection Hi as -> ->.
Qed.

Lemma X4_witness :
  reachable ex_two_sided.1 ex_two_sided.2
  ∧ length (OrderBook.getBidLevels ex_two_sided.2 10)
    = min 10 (OrderBook.getBidLevelCount ex_two_sided.2)
  ∧ length (OrderBook.getAskLevels ex_two_sided.2 10)
    = min 10 (OrderBook.getAskLevelCount ex_two_sided.2)
  ∧ (∀ (i j : nat) (p q x y : double), (i < j)%nat →
       OrderBook.getBidLevels ex_two_sided.2 10 !! i = Some (p, x) →
       OrderBook.getBidLevels ex_two_sided.2 10 !! j = Some (q, y) → q < p)
  ∧ (∀ (i j : nat) (p q x y : double), (i < j)%nat →
       OrderBook.getAskLevels ex_two_sided.2 10 !! i = Some (p, x) →
       OrderBook.getAskLevels ex_two_sided.2 10 !! j = Some (q, y) → p < q)
  ∧ (∀ p x, OrderBook.getBidLevels ex_two_sided.2 10 !! 0%nat = Some (p, x) →
       OrderBook.getBestBid ex_two_sided.2 = p)
  ∧ (∀ p x, OrderBook.getAskLevels ex_two_sided.2 10 !! 0%nat = Some (p, x) →
       OrderBook.getBestAsk ex_two_sided.2 = p).
Proof.
  split; [exact ex_two_sided_reachable|].
  exact (X4_level_snapshots_are_sorted ex_two_sided.1 ex_two_sided.2 10
           ex_two_sided_reachable).
Defined.



Lemma rests_level h b id o :
  book_wf h b → rests h b id o →
  ∃ l, StdMap.find (comp_of (Order.side_ o)) (levels b (Order.side_ o)) (Order.price_ o)
       = Some l.
Proof.
  intros (_ & Hi & _) (a & Hid & Ho).
  destruct (Hi _ _ Hid) as (o' & l & Ho' & _ & Hf & _). simplify_eq. by exists l.
Qed.




Lemma sorted_head_best s (m : list (double * PriceLevel.t)) k0 l0 k l :
  StdMap.sorted (comp_of s) ((k0, l0) :: m) → (k, l) ∈ (k0, l0) :: m →
  k = k0 ∨ comp_of s k0 k = true.
Proof.
  intros [Hall _] [E|Hin]%elem_of_cons; [left; congruence | right].
  rewrite Forall_forall in Hall. apply (Hall _ Hin).
Qed.

Lemma assign_head_best s (m rest : list (double * PriceLevel.t)) p l k0 l0 :
  StdMap.assign (comp_of s) m p l = (k0, l0) :: rest →
  k0 = p ∨ comp_of s k0 p = true.
Proof.
  destruct m as [|[k' l'] m]; simpl; [intros [= <- _ _]; by left|].
  destruct (comp_of s p k') eqn:E1; [intros [= <- _ _]; by left|].
  destruct (comp_of s k' p) eqn:E2; intros [= <- _ _]; [by right | left].
  symmetry. by apply (comp_of_total s).
Qed.

(** X6.  On a reachable book the best bid is the highest price at which a
    buy order rests and the best ask the lowest price at which a sell order
    rests: no resting buy is priced above [getBestBid], no resting sell
    below [getBestAsk], and when the side has a level some resting order
    has exactly that price. *)
Theorem X6_best_prices_are_extremal (h : heap) (b : OrderBook.t) :
  reachable h b →
  (∀ id o, rests h b id o → Order.side_ o = BUY →
     Order.price_ o ≤ OrderBook.getBestBid b)
  ∧ (∀ id o, rests h b id o → Order.side_ o = SELL →
       OrderBook.getBestAsk b ≤ Order.price_ o)
  ∧ (OrderBook.getBidLevelCount b ≠ 0%nat →
       ∃ id o, rests h b id o ∧ Order.side_ o = BUY
               ∧ Order.price_ o = OrderBook.getBestBid b)
  ∧ (OrderBook.getAskLevelCount b ≠ 0%nat →
       ∃ id o, rests h b id o ∧ Order.side_ o = SELL
               ∧ Order.price_ o = OrderBook.getBestAsk b).
Proof.
  intros [Hwf _]%reachable_inv. pose proof Hwf as (Hs & Hi & _).
  assert (∀ s k0 l0 m, levels b s = (k0, l0) :: m →
            ∃ id o, rests h b id o ∧ Order.side_ o = s ∧ Order.price_ o = k0) as Hhead.
  { intros s k0 l0 m Hm. destruct (Hs s) as [Hsorted Hlv].
    destruct (Hlv k0 l0) as (_ & Hne & Hin).
    { apply lv_find_sorted_elem; [done|]. rewrite Hm. apply list_elem_of_here. }
    apply map_choose in Hne as (id & a & Hid).
    destruct (Hin _ _ Hid) as (Hidx & o & Ho & _ & Hside & Hprice).
    exists id, o. split; [by exists a | done]. }
  split; [|split; [|split]].
  - intros id o Hrest Hside. destruct (rests_level h b id o Hwf Hrest) as [l Hf].
    rewrite Hside in Hf. apply lv_find_Some_elem in Hf. simpl in Hf.
    unfold OrderBook.getBestBid. destruct (Hs BUY) as [Hsorted _]. simpl in Hsorted.
    destruct (OrderBook.bid_levels_ b) as [|[k0 l0] m]; [by apply elem_of_nil in Hf|].
    destruct (sorted_head_best BUY m k0 l0 _ l Hsorted Hf) as [->|Hlt]; [done|].
    apply bool_decide_eq_true in Hlt. by apply Qclt_le_weak.
  - intros id o Hrest Hside. destruct (rests_level h b id o Hwf Hrest) as [l Hf].
    rewrite Hside in Hf. apply lv_find_Some_elem in Hf. simpl in Hf.
    unfold OrderBook.getBestAsk. destruct (Hs SELL) as [Hsorted _]. simpl in Hsorted.
    destruct (OrderBook.ask_levels_ b) as [|[k0 l0] m]; [by apply elem_of_nil in Hf|].
    destruct (sorted_head_best SELL m k0 l0 _ l Hsorted Hf) as [->|Hlt]; [done|].
    apply bool_decide_eq_true in Hlt. by apply Qclt_le_weak.
  - unfold OrderBook.getBidLevelCount, OrderBook.getBestBid. intros Hn.
    destruct (OrderBook.bid_levels_ b) as [|[k0 l0] m] eqn:Hm; [done|].
    apply (Hhead BUY k0 l0 m Hm).
  - unfold OrderBook.getAskLevelCount, OrderBook.getBestAsk. intros Hn.
    destruct (OrderBook.ask_levels_ b) as [|[k0 l0] m] eqn:Hm; [done|].
    apply (Hhead SELL k0 l0 m Hm).
Qed.

Lemma X6_witness :
  reachable ex_two_sided.1 ex_two_sided.2
  ∧ (∀ id o, rests ex_two_sided.1 ex_two_sided.2 id o → Order.side_ o = BUY →
       Order.price_ o ≤ OrderBook.getBestBid ex_two_sided.2)
  ∧ (∀ id o, rests ex_two_sided.1 ex_two_sided.2 id o → Order.side_ o = SELL →
       OrderBook.getBestAsk ex_two_sided.2 ≤ Order.price_ o)
  ∧ (OrderBook.getBidLevelCount ex_two_sided.2 ≠ 0%nat →
       ∃ id o, rests ex_two_sided.1 ex_two_sided.2 id o ∧ Order.side_ o = BUY
               ∧ Order.price_ o = OrderBook.getBestBid ex_two_sided.2)
  ∧ (OrderBook.getAskLevelCount ex_two_sided.2 ≠ 0%nat →
       ∃ id o, rests ex_two_sided.1 ex_two_sided.2 id o ∧ Order.side_ o = SELL
               ∧ Order.price_ o = OrderBook.getBestAsk ex_two_sided.2).
Proof.
  split; [exact ex_two_sided_reachable|].
  exact (X6_best_prices_are_extremal ex_two_sided.1 ex_two_sided.2
           ex_two_sided_reachable).
Defined.

Lemma ex_crossing_reachable : reachable ex_crossing.1 ex_crossing.2.
Proof.
  exists [Order.make "c" BUY (dec 102 1) (dec 1 1) 0], "BTC-USD",
    [L3Update 1 "open" "a1" SELL (dec 101 1) (dec 1 1)].
  split; [by vm_compute|]. vm_compute. reflexivity.
Qed.

(** X7.  [addOrder] never matches.  On a reachable book, adding an order
    whose id does not rest yet returns true and only adds: every order
    that rested still rests under the same pointer, the count goes up by
    one and the levels of the opposite side are untouched.  The order's
    own side then quotes at least as well as its price, so a buy priced at
    or above the best ask (a sell at or below the best bid) rests too and
    leaves the book crossed, best ask ≤ best bid. *)
Theorem X7_addOrder_never_matches (h : heap) (b : OrderBook.t) (order : addr)
    (o : Order.t) :
  reachable h b → h !! order = Some o →
  OrderBook.getOrder b (Order.id_ o) = None →
  ∃ b',
    OrderBook.addOrder h b order = Some (b', true)
    ∧ OrderBook.getOrderCount b' = S (OrderBook.getOrderCount b)
    ∧ (∀ id a, OrderBook.getOrder b id = Some a → OrderBook.getOrder b' id = Some a)
    ∧ OrderBook.getOrder b' (Order.id_ o) = Some order
    ∧ match Order.side_ o with
      | BUY =>
          OrderBook.ask_levels_ b' = OrderBook.ask_levels_ b
          ∧ Order.price_ o ≤ OrderBook.getBestBid b'
          ∧ (OrderBook.getBestAsk b ≤ Order.price_ o →
             OrderBook.getBestAsk b' ≤ OrderBook.getBestBid b')
      | SELL =>
          OrderBook.bid_levels_ b' = OrderBook.bid_levels_ b
          ∧ OrderBook.getBestAsk b' ≤ Order.price_ o
          ∧ (Order.price_ o ≤ OrderBook.getBestBid b →
             OrderBook.getBestAsk b' ≤ OrderBook.getBestBid b')
      end.
Proof.
  intros [Hwf _]%reachable_inv Ho Hid. exists (book_plus b order o).
  split; [by apply addOrder_fresh|].
  unfold OrderBook.getOrderCount, OrderBook.getOrder, book_plus in *.
  rewrite orders_set_book.
  split; [by apply map_size_insert_None|].
  split. { intros id a Ha. rewrite lookup_insert_ne; [done|]. congruence. }
  split; [by apply lookup_insert_eq|].
  destruct (Order.side_ o) eqn:Hside; simpl.
  - split; [done|].
    assert (Order.price_ o ≤ OrderBook.getBestBid
              (OrderBook.make (OrderBook.symbol_ b)
                 (StdMap.assign StdMap.greater (OrderBook.bid_levels_ b) (Order.price_ o)
                    (level_plus (base_level (OrderBook.bid_levels_ b) BUY (Order.price_ o))
                       order o))
                 (OrderBook.ask_levels_ b)
                 (<[Order.id_ o := order]> (OrderBook.orders_ b)))) as Hbest.
    { unfold OrderBook.getBestBid; simpl.
      destruct (StdMap.assign _ _ _ _) as [|[k0 l0] rest] eqn:E.
      - pose proof (lv_find_assign_eq BUY (OrderBook.bid_levels_ b) (Order.price_ o)
          (level_plus (base_level (OrderBook.bid_levels_ b) BUY (Order.price_ o)) order o))
          as Hf. simpl in Hf. by rewrite E in Hf.
      - destruct (assign_head_best BUY _ _ _ _ _ _ E) as [->|Hlt]; [done|].
        apply bool_decide_eq_true in Hlt. by apply Qclt_le_weak. }
    split; [done|]. intros Hcross. eapply Qcle_trans; [|exact Hbest]. done.
  - split; [done|].
    assert (OrderBook.getBestAsk
              (OrderBook.make (OrderBook.symbol_ b) (OrderBook.bid_levels_ b)
                 (StdMap.assign StdMap.less (OrderBook.ask_levels_ b) (Order.price_ o)
                    (level_plus (base_level (OrderBook.ask_levels_ b) SELL (Order.price_ o))
                       order o))
                 (<[Order.id_ o := order]> (OrderBook.orders_ b))) ≤ Order.price_ o) as Hbest.
    { unfold OrderBook.getBestAsk; simpl.
      destruct (StdMap.assign _ _ _ _) as [|[k0 l0] rest] eqn:E.
      - pose proof (lv_find_assign_eq SELL (OrderBook.ask_levels_ b) (Order.price_ o)
          (level_plus (base_level (OrderBook.ask_levels_ b) SELL (Order.price_ o)) order o))
          as Hf. simpl in Hf. by rewrite E in Hf.
      - destruct (assign_head_best SELL _ _ _ _ _ _ E) as [->|Hlt]; [done|].
        apply bool_decide_eq_true in Hlt. by apply Qclt_le_weak. }
    split; [done|]. intros Hcross. eapply Qcle_trans; [exact Hbest|]. done.
Qed.

Lemma X7_witness :
  reachable ex_crossing.1 ex_crossing.2
  ∧ ex_crossing.1 !! 0%nat = Some (Order.make "c" BUY (dec 102 1) (dec 1 1) 0)
  ∧ OrderBook.getOrder ex_crossing.2 "c" = None
  ∧ ∃ b',
      OrderBook.addOrder ex_crossing.1 ex_crossing.2 0 = Some (b', true)
      ∧ OrderBook.getOrderCount b' = S (OrderBook.getOrderCount ex_crossing.2)
      ∧ (∀ id a, OrderBook.getOrder ex_crossing.2 id = Some a →
           OrderBook.getOrder b' id = Some a)
      ∧ OrderBook.getOrder b' "c" = Some 0%nat
      ∧ OrderBook.ask_levels_ b' = OrderBook.ask_levels_ ex_crossing.2
      ∧ dec 102 1 ≤ OrderBook.getBestBid b'
      ∧ (OrderBook.getBestAsk ex_crossing.2 ≤ dec 102 1 →
         OrderBook.getBestAsk b' ≤ OrderBook.getBestBid b').
Proof.
  split; [exact ex_crossing_reachable|]. split; [reflexivity|]. split; [reflexivity|].
  exact (X7_addOrder_never_matches ex_crossing.1 ex_crossing.2 0
           (Order.make "c" BUY (dec 102 1) (dec 1 1) 0)
           ex_crossing_reachable eq_refl eq_refl).
Defined.

End reachable_books.

(** * Further properties of the message handler *)

Section handler_more.
Variable stod : string → option double.
Variable clock : nat → Z.
Variable processL2Update : CoinbaseHandler.t → Json.t → CoinbaseHandler.outcome.
Implicit Types (st : CoinbaseHandler.t) (j : Json.t) (h : heap) (b : OrderBook.t).
Local Abbreviation handle := (CoinbaseHandler.handleMessage stod clock processL2Update).

Lemma string_field_String j key (s : string) :
  field j key = Some (Json.String s) → CoinbaseHandler.string_field j key = Ok s.
Proof.
  intros Hf. unfold CoinbaseHandler.string_field. by rewrite (field_at_key _ _ _ Hf).
Qed.

Lemma stod_field_String j key (s : string) (x : double) :
  field j key = Some (Json.String s) → stod s = Some x →
  CoinbaseHandler.stod_field stod j key = Ok x.
Proof.
  intros Hf Hs. unfold CoinbaseHandler.stod_field, CoinbaseHandler.stod_result.
  rewrite (field_at_key _ _ _ Hf). simpl. by rewrite Hs.
Qed.

(** A message for a product that has no book. *)
Lemma processSnapshot_no_book st j symbol :
  field j "product_id" = Some (Json.String symbol) →
  CoinbaseHandler.getOrderBook st symbol = None →
  CoinbaseHandler.processSnapshot stod clock st j = CoinbaseHandler.Returned st.
Proof.
  intros Hsym Hb. unfold CoinbaseHandler.processSnapshot.
  rewrite (field_contains _ _ _ Hsym), (string_field_String _ _ _ Hsym). simpl.
  by rewrite Hb.
Qed.

Lemma processL3Update_no_book st j symbol :
  field j "product_id" = Some (Json.String symbol) →
  CoinbaseHandler.getOrderBook st symbol = None →
  CoinbaseHandler.processL3Update stod clock st j = CoinbaseHandler.Returned st.
Proof.
  intros Hsym Hb. unfold CoinbaseHandler.processL3Update.
  rewrite (field_contains _ _ _ Hsym), (string_field_String _ _ _ Hsym). simpl.
  by rewrite Hb.
Qed.

Lemma processTicker_no_book st j symbol :
  field j "product_id" = Some (Json.String symbol) →
  CoinbaseHandler.getOrderBook st symbol = None →
  CoinbaseHandler.processTicker stod clock st j = CoinbaseHandler.Returned st.
Proof.
  intros Hsym Hb. unfold CoinbaseHandler.processTicker.
  rewrite (string_field_String _ _ _ Hsym). simpl. by rewrite Hb.
Qed.

Lemma handle_no_book st j (type symbol : string) :
  field j "type" = Some (Json.String type) → type ≠ "l2update" →
  field j "product_id" = Some (Json.String symbol) →
  CoinbaseHandler.getOrderBook st symbol = None →
  handle st j = Some st.
Proof.
  intros Ht Hl2 Hsym Hb. unfold CoinbaseHandler.handleMessage.
  rewrite (field_at_key_mut _ _ _ Ht). simpl.
  rewrite (processSnapshot_no_book st j symbol Hsym Hb),
    (processL3Update_no_book st j symbol Hsym Hb),
    (processTicker_no_book st j symbol Hsym Hb).
  rewrite (bool_decide_eq_false_2 (type = "l2update")) by done.
  repeat case_bool_decide; simpl; try done.
  by destruct (_ && _).
Qed.

(** X8.  The life of a subscription.  When the handler is not connected,
    [subscribe] and [unsubscribe] change nothing and send nothing.  When
    it is, [subscribe] creates an empty book only for a symbol that has
    none: a repeated [subscribe] keeps the book with its orders.
    [unsubscribe] erases the symbol's book and no other; from then on every
    snapshot, ticker and single-order message for that symbol is dropped
    with the state untouched, and a later [subscribe] starts again from an
    empty book.  Neither call touches another symbol's book. *)
Theorem X8_subscription_lifecycle (st : CoinbaseHandler.t) (symbol : string) :
  CoinbaseHandler.subscribe false st symbol = (st, None)
  ∧ CoinbaseHandler.unsubscribe false st symbol = (st, None)
  ∧ (∀ b, CoinbaseHandler.getOrderBook st symbol = Some b →
       CoinbaseHandler.getOrderBook (CoinbaseHandler.subscribe true st symbol).1 symbol
       = Some b)
  ∧ (CoinbaseHandler.getOrderBook st symbol = None →
       CoinbaseHandler.getOrderBook (CoinbaseHandler.subscribe true st symbol).1 symbol
       = Some (OrderBook.new symbol))
  ∧ CoinbaseHandler.getOrderBook (CoinbaseHandler.unsubscribe true st symbol).1 symbol
    = None
  ∧ (∀ other, other ≠ symbol →
       CoinbaseHandler.getOrderBook (CoinbaseHandler.subscribe true st symbol).1 other
       = CoinbaseHandler.getOrderBook st other
       ∧ CoinbaseHandler.getOrderBook (CoinbaseHandler.unsubscribe true st symbol).1 other
         = CoinbaseHandler.getOrderBook st other)
  ∧ (∀ j (type : string), field j "type" = Some (Json.String type) →
       type ≠ "l2update" →
       field j "product_id" = Some (Json.String symbol) →
       handle (CoinbaseHandler.unsubscribe true st symbol).1 j
       = Some (CoinbaseHandler.unsubscribe true st symbol).1)
  ∧ CoinbaseHandler.getOrderBook
      (CoinbaseHandler.subscribe true (CoinbaseHandler.unsubscribe true st symbol).1
         symbol).1 symbol
    = Some (OrderBook.new symbol).
Proof.
  unfold CoinbaseHandler.subscribe, CoinbaseHandler.unsubscribe,
    CoinbaseHandler.getOrderBook; simpl.
  split; [done|]. split; [done|]. split; [intros b Hb; by rewrite Hb|].
  split; [intros Hb; rewrite Hb; by rewrite lookup_insert_eq|].
  split; [by rewrite lookup_delete_eq|]. split.
  { intros other Hne. split; [|by rewrite lookup_delete_ne].
    destruct (CoinbaseHandler.order_books_ st !! symbol); simpl; [done|].
    by rewrite lookup_insert_ne. }
  split.
  { intros j type Ht Hl2 Hsym. apply (handle_no_book _ j type symbol); try done.
    unfold CoinbaseHandler.getOrderBook; simpl. by rewrite lookup_delete_eq. }
  rewrite lookup_delete_eq; simpl. by rewrite lookup_insert_eq.
Qed.

Lemma handle_l3update st j :
  field j "type" = Some (Json.String "l3update") → handle st j = Some st.
Proof.
  intros Ht. unfold CoinbaseHandler.handleMessage.
  rewrite (field_at_key_mut _ _ _ Ht). simpl.
  unfold CoinbaseHandler.processL3Update.
  destruct (Json.contains j "product_id") eqn:Hc; simpl; [|done].
  pose proof (string_field_defined j "product_id" Hc) as Hdef.
  destruct (CoinbaseHandler.string_field j "product_id") as [symbol| |]; simpl;
    [|done..].
  destruct (CoinbaseHandler.getOrderBook st symbol); [|done].
  by rewrite (string_field_String _ _ _ Ht).
Qed.

(** X9.  Messages [handleMessage] returns from with the state untouched:
    one whose "type" is not a string; one whose type is none of those it
    dispatches on (heartbeat, subscriptions, error, ...); one of type
    "l3update", which is dispatched to [processL3Update] but matches none
    of its branches; and any snapshot, ticker or single-order message
    whose product has no book. *)
Theorem X9_messages_that_change_nothing (st : CoinbaseHandler.t) (j : Json.t) :
  (∀ v, field j "type" = Some v → Json.is_string v = false → handle st j = Some st)
  ∧ (∀ type : string, field j "type" = Some (Json.String type) →
       type ∉ dispatched_types → handle st j = Some st)
  ∧ (field j "type" = Some (Json.String "l3update") → handle st j = Some st)
  ∧ (∀ type symbol : string, field j "type" = Some (Json.String type) →
       type ≠ "l2update" →
       field j "product_id" = Some (Json.String symbol) →
       CoinbaseHandler.getOrderBook st symbol = None →
       handle st j = Some st).
Proof.
  split; [|split; [|split]].
  - intros v Ht Hv. unfold CoinbaseHandler.handleMessage.
    rewrite (field_at_key_mut _ _ _ Ht). simpl. by destruct v.
  - intros type Ht Hnot. unfold CoinbaseHandler.handleMessage.
    rewrite (field_at_key_mut _ _ _ Ht). simpl.
    unfold dispatched_types in Hnot.
    repeat (apply not_elem_of_cons in Hnot as [? Hnot]).
    by rewrite !bool_decide_eq_false_2 by done.
  - apply handle_l3update.
  - apply handle_no_book.
Qed.

(** *** Single-order messages *)

Lemma st_insert_id st symbol b :
  CoinbaseHandler.order_books_ st !! symbol = Some b →
  CoinbaseHandler.make (CoinbaseHandler.heap_ st)
    (<[symbol := b]> (CoinbaseHandler.order_books_ st)) = st.
Proof. intros Hb. rewrite insert_id by done. by destruct st. Qed.

(** The head of [processL3Update], up to the dispatch on the type. *)
Lemma processL3Update_head st j (symbol type : string) b :
  field j "type" = Some (Json.String type) →
  field j "product_id" = Some (Json.String symbol) →
  CoinbaseHandler.getOrderBook st symbol = Some b →
  CoinbaseHandler.processL3Update stod clock st j =
  CoinbaseHandler.try_catch
    (if bool_decide (type = "received") || bool_decide (type = "open") then
       if negb (Json.contains j "order_id") || negb (Json.contains j "side")
          || negb (Json.contains j "price") || negb (Json.contains j "size")
       then CoinbaseHandler.Returned st
       else
         CoinbaseHandler.with_result st (CoinbaseHandler.string_field j "order_id") (λ order_id,
         CoinbaseHandler.with_result st (CoinbaseHandler.string_field j "side") (λ side_str,
         let side := CoinbaseHandler.convertOrderSide side_str in
         CoinbaseHandler.with_result st (CoinbaseHandler.stod_field stod j "price") (λ price,
         CoinbaseHandler.with_result st (CoinbaseHandler.stod_field stod j "size") (λ size,
         CoinbaseHandler.book_l3 clock st symbol "open" order_id side price size))))
     else if bool_decide (type = "done") then
       if negb (Json.contains j "order_id") then CoinbaseHandler.Returned st
       else
         CoinbaseHandler.with_result st (CoinbaseHandler.string_field j "order_id") (λ order_id,
         CoinbaseHandler.book_l3 clock st symbol "done" order_id BUY 0 0)
     else if bool_decide (type = "match") then
       if negb (Json.contains j "maker_order_id") || negb (Json.contains j "size")
       then CoinbaseHandler.Returned st
       else
         CoinbaseHandler.with_result st (CoinbaseHandler.string_field j "maker_order_id") (λ maker_order_id,
         CoinbaseHandler.with_result st (CoinbaseHandler.stod_field stod j "size") (λ size,
         match OrderBook.getOrder b maker_order_id with
         | None => CoinbaseHandler.Returned st
         | Some maker_order =>
             match CoinbaseHandler.heap_ st !! maker_order with
             | None => CoinbaseHandler.Undef
             | Some maker =>
                 let new_size := Order.size_ maker - size in
                 if bool_decide (new_size ≤ 0)
                 then CoinbaseHandler.book_l3 clock st symbol "done" maker_order_id
                        (Order.side_ maker) 0 0
                 else CoinbaseHandler.book_l3 clock st symbol "change" maker_order_id
                        (Order.side_ maker) (Order.price_ maker) new_size
             end
         end))
     else if bool_decide (type = "change") then
       if negb (Json.contains j "order_id") || negb (Json.contains j "new_size")
       then CoinbaseHandler.Returned st
       else
         CoinbaseHandler.with_result st (CoinbaseHandler.string_field j "order_id") (λ order_id,
         CoinbaseHandler.with_result st (CoinbaseHandler.stod_field stod j "new_size") (λ new_size,
         match OrderBook.getOrder b order_id with
         | None => CoinbaseHandler.Returned st
         | Some order =>
             match CoinbaseHandler.heap_ st !! order with
             | None => CoinbaseHandler.Undef
             | Some o =>
                 CoinbaseHandler.book_l3 clock st symbol "change" order_id
                   (Order.side_ o) (Order.price_ o) new_size
             end
         end))
     else CoinbaseHandler.Returned st).
Proof.
  intros Ht Hsym Hb. unfold CoinbaseHandler.processL3Update.
  rewrite (field_contains _ _ _ Hsym), (string_field_String _ _ _ Hsym). simpl.
  rewrite Hb. by rewrite (string_field_String _ _ _ Ht).
Qed.

Lemma book_l3_open st symbol b (id : string) side (price size : double) :
  CoinbaseHandler.getOrderBook st symbol = Some b →
  book_wf (CoinbaseHandler.heap_ st) b →
  ∃ b',
    CoinbaseHandler.book_l3 clock st symbol "open" id side price size
    = CoinbaseHandler.Returned
        (CoinbaseHandler.make
           (CoinbaseHandler.heap_ st
              ++ [Order.make id side price size (clock (length (CoinbaseHandler.heap_ st)))])
           (<[symbol := b']> (CoinbaseHandler.order_books_ st)))
    ∧ book_extends (CoinbaseHandler.heap_ st) b
        (CoinbaseHandler.heap_ st
           ++ [Order.make id side price size (clock (length (CoinbaseHandler.heap_ st)))])
        b' [id]
    ∧ (OrderBook.getOrder b id = None →
       b' = book_plus b (length (CoinbaseHandler.heap_ st))
              (Order.make id side price size (clock (length (CoinbaseHandler.heap_ st)))))
    ∧ (is_Some (OrderBook.getOrder b id) → b' = b).
Proof.
  intros Hb Hwf. unfold CoinbaseHandler.book_l3, CoinbaseHandler.on_book.
  unfold CoinbaseHandler.getOrderBook in Hb. rewrite Hb.
  unfold OrderBook.processL3Update, make_shared. simpl.
  set (h := CoinbaseHandler.heap_ st) in *.
  set (o := Order.make id side price size (clock (length h))).
  destruct (add_new_order_extends (clock (length h)) id side price size h b Hwf)
    as (b' & Hadd & Hext).
  unfold CoinbaseHandler.add_new_order, make_shared in Hadd. fold o in Hadd, Hext.
  destruct (OrderBook.addOrder (h ++ [o]) b (length h)) as [[b1 r]|] eqn:E; [|done].
  simpl in *. injection Hadd as ->. exists b'. split; [done|]. split; [done|].
  assert ((h ++ [o]) !! length h = Some o) as Ho
    by (by rewrite lookup_app_r, Nat.sub_diag).
  assert (book_wf (h ++ [o]) b) as Hwf1
    by (eapply book_wf_heap_le; [apply heap_le_app | done]).
  split.
  - intros Hid. rewrite (addOrder_fresh _ _ _ o Hwf1 Ho Hid) in E. by injection E as <- _.
  - intros Hid. rewrite (addOrder_duplicate _ _ _ o Ho Hid) in E. by injection E as <- _.
Qed.

(** X10.  An "open" or "received" message that carries its fields, for a
    product with a well-formed book.  One order is allocated from the
    message: its side is BUY exactly when the side text is "buy", and SELL
    for every other text.  If the id does not rest yet the order is added:
    it rests afterwards, the count is one up and every other order rests
    as before.  If the id rests already the book is left exactly as it
    was. *)
Theorem X10_open_message_adds_the_order (st : CoinbaseHandler.t) (j : Json.t)
    (type symbol order_id side_str price_str size_str : string)
    (price size : double) (b : OrderBook.t) :
  field j "type" = Some (Json.String type) → type ∈ ["open"; "received"] →
  field j "product_id" = Some (Json.String symbol) →
  CoinbaseHandler.getOrderBook st symbol = Some b →
  book_wf (CoinbaseHandler.heap_ st) b →
  field j "order_id" = Some (Json.String order_id) →
  field j "side" = Some (Json.String side_str) →
  field j "price" = Some (Json.String price_str) → stod price_str = Some price →
  field j "size" = Some (Json.String size_str) → stod size_str = Some size →
  ∃ st' b',
    handle st j = Some st'
    ∧ CoinbaseHandler.heap_ st'
      = CoinbaseHandler.heap_ st
        ++ [Order.make order_id (if bool_decide (side_str = "buy") then BUY else SELL)
              price size (clock (length (CoinbaseHandler.heap_ st)))]
    ∧ CoinbaseHandler.getOrderBook st' symbol = Some b'
    ∧ book_wf (CoinbaseHandler.heap_ st') b'
    ∧ (∀ id a, OrderBook.getOrder b id = Some a → OrderBook.getOrder b' id = Some a)
    ∧ (OrderBook.getOrder b order_id = None →
       OrderBook.getOrder b' order_id = Some (length (CoinbaseHandler.heap_ st))
       ∧ OrderBook.getOrderCount b' = S (OrderBook.getOrderCount b))
    ∧ (is_Some (OrderBook.getOrder b order_id) → b' = b).
Proof.
  intros Ht Hin Hsym Hb Hwf Hid Hside Hprice Hp Hsize Hs.
  assert (type ∈ ["received"; "open"; "done"; "match"; "change"]) as Hin5.
  { apply elem_of_cons in Hin as [->|Hin]; [|apply elem_of_cons in Hin as [->|Hin]].
    - compute_done.
    - compute_done.
    - by apply elem_of_nil in Hin. }
  rewrite (handle_l3 stod clock processL2Update st j type Ht Hin5).
  rewrite (processL3Update_head st j symbol type b Ht Hsym Hb).
  assert (bool_decide (type = "received") || bool_decide (type = "open") = true) as ->.
  { apply elem_of_cons in Hin as [->|Hin]; [done|].
    apply elem_of_cons in Hin as [->|Hin]; [done|]. by apply elem_of_nil in Hin. }
  rewrite (field_contains _ _ _ Hid), (field_contains _ _ _ Hside),
    (field_contains _ _ _ Hprice), (field_contains _ _ _ Hsize). simpl.
  rewrite (string_field_String _ _ _ Hid), (string_field_String _ _ _ Hside),
    (stod_field_String _ _ _ _ Hprice Hp), (stod_field_String _ _ _ _ Hsize Hs). simpl.
  destruct (book_l3_open st symbol b order_id (CoinbaseHandler.convertOrderSide side_str)
              price size Hb Hwf) as (b' & -> & Hext & Hfresh & Hdup).
  simpl. eexists _, b'. split; [done|]. simpl. split; [done|].
  unfold CoinbaseHandler.getOrderBook; simpl. rewrite lookup_insert_eq.
  split; [done|]. destruct Hext as (Hwf' & _ & Hkeep & _).
  split; [done|]. split; [done|]. split; [|done].
  intros Hnone. rewrite (Hfresh Hnone).
  unfold OrderBook.getOrder, OrderBook.getOrderCount, book_plus.
  rewrite orders_set_book. simpl. rewrite lookup_insert_eq. split; [done|].
  by apply map_size_insert_None.
Qed.

Lemma book_l3_done_resting st symbol b (id : string) (a : addr) o l side (p x : double) :
  CoinbaseHandler.getOrderBook st symbol = Some b →
  resting (CoinbaseHandler.heap_ st) b id a o l →
  CoinbaseHandler.book_l3 clock st symbol "done" id side p x
  = CoinbaseHandler.Returned
      (CoinbaseHandler.make (CoinbaseHandler.heap_ st)
         (<[symbol := book_minus b id o l]> (CoinbaseHandler.order_books_ st))).
Proof.
  intros Hb Hrest. unfold CoinbaseHandler.book_l3, CoinbaseHandler.on_book.
  unfold CoinbaseHandler.getOrderBook in Hb. rewrite Hb.
  unfold OrderBook.processL3Update. simpl.
  by rewrite (removeOrder_resting _ b id a o l Hrest).
Qed.

Lemma book_l3_done_unknown st symbol b (id : string) side (p x : double) :
  CoinbaseHandler.getOrderBook st symbol = Some b →
  OrderBook.getOrder b id = None →
  CoinbaseHandler.book_l3 clock st symbol "done" id side p x
  = CoinbaseHandler.Returned st.
Proof.
  intros Hb Hid. unfold CoinbaseHandler.book_l3, CoinbaseHandler.on_book.
  unfold CoinbaseHandler.getOrderBook in Hb. rewrite Hb.
  unfold OrderBook.processL3Update. simpl.
  rewrite (removeOrder_unknown _ b id Hid). simpl. by rewrite st_insert_id.
Qed.



(** X12.  A "done" message for a product with a well-formed book removes
    the order it names: the order no longer rests, the count is one down,
    every other order rests as before and no order object is touched.  A
    "done" for an id that does not rest leaves the state untouched. *)
Theorem X12_done_removes_the_order (st : CoinbaseHandler.t) (j : Json.t)
    (symbol order_id : string) (b : OrderBook.t) :
  field j "type" = Some (Json.String "done") →
  field j "product_id" = Some (Json.String symbol) →
  CoinbaseHandler.getOrderBook st symbol = Some b →
  book_wf (CoinbaseHandler.heap_ st) b →
  field j "order_id" = Some (Json.String order_id) →
  (OrderBook.getOrder b order_id = None → handle st j = Some st)
  ∧ (is_Some (OrderBook.getOrder b order_id) →
       ∃ st' b',
         handle st j = Some st'
         ∧ CoinbaseHandler.heap_ st' = CoinbaseHandler.heap_ st
         ∧ CoinbaseHandler.getOrderBook st' symbol = Some b'
         ∧ book_wf (CoinbaseHandler.heap_ st') b'
         ∧ OrderBook.getOrder b' order_id = None
         ∧ OrderBook.getOrderCount b' = pred (OrderBook.getOrderCount b)
         ∧ (∀ id, id ≠ order_id → OrderBook.getOrder b' id = OrderBook.getOrder b id)).
Proof.
  intros Ht Hsym Hb Hwf Hid.
  assert ("done" ∈ ["received"; "open"; "done"; "match"; "change"]) as Hin5
    by compute_done.
  rewrite (handle_l3 stod clock processL2Update st j "done" Ht Hin5).
  rewrite (processL3Update_head st j symbol "done" b Ht Hsym Hb). simpl.
  rewrite (field_contains _ _ _ Hid). simpl.
  rewrite (string_field_String _ _ _ Hid). simpl. split.
  - intros Hnone. by rewrite (book_l3_done_unknown st symbol b order_id BUY 0 0 Hb Hnone).
  - intros [a Ha].
    destruct (resting_intro _ b order_id a Hwf Ha) as (o & l & Hrest).
    rewrite (book_l3_done_resting st symbol b order_id a o l BUY 0 0 Hb Hrest).
    simpl. eexists _, _. split; [done|]. simpl. split; [done|].
    unfold CoinbaseHandler.getOrderBook; simpl. rewrite lookup_insert_eq.
    split; [done|]. split; [by eapply book_wf_minus|].
    unfold OrderBook.getOrder, OrderBook.getOrderCount, book_minus.
    rewrite orders_set_book.
    split; [by rewrite lookup_delete_eq|]. split; [by apply map_size_delete_Some|].
    intros id Hne. by rewrite lookup_delete_ne.
Qed.

(** *** A replayed snapshot *)

Lemma snapshot_loop_known side prefix symbol entries : ∀ st b,
  CoinbaseHandler.order_books_ st !! symbol = Some b →
  Forall (entry_ok stod prefix) entries →
  (∀ id, id ∈ entry_ids stod prefix entries → is_Some (OrderBook.getOrder b id)) →
  ∃ hx,
    CoinbaseHandler.snapshot_loop stod clock side prefix symbol st entries
    = CoinbaseHandler.Returned
        (CoinbaseHandler.make (CoinbaseHandler.heap_ st ++ hx)
           (CoinbaseHandler.order_books_ st)).
Proof.
  induction entries as [|entry entries IH]; intros st b Hb Hok Hids.
  - exists []. simpl. rewrite app_nil_r. by destruct st.
  - apply Forall_cons in Hok as [[[[price size] order_id] Hentry] Hok].
    rewrite (entry_ids_cons stod _ _ _ _ _ _ Hentry) in Hids.
    cbn [CoinbaseHandler.snapshot_loop]. rewrite Hentry.
    unfold CoinbaseHandler.on_book. rewrite Hb.
    unfold CoinbaseHandler.add_new_order, make_shared.
    set (h := CoinbaseHandler.heap_ st).
    set (o := Order.make order_id side price size (clock (length h))).
    assert ((h ++ [o]) !! length h = Some o) as Ho
      by (by rewrite lookup_app_r, Nat.sub_diag).
    rewrite (addOrder_duplicate (h ++ [o]) b (length h) o Ho)
      by (apply Hids, list_elem_of_here).
    simpl. rewrite insert_id by done.
    destruct (IH (CoinbaseHandler.make (h ++ [o]) (CoinbaseHandler.order_books_ st)) b)
      as (hx & ->); [done | done | |].
    + intros id Hid. apply Hids. by apply list_elem_of_further.
    + exists ([o] ++ hx). simpl. by rewrite <-app_assoc.
Qed.

(** X13.  Replaying a snapshot changes no book.  After a snapshot whose
    entries all parse was handled for a product with a well-formed book,
    handling the same snapshot again leaves every book exactly as the
    first pass left it: each entry is rejected as a duplicate.  The second
    pass only allocates order objects that nothing points to. *)
Theorem X13_snapshot_replay_changes_no_book (st : CoinbaseHandler.t) (j : Json.t)
    (symbol : string) (b : OrderBook.t) (bids asks : Json.t) :
  field j "type" = Some (Json.String "snapshot") →
  field j "product_id" = Some (Json.String symbol) →
  CoinbaseHandler.getOrderBook st symbol = Some b →
  book_wf (CoinbaseHandler.heap_ st) b →
  field j "bids" = Some bids → field j "asks" = Some asks →
  Forall (entry_ok stod "bid-") (Json.items bids) →
  Forall (entry_ok stod "ask-") (Json.items asks) →
  ∃ st1 st2 hx,
    handle st j = Some st1
    ∧ handle st1 j = Some st2
    ∧ CoinbaseHandler.order_books_ st2 = CoinbaseHandler.order_books_ st1
    ∧ CoinbaseHandler.heap_ st2 = CoinbaseHandler.heap_ st1 ++ hx.
Proof.
  intros Ht Hsym Hb Hwf Hbids Hasks Hokb Hoka.
  destruct (processSnapshot_extends stod clock st j symbol b bids asks
              Hsym Hb Hwf Hbids Hasks Hokb Hoka)
    as (h1 & b1 & Hrun & Hwf1 & _ & _ & Hids).
  rewrite (handle_snapshot _ _ _ _ _ Ht), Hrun. simpl.
  set (st1 := CoinbaseHandler.make h1 _).
  assert (CoinbaseHandler.order_books_ st1 !! symbol = Some b1) as Hb1
    by (by apply lookup_insert_eq).
  exists st1. rewrite (handle_snapshot _ _ _ _ _ Ht).
  unfold CoinbaseHandler.processSnapshot.
  rewrite (field_contains _ _ _ Hsym), (field_contains _ _ _ Hbids),
    (field_contains _ _ _ Hasks), (string_field_String _ _ _ Hsym),
    (field_at_key _ _ _ Hbids), (field_at_key _ _ _ Hasks). simpl.
  unfold CoinbaseHandler.getOrderBook. rewrite Hb1.
  destruct (snapshot_loop_known BUY "bid-" symbol (Json.items bids) st1 b1 Hb1 Hokb)
    as (hx1 & ->).
  { intros id Hid. apply Hids. right. apply elem_of_app. by left. }
  set (st2 := CoinbaseHandler.make _ _).
  destruct (snapshot_loop_known SELL "ask-" symbol (Json.items asks) st2 b1 Hb1 Hoka)
    as (hx2 & ->).
  { intros id Hid. apply Hids. right. apply elem_of_app. by right. }
  simpl. exists (CoinbaseHandler.make ((h1 ++ hx1) ++ hx2)
                   (CoinbaseHandler.order_books_ st1)), (hx1 ++ hx2).
  split; [done|]. split; [done|]. split; [done|]. simpl. by rewrite app_assoc.
Qed.

(** *** Which books a message can touch *)

Lemma touches_only_refl j st : touches_only j st st.
Proof. intros s. done. Qed.

Lemma touches_only_trans j st1 st2 st3 :
  touches_only j st1 st2 → touches_only j st2 st3 → touches_only j st1 st3.
Proof.
  intros H12 H23 s. destruct (H12 s) as [E1 I1]. destruct (H23 s) as [E2 I2].
  split; [intros Hne; by rewrite E2, E1 | by rewrite I2].
Qed.

Lemma touches_only_heap j st h :
  touches_only j st (CoinbaseHandler.make h (CoinbaseHandler.order_books_ st)).
Proof. intros s. done. Qed.

Lemma on_book_touches j st symbol call :
  field j "product_id" = Some (Json.String symbol) →
  outcome_ok (touches_only j st) (CoinbaseHandler.on_book st symbol call).
Proof.
  intros Hsym. unfold CoinbaseHandler.on_book.
  destruct (CoinbaseHandler.order_books_ st !! symbol) as [b|] eqn:Hb; [|done].
  destruct (call _ b) as [[h b']|]; [|done]. simpl.
  intros s. unfold CoinbaseHandler.getOrderBook; simpl.
  destruct (decide (symbol = s)) as [->|Hne].
  - rewrite lookup_insert_eq, Hb. split; [by intros [] | done].
  - by rewrite lookup_insert_ne.
Qed.

Lemma with_result_ok {A : Type} (P : CoinbaseHandler.t → Prop) st (r : result A) k :
  P st → (∀ a, r = Ok a → outcome_ok P (k a)) →
  outcome_ok P (CoinbaseHandler.with_result st r k).
Proof. intros HP Hk. destruct r; simpl; [by apply Hk | done | done]. Qed.

Lemma try_catch_ok (P : CoinbaseHandler.t → Prop) r :
  outcome_ok P r → outcome_ok P (CoinbaseHandler.try_catch r).
Proof. by destruct r. Qed.

Lemma string_field_Ok j key (s : string) :
  CoinbaseHandler.string_field j key = Ok s → field j key = Some (Json.String s).
Proof.
  unfold CoinbaseHandler.string_field, Json.at_key, field.
  destruct j as [| | | | | |fields]; simpl; try done.
  destruct (Json.assoc fields key) as [v|]; simpl; [|done].
  destruct v; simpl; try done. by intros [= ->].
Qed.

Lemma snapshot_loop_touches j side prefix symbol entries : ∀ st,
  field j "product_id" = Some (Json.String symbol) →
  outcome_ok (touches_only j st)
    (CoinbaseHandler.snapshot_loop stod clock side prefix symbol st entries).
Proof.
  induction entries as [|entry entries IH]; intros st Hsym; simpl.
  { apply touches_only_refl. }
  destruct (CoinbaseHandler.snapshot_entry stod prefix entry) as [[[price size] order_id]| |];
    simpl; [|apply touches_only_refl | done].
  pose proof (on_book_touches j st symbol
    (CoinbaseHandler.add_new_order (clock (length (CoinbaseHandler.heap_ st)))
       order_id side price size) Hsym) as H1.
  destruct (CoinbaseHandler.on_book _ _ _) as [st1| |]; simpl in *; [|done..].
  pose proof (IH st1 Hsym) as H2.
  destruct (CoinbaseHandler.snapshot_loop _ _ _ _ _ st1 entries); simpl in *;
    [by eapply touches_only_trans.. | done].
Qed.

Lemma processSnapshot_touches st j :
  outcome_ok (touches_only j st) (CoinbaseHandler.processSnapshot stod clock st j).
Proof.
  unfold CoinbaseHandler.processSnapshot.
  destruct (negb _); [apply touches_only_refl|].
  apply with_result_ok; [apply touches_only_refl|]. intros symbol Hsym%string_field_Ok.
  destruct (CoinbaseHandler.getOrderBook st symbol); [|apply touches_only_refl].
  destruct (_ || _); [apply touches_only_refl|].
  apply try_catch_ok, with_result_ok; [apply touches_only_refl|]. intros bids _.
  pose proof (snapshot_loop_touches j BUY "bid-" symbol (Json.items bids) st Hsym) as H1.
  destruct (CoinbaseHandler.snapshot_loop _ _ _ _ _ st _) as [st1| |]; simpl in *;
    [|done..].
  apply (with_result_ok (touches_only j st)); [done|]. intros asks _.
  pose proof (snapshot_loop_touches j SELL "ask-" symbol (Json.items asks) st1 Hsym) as H2.
  destruct (CoinbaseHandler.snapshot_loop _ _ _ _ _ st1 _); simpl in *;
    [by eapply touches_only_trans.. | done].
Qed.

Lemma book_l3_touches st j symbol type order_id side (price size : double) :
  field j "product_id" = Some (Json.String symbol) →
  outcome_ok (touches_only j st)
    (CoinbaseHandler.book_l3 clock st symbol type order_id side price size).
Proof. intros Hsym. by apply on_book_touches. Qed.

Local Ltac touches_step :=
  first
    [ apply touches_only_refl
    | apply book_l3_touches; assumption
    | apply try_catch_ok
    | apply with_result_ok; [apply touches_only_refl | intros ? ?]
    | match goal with
      | |- outcome_ok _ (if ?c then _ else _) => destruct c
      | |- outcome_ok _ (match ?x with _ => _ end) => destruct x
      end
    | exact I ].

Lemma processL3Update_touches st j :
  outcome_ok (touches_only j st) (CoinbaseHandler.processL3Update stod clock st j).
Proof.
  unfold CoinbaseHandler.processL3Update.
  destruct (negb _); [apply touches_only_refl|].
  apply with_result_ok; [apply touches_only_refl|]. intros symbol Hsym%string_field_Ok.
  destruct (CoinbaseHandler.getOrderBook st symbol); [|apply touches_only_refl].
  repeat touches_step.
Qed.

Lemma processTicker_touches st j :
  outcome_ok (touches_only j st) (CoinbaseHandler.processTicker stod clock st j).
Proof.
  unfold CoinbaseHandler.processTicker.
  apply with_result_ok; [apply touches_only_refl|]. intros symbol Hsym%string_field_Ok.
  destruct (CoinbaseHandler.getOrderBook st symbol); [|apply touches_only_refl].
  apply try_catch_ok.
  do 5 (apply with_result_ok; [apply touches_only_refl | intros ? _]).
  unfold make_shared.
  set (st1 := CoinbaseHandler.make _ (CoinbaseHandler.order_books_ st)).
  pose proof (on_book_touches j st1 symbol
    (λ (h : heap) (book : OrderBook.t),
       r1 ← OrderBook.addOrder h (OrderBook.clear book) (length (CoinbaseHandler.heap_ st));
       r2 ← OrderBook.addOrder h r1.1
               (length (CoinbaseHandler.heap_ st
                        ++ [Order.make ("bid-" +:+ a3) BUY a a0
                              (clock (length (CoinbaseHandler.heap_ st)))]));
       Some (h, r2.1)) Hsym) as H.
  destruct (CoinbaseHandler.on_book st1 symbol _); simpl in *; try done;
    (eapply touches_only_trans; [apply (touches_only_heap j st) | exact H]).
Qed.

Lemma finish_ok (P : CoinbaseHandler.t → Prop) r st' :
  outcome_ok P r → finish r = Some st' → P st'.
Proof. destruct r; simpl; [by intros ? [= <-].. | done]. Qed.

(** X14.  A message touches at most the book of the product it names.
    Whatever snapshot, ticker or single-order message [handleMessage]
    returns from (any type but "l2update"), the book of every other
    symbol is exactly as before, and no book was created or dropped: the
    subscribed symbols are the same. *)
Theorem X14_message_touches_one_book (st st' : CoinbaseHandler.t) (j : Json.t) :
  field j "type" ≠ Some (Json.String "l2update") →
  handle st j = Some st' →
  ∀ s, (field j "product_id" ≠ Some (Json.String s) →
        CoinbaseHandler.getOrderBook st' s = CoinbaseHandler.getOrderBook st s)
       ∧ (is_Some (CoinbaseHandler.getOrderBook st' s)
          ↔ is_Some (CoinbaseHandler.getOrderBook st s)).
Proof.
  intros Hl2 Hrun. change (touches_only j st st').
  unfold CoinbaseHandler.handleMessage in Hrun.
  destruct j as [| | | | | |fields]; simpl in Hrun;
    try (injection Hrun as <-; apply touches_only_refl).
  simpl in Hl2.
  destruct (Json.assoc fields "type") as [v|] eqn:Hv; simpl in Hrun;
    [|injection Hrun as <-; apply touches_only_refl].
  destruct v as [| | | |type| |]; simpl in Hrun;
    try (injection Hrun as <-; apply touches_only_refl).
  fold (finish (CoinbaseHandler.processSnapshot stod clock st (Json.Object fields))) in Hrun.
  fold (finish (CoinbaseHandler.processTicker stod clock st (Json.Object fields))) in Hrun.
  fold (finish (CoinbaseHandler.processL3Update stod clock st (Json.Object fields))) in Hrun.
  case_bool_decide as T1;
    [by apply (finish_ok _ _ _ (processSnapshot_touches st (Json.Object fields)))|].
  case_bool_decide as T2; [by subst type|].
  case_bool_decide as T3.
  { destruct (_ && _); [|injection Hrun as <-; apply touches_only_refl].
    by apply (finish_ok _ _ _ (processTicker_touches st (Json.Object fields))). }
  destruct (_ || _); [|injection Hrun as <-; apply touches_only_refl].
  by apply (finish_ok _ _ _ (processL3Update_touches st (Json.Object fields))).
Qed.

End handler_more.

Lemma X9_witness :
  ex_handle ex_one_bid_handler (Json.Object [("type", Json.Int 7)])
  = Some ex_one_bid_handler
  ∧ ex_handle ex_one_bid_handler (Json.Object [("type", Json.String "heartbeat")])
    = Some ex_one_bid_handler
  ∧ ex_handle ex_one_bid_handler
      (Json.Object [("type", Json.String "l3update");
                    ("product_id", Json.String "BTC-USD");
                    ("order_id", Json.String "x")])
    = Some ex_one_bid_handler
  ∧ ex_handle ex_one_bid_handler
      (Json.Object [("type", Json.String "done");
                    ("product_id", Json.String "ETH-USD");
                    ("order_id", Json.String "x")])
    = Some ex_one_bid_handler.
Proof.
  split; [|split; [|split]].
  - destruct (X9_messages_that_change_nothing stod_decimal ex_clock ex_l2
                ex_one_bid_handler (Json.Object [("type", Json.Int 7)])) as (H & _).
    apply (H (Json.Int 7)); reflexivity.
  - destruct (X9_messages_that_change_nothing stod_decimal ex_clock ex_l2
                ex_one_bid_handler (Json.Object [("type", Json.String "heartbeat")]))
      as (_ & H & _).
    apply (H "heartbeat"); [reflexivity|]. compute_done.
  - destruct (X9_messages_that_change_nothing stod_decimal ex_clock ex_l2
                ex_one_bid_handler
                (Json.Object [("type", Json.String "l3update");
                              ("product_id", Json.String "BTC-USD");
                              ("order_id", Json.String "x")])) as (_ & _ & H & _).
    apply H. reflexivity.
  - destruct (X9_messages_that_change_nothing stod_decimal ex_clock ex_l2
                ex_one_bid_handler
                (Json.Object [("type", Json.String "done");
                              ("product_id", Json.String "ETH-USD");
                              ("order_id", Json.String "x")])) as (_ & _ & _ & H).
    apply (H "done" "ETH-USD"); [reflexivity | discriminate | reflexivity | reflexivity].
Defined.

Lemma X8_witness :
  CoinbaseHandler.getOrderBook
    (CoinbaseHandler.subscribe true ex_one_bid_handler "BTC-USD").1 "BTC-USD"
  = Some ex_one_bid.2
  ∧ CoinbaseHandler.getOrderBook
      (CoinbaseHandler.subscribe true ex_one_bid_handler "ETH-USD").1 "ETH-USD"
    = Some (OrderBook.new "ETH-USD")
  ∧ ex_handle (CoinbaseHandler.unsubscribe true ex_one_bid_handler "BTC-USD").1
      (done_msg "x")
    = Some (CoinbaseHandler.unsubscribe true ex_one_bid_handler "BTC-USD").1.
Proof.
  split; [|split].
  - destruct (X8_subscription_lifecycle stod_decimal ex_clock ex_l2
                ex_one_bid_handler "BTC-USD") as (_ & _ & H & _).
    apply H. reflexivity.
  - destruct (X8_subscription_lifecycle stod_decimal ex_clock ex_l2
                ex_one_bid_handler "ETH-USD") as (_ & _ & _ & H & _).
    apply H. reflexivity.
  - destruct (X8_subscription_lifecycle stod_decimal ex_clock ex_l2
                ex_one_bid_handler "BTC-USD") as (_ & _ & _ & _ & _ & _ & H & _).
    apply (H (done_msg "x") "done"); [reflexivity | discriminate | reflexivity].
Defined.

Lemma X10_witness :
  book_wf (CoinbaseHandler.heap_ ex_one_bid_handler) ex_one_bid.2
  ∧ ∃ st' b',
      ex_handle ex_one_bid_handler (open_msg "y" "sell" "101" "2") = Some st'
      ∧ CoinbaseHandler.heap_ st'
        = CoinbaseHandler.heap_ ex_one_bid_handler
          ++ [Order.make "y" (if bool_decide ("sell" = "buy") then BUY else SELL)
                (dec 101 1) (dec 2 1)
                (ex_clock (length (CoinbaseHandler.heap_ ex_one_bid_handler)))]
      ∧ CoinbaseHandler.getOrderBook st' "BTC-USD" = Some b'
      ∧ book_wf (CoinbaseHandler.heap_ st') b'
      ∧ (∀ id a, OrderBook.getOrder ex_one_bid.2 id = Some a →
           OrderBook.getOrder b' id = Some a)
      ∧ (OrderBook.getOrder ex_one_bid.2 "y" = None →
         OrderBook.getOrder b' "y"
         = Some (length (CoinbaseHandler.heap_ ex_one_bid_handler))
         ∧ OrderBook.getOrderCount b' = S (OrderBook.getOrderCount ex_one_bid.2))
      ∧ (is_Some (OrderBook.getOrder ex_one_bid.2 "y") → b' = ex_one_bid.2).
Proof.
  split; [exact ex_one_bid_wf|].
  apply (X10_open_message_adds_the_order stod_decimal ex_clock ex_l2
           ex_one_bid_handler (open_msg "y" "sell" "101" "2")
           "open" "BTC-USD" "y" "sell" "101" "2" (dec 101 1) (dec 2 1) ex_one_bid.2).
  - reflexivity.
  - compute_done.
  - reflexivity.
  - reflexivity.
  - exact ex_one_bid_wf.
  - reflexivity.
  - reflexivity.
  - reflexivity.
  - vm_compute. reflexivity.
  - reflexivity.
  - vm_compute. reflexivity.
Defined.


Lemma X12_witness :
  book_wf (CoinbaseHandler.heap_ ex_one_bid_handler) ex_one_bid.2
  ∧ ex_handle ex_one_bid_handler (done_msg "y") = Some ex_one_bid_handler
  ∧ ∃ st' b',
      ex_handle ex_one_bid_handler (done_msg "x") = Some st'
      ∧ CoinbaseHandler.heap_ st' = CoinbaseHandler.heap_ ex_one_bid_handler
      ∧ CoinbaseHandler.getOrderBook st' "BTC-USD" = Some b'
      ∧ book_wf (CoinbaseHandler.heap_ st') b'
      ∧ OrderBook.getOrder b' "x" = None
      ∧ OrderBook.getOrderCount b' = pred (OrderBook.getOrderCount ex_one_bid.2)
      ∧ (∀ id, id ≠ "x" →
           OrderBook.getOrder b' id = OrderBook.getOrder ex_one_bid.2 id).
Proof.
  split; [exact ex_one_bid_wf|]. split.
  - destruct (X12_done_removes_the_order stod_decimal ex_clock ex_l2
                ex_one_bid_handler (done_msg "y") "BTC-USD" "y" ex_one_bid.2) as [H _];
      [reflexivity | reflexivity | reflexivity | exact ex_one_bid_wf | reflexivity |].
    apply H. reflexivity.
  - destruct (X12_done_removes_the_order stod_decimal ex_clock ex_l2
                ex_one_bid_handler (done_msg "x") "BTC-USD" "x" ex_one_bid.2) as [_ H];
      [reflexivity | reflexivity | reflexivity | exact ex_one_bid_wf | reflexivity |].
    apply H. exists 0%nat. reflexivity.
Defined.

Lemma X13_witness :
  book_wf (CoinbaseHandler.heap_ ex_one_bid_handler) ex_one_bid.2
  ∧ ∃ st1 st2 hx,
      ex_handle ex_one_bid_handler ex_snapshot = Some st1
      ∧ ex_handle st1 ex_snapshot = Some st2
      ∧ CoinbaseHandler.order_books_ st2 = CoinbaseHandler.order_books_ st1
      ∧ CoinbaseHandler.heap_ st2 = CoinbaseHandler.heap_ st1 ++ hx.
Proof.
  split; [exact ex_one_bid_wf|].
  apply (X13_snapshot_replay_changes_no_book stod_decimal ex_clock ex_l2
           ex_one_bid_handler ex_snapshot "BTC-USD" ex_one_bid.2
           (Json.Array [Json.Array [Json.String "50"; Json.String "1"]])
           (Json.Array [Json.Array [Json.String "60"; Json.String "1"]])).
  - reflexivity.
  - reflexivity.
  - reflexivity.
  - exact ex_one_bid_wf.
  - reflexivity.
  - reflexivity.
  - repeat constructor. eexists. vm_compute. reflexivity.
  - repeat constructor. eexists. vm_compute. reflexivity.
Defined.

Lemma X14_witness :
  ∃ st',
    ex_handle ex_two_books_handler (done_msg "x") = Some st'
    ∧ CoinbaseHandler.getOrderBook st' "BTC-USD" ≠ CoinbaseHandler.getOrderBook ex_two_books_handler "BTC-USD"
    ∧ ∀ s, (field (done_msg "x") "product_id" ≠ Some (Json.String s) →
            CoinbaseHandler.getOrderBook st' s
            = CoinbaseHandler.getOrderBook ex_two_books_handler s)
           ∧ (is_Some (CoinbaseHandler.getOrderBook st' s)
              ↔ is_Some (CoinbaseHandler.getOrderBook ex_two_books_handler s)).
Proof.
  eexists. split; [reflexivity|]. split; [by vm_compute|].
  apply (X14_message_touches_one_book stod_decimal ex_clock ex_l2
           ex_two_books_handler _ (done_msg "x")).
  - discriminate.
  - reflexivity.
Defined.

(** * The WebSocket frames *)

(** The frames of RFC 6455, section 5.7: "Hello" unmasked and masked. *)
Example test_unmasked_hello :
  WebSocketClient.processMessage 1000 (WebSocketClient.make true true [] true)
    [0x81; 0x05; 0x48; 0x65; 0x6c; 0x6c; 0x6f]%Z
  = Ok (WebSocketClient.make true true [] true,
        WebSocketClient.Deliver [0x48; 0x65; 0x6c; 0x6c; 0x6f]%Z).
Proof. vm_compute. reflexivity. Qed.

Example test_masked_hello :
  WebSocketClient.processMessage 1000 (WebSocketClient.make true true [] true)
    [0x81; 0x85; 0x37; 0xfa; 0x21; 0x3d; 0x7f; 0x9f; 0x4d; 0x51; 0x58]%Z
  = Ok (WebSocketClient.make true true [] true,
        WebSocketClient.Deliver [0x48; 0x65; 0x6c; 0x6c; 0x6f]%Z).
Proof. vm_compute. reflexivity. Qed.

Example test_ping_hello :
  WebSocketClient.processMessage 1000 (WebSocketClient.make true true [] true)
    [0x89; 0x05; 0x48; 0x65; 0x6c; 0x6c; 0x6f]%Z
  = Ok (WebSocketClient.make true true [] true,
        WebSocketClient.Pong [0x8a; 0x05; 0x48; 0x65; 0x6c; 0x6c; 0x6f]%Z).
Proof. vm_compute. reflexivity. Qed.

(** The base64 test vectors of RFC 4648, section 10. *)
Example test_base64 :
  string_of_list_ascii <$>
    (WebSocketClient.encode <$>
       [[]; [102]; [102; 111]; [102; 111; 111]; [102; 111; 111; 98];
        [102; 111; 111; 98; 97]; [102; 111; 111; 98; 97; 114]]%Z)
  = ["";  "Zg=="; "Zm8="; "Zm9v"; "Zm9vYg=="; "Zm9vYmE="; "Zm9vYmFy"]%string.
Proof. vm_compute. reflexivity. Qed.

Section frame_facts.
Import WebSocketClient.
Local Open Scope Z_scope.
Implicit Types (s message payload body extra key : list Z) (n : Z).

(** *** Bytes and bits *)

Lemma lor_shiftl_add (hi lo k : Z) :
  0 ≤ k → 0 ≤ lo < 2 ^ k → Z.lor (hi ≪ k) lo = hi * 2 ^ k + lo.
Proof.
  intros Hk Hlo.
  assert (Z.land (hi ≪ k) lo = 0) as Hland.
  { apply Z.bits_inj'. intros i Hi. rewrite Z.land_spec, Z.bits_0.
    destruct (decide (i < k)) as [Hlt|Hge].
    - by rewrite Z.shiftl_spec_low.
    - rewrite andb_false_intro2; [done|].
      destruct (decide (lo = 0)) as [->|Hne]; [apply Z.bits_0|].
      apply Z.bits_above_log2; [lia|].
      apply Z.log2_lt_pow2; [lia|].
      eapply Z.lt_le_trans; [apply Hlo|]. apply Z.pow_le_mono_r; lia. }
  pose proof (Z.add_lor_land (hi ≪ k) lo) as E. rewrite Hland in E.
  rewrite Z.shiftl_mul_pow2 in * by done. lia.
Qed.

Lemma land_255 (x : Z) : Z.land x 0xFF = x `mod` 256.
Proof. change 0xFF with (Z.ones 8). by rewrite Z.land_ones. Qed.

Lemma land_127 (x : Z) : Z.land x 0x7F = x `mod` 128.
Proof. change 0x7F with (Z.ones 7). by rewrite Z.land_ones. Qed.

Lemma land_128_low (x : Z) : 0 ≤ x < 128 → Z.land x 0x80 = 0.
Proof.
  intros Hx. apply Z.bits_inj'. intros i Hi. rewrite Z.land_spec, Z.bits_0.
  destruct (decide (i = 7)) as [->|Hne].
  - rewrite andb_false_intro1; [done|].
    destruct (decide (x = 0)) as [->|Hx0]; [apply Z.bits_0|].
    apply Z.bits_above_log2; [lia|]. apply Z.log2_lt_pow2; lia.
  - rewrite andb_false_intro2; [done|]. change 0x80 with (2 ^ 7).
    by apply Z.pow2_bits_false.
Qed.

Lemma land_128_high (x : Z) : 0 ≤ x < 128 → Z.land (128 + x) 0x80 = 0x80.
Proof.
  intros Hx. apply Z.bits_inj'. intros i Hi. rewrite Z.land_spec.
  change 0x80 with (2 ^ 7). destruct (decide (i = 7)) as [->|Hne].
  - rewrite Z.pow2_bits_true by lia. rewrite andb_true_r.
    rewrite Z.testbit_true by lia. change (2 ^ 7) with 128.
    replace ((128 + x) / 128) with 1; [done|].
    apply Z.div_unique with x; lia.
  - rewrite Z.pow2_bits_false by lia. apply andb_false_r.
Qed.

Lemma lxor_involutive (c k : Z) : Z.lxor (Z.lxor c k) k = c.
Proof. by rewrite Z.lxor_assoc, Z.lxor_nilpotent, Z.lxor_0_r. Qed.


(** One step of the big-endian read of a length. *)
Lemma be_step (x : Z) :
  0 ≤ x < 2 ^ 64 → Z.lor (size_t ((x / 256) ≪ 8)) (x `mod` 256) = x.
Proof.
  intros Hx. unfold size_t.
  assert (0 ≤ x / 256 < 2 ^ 56) as Hd.
  { split; [apply Z.div_pos; lia|]. apply Z.div_lt_upper_bound; lia. }
  rewrite Z.shiftl_mul_pow2 by done. rewrite Z.mod_small by lia.
  rewrite <-(Z.shiftl_mul_pow2 _ 8) by done.
  rewrite lor_shiftl_add; [|done|apply Z.mod_pos_bound; lia].
  change (2 ^ 8) with 256. pose proof (Z.div_mod x 256). lia.
Qed.

(** *** Indexing *)

Lemma size_cons (b : Z) s : size (b :: s) = 1 + size s.
Proof. unfold size. simpl. lia. Qed.

Lemma size_app s1 s2 : size (s1 ++ s2) = size s1 + size s2.
Proof. unfold size. rewrite length_app. lia. Qed.

Lemma size_nonneg s : 0 ≤ size s.
Proof. unfold size. lia. Qed.

Lemma at_lookup s (k : nat) (b : Z) : s !! k = Some b → at_ s (Z.of_nat k) = Ok b.
Proof.
  intros Hk. unfold at_. pose proof (lookup_lt_Some _ _ _ Hk) as Hlt.
  rewrite bool_decide_eq_true_2 by (unfold size; lia). by rewrite Nat2Z.id, Hk.
Qed.


Lemma at_idx s (k : nat) (i b : Z) : i = Z.of_nat k → s !! k = Some b → at_ s i = Ok b.
Proof. intros ->. apply at_lookup. Qed.

(** *** The header *)

Lemma read_header_7 message n :
  n ≠ 126 → n ≠ 127 → read_header message n = Ok (Some (2, n)).
Proof. intros H1 H2. unfold read_header. by rewrite !bool_decide_eq_false_2. Qed.

Lemma read_header_16 message n :
  0 ≤ n < 2 ^ 16 →
  message !! 2%nat = Some (n / 256) → message !! 3%nat = Some (n `mod` 256) →
  read_header message 126 = Ok (Some (4, n)).
Proof.
  intros Hn H2 H3. unfold read_header. simpl.
  pose proof (lookup_lt_Some _ _ _ H3) as Hlt.
  rewrite bool_decide_eq_false_2 by (unfold size; lia).
  rewrite (at_idx message 2 2 _ eq_refl H2), (at_idx message 3 3 _ eq_refl H3). simpl.
  rewrite lor_shiftl_add; [|done|apply Z.mod_pos_bound; lia].
  change (2 ^ 8) with 256. pose proof (Z.div_mod n 256).
  do 3 f_equal. lia.
Qed.

Lemma be_step_pow (n k k' : Z) :
  k' = k + 1 → 0 ≤ k → 0 ≤ n < 2 ^ 64 →
  Z.lor (size_t ((n / 256 ^ k') ≪ 8)) ((n / 256 ^ k) `mod` 256) = n / 256 ^ k.
Proof.
  intros -> Hk Hn. assert (0 < 256 ^ k) by (apply Z.pow_pos_nonneg; lia).
  rewrite Z.pow_add_r by lia. rewrite <-Z.div_div by lia.
  apply be_step. split.
  - apply Z.div_pos; lia.
  - apply Z.div_lt_upper_bound; [done|]. nia.
Qed.

Lemma read_header_64 message n :
  0 ≤ n < 2 ^ 64 →
  message !! 2%nat = Some ((n / 256 ^ 7) `mod` 256) →
  message !! 3%nat = Some ((n / 256 ^ 6) `mod` 256) →
  message !! 4%nat = Some ((n / 256 ^ 5) `mod` 256) →
  message !! 5%nat = Some ((n / 256 ^ 4) `mod` 256) →
  message !! 6%nat = Some ((n / 256 ^ 3) `mod` 256) →
  message !! 7%nat = Some ((n / 256 ^ 2) `mod` 256) →
  message !! 8%nat = Some ((n / 256 ^ 1) `mod` 256) →
  message !! 9%nat = Some ((n / 256 ^ 0) `mod` 256) →
  read_header message 127 = Ok (Some (10, n)).
Proof.
  intros Hn H7 H6 H5 H4 H3 H2 H1 H0. unfold read_header. simpl.
  pose proof (lookup_lt_Some _ _ _ H0) as Hlt.
  rewrite bool_decide_eq_false_2 by (unfold size; lia).
  unfold read_length.
  rewrite (at_idx message 2 (2 + Z.of_nat 0) _ eq_refl H7).
  rewrite (at_idx message 3 (2 + Z.of_nat 1) _ eq_refl H6).
  rewrite (at_idx message 4 (2 + Z.of_nat 2) _ eq_refl H5).
  rewrite (at_idx message 5 (2 + Z.of_nat 3) _ eq_refl H4).
  rewrite (at_idx message 6 (2 + Z.of_nat 4) _ eq_refl H3).
  rewrite (at_idx message 7 (2 + Z.of_nat 5) _ eq_refl H2).
  rewrite (at_idx message 8 (2 + Z.of_nat 6) _ eq_refl H1).
  rewrite (at_idx message 9 (2 + Z.of_nat 7) _ eq_refl H0).
  cbn [result_bind]. do 3 f_equal.
  pose proof (be_step_pow n 7 8 eq_refl ltac:(lia) Hn) as E7.
  rewrite (Z.div_small n (256 ^ 8)) in E7 by lia. rewrite E7.
  rewrite (be_step_pow n 6 7 eq_refl ltac:(lia) Hn).
  rewrite (be_step_pow n 5 6 eq_refl ltac:(lia) Hn).
  rewrite (be_step_pow n 4 5 eq_refl ltac:(lia) Hn).
  rewrite (be_step_pow n 3 4 eq_refl ltac:(lia) Hn).
  rewrite (be_step_pow n 2 3 eq_refl ltac:(lia) Hn).
  rewrite (be_step_pow n 1 2 eq_refl ltac:(lia) Hn).
  rewrite (be_step_pow n 0 1 eq_refl ltac:(lia) Hn).
  change (256 ^ 0) with 1. apply Z.div_1_r.
Qed.

(** *** The payload *)

Section payloads.
Variable max_size : Z.

Lemma read_payload_unmasked hdr payload extra :
  size hdr + size payload < 2 ^ 64 →
  read_payload max_size (hdr ++ payload ++ extra) false (size hdr) (size payload)
  = Ok (Some payload).
Proof.
  intros Hlt. unfold read_payload, substr, size_t.
  pose proof (size_nonneg hdr). pose proof (size_nonneg payload).
  pose proof (size_nonneg extra).
  rewrite Z.mod_small by lia. rewrite !size_app.
  rewrite bool_decide_eq_true_2 by lia. rewrite bool_decide_eq_false_2 by lia.
  simpl. do 2 f_equal.
  replace (Z.to_nat (size hdr)) with (length hdr) by (unfold size; lia).
  rewrite drop_app_length.
  replace (Z.to_nat _) with (length payload) by (unfold size in *; lia).
  by rewrite take_app_length.
Qed.

Lemma lookup_masked key payload (i : nat) (c : Z) :
  payload !! i = Some c →
  masked key payload !! i = Some (Z.lxor c (nth (i `mod` 4) key 0)).
Proof. intros Hc. unfold masked. by rewrite list_lookup_imap, Hc. Qed.

Lemma unmask_masked message key (hs : nat) payload :
  Z.of_nat hs + size payload < 2 ^ 64 →
  (∀ (i : nat) c, payload !! i = Some c →
     message !! (hs + i)%nat = Some (Z.lxor c (nth (i `mod` 4) key 0))) →
  ∀ done_ rest, payload = done_ ++ rest →
    unmask message key (Z.of_nat hs) (length done_) (length rest) = Ok (Some rest).
Proof.
  intros Hlt Hmsg done_ rest. revert done_.
  induction rest as [|c rest IH]; intros done_ Hp; [done|].
  cbn [length unmask].
  assert (payload !! length done_ = Some c) as Hc.
  { subst payload. by rewrite lookup_app_r, Nat.sub_diag. }
  pose proof (Hmsg _ _ Hc) as Hm. pose proof (lookup_lt_Some _ _ _ Hm) as Hlen.
  assert (size payload = Z.of_nat (length done_) + 1 + Z.of_nat (length rest)) as Hsz.
  { subst payload. unfold size. rewrite length_app. simpl. lia. }
  unfold size_t. rewrite Z.mod_small by lia.
  rewrite bool_decide_eq_true_2 by (unfold size; lia).
  rewrite (at_idx message (hs + length done_) (Z.of_nat hs + Z.of_nat (length done_)) _
             ltac:(lia) Hm).
  cbn [result_bind].
  replace (S (length done_)) with (length (done_ ++ [c]))
    by (rewrite length_app; simpl; lia).
  rewrite (IH (done_ ++ [c])).
  - cbn [result_bind fmap option_fmap option_map]. by rewrite lxor_involutive.
  - by rewrite <-app_assoc.
Qed.

Lemma read_payload_masked hdr (k0 k1 k2 k3 : Z) payload extra :
  size hdr + 4 + size payload < 2 ^ 64 → size payload ≤ max_size →
  read_payload max_size
    (hdr ++ [k0; k1; k2; k3] ++ masked [k0; k1; k2; k3] payload ++ extra)
    true (size hdr + 4) (size payload)
  = Ok (Some payload).
Proof.
  intros Hlt Hmax. unfold read_payload, read_mask.
  set (key := [k0; k1; k2; k3]). set (message := hdr ++ _).
  assert (∀ i : nat, (i < 4)%nat → message !! (length hdr + i)%nat = key !! i) as Hkey.
  { intros i Hi. unfold message. rewrite lookup_app_r by lia.
    replace (length hdr + i - length hdr)%nat with i by lia.
    by rewrite lookup_app_l by (simpl; lia). }
  rewrite (at_idx message (length hdr + 0) (size hdr + 4 - 4 + 0) k0
             ltac:(unfold size; lia)
             (Hkey 0%nat ltac:(lia))).
  rewrite (at_idx message (length hdr + 1) (size hdr + 4 - 4 + 1) k1
             ltac:(unfold size; lia)
             (Hkey 1%nat ltac:(lia))).
  rewrite (at_idx message (length hdr + 2) (size hdr + 4 - 4 + 2) k2
             ltac:(unfold size; lia)
             (Hkey 2%nat ltac:(lia))).
  rewrite (at_idx message (length hdr + 3) (size hdr + 4 - 4 + 3) k3
             ltac:(unfold size; lia)
             (Hkey 3%nat ltac:(lia))).
  cbn [result_bind]. fold key.
  rewrite bool_decide_eq_false_2 by lia.
  replace (size hdr + 4) with (Z.of_nat (length hdr + 4)) by (unfold size; lia).
  replace (Z.to_nat (size payload)) with (length payload) by (unfold size; lia).
  refine (unmask_masked message key (length hdr + 4) payload _ _ [] payload _).
  - unfold size in *. lia.
  - intros i c Hc. unfold message.
    rewrite lookup_app_r by lia. rewrite lookup_app_r by (simpl; lia).
    replace (length hdr + 4 + i - length hdr - length key)%nat with i by (simpl; lia).
    rewrite lookup_app_l by (apply lookup_lt_Some in Hc; unfold masked;
                             by rewrite length_imap).
    by apply lookup_masked.
  - done.
Qed.

(** *** A whole frame *)

Lemma second_byte_bits (mask_bit x : Z) :
  mask_bit = 0 ∨ mask_bit = 128 → 0 ≤ x < 128 →
  Z.land (mask_bit + x) 0x80 = mask_bit ∧ Z.land (mask_bit + x) 0x7F = x.
Proof.
  intros [->| ->] Hx.
  - rewrite Z.add_0_l. split; [by apply land_128_low|].
    rewrite land_127. apply Z.mod_small. lia.
  - split; [by apply land_128_high|]. rewrite land_127.
    replace (128 + x) with (x + 1 * 128) by lia. rewrite Z.mod_add by lia.
    apply Z.mod_small. lia.
Qed.

Lemma processMessage_parsed (self : t) (a mask_bit x : Z) rest (is_masked : bool)
    (hs0 n : Z) payload :
  mask_bit = (if is_masked then 128 else 0) → 0 ≤ x < 128 →
  read_header (a :: mask_bit + x :: rest) x = Ok (Some (hs0, n)) →
  0 ≤ hs0 → 0 ≤ n →
  (if is_masked then hs0 + 4 else hs0) + n ≤ size (a :: mask_bit + x :: rest) →
  (if is_masked then hs0 + 4 else hs0) + n < 2 ^ 64 →
  read_payload max_size (a :: mask_bit + x :: rest) is_masked
    (if is_masked then hs0 + 4 else hs0) n = Ok (Some payload) →
  processMessage max_size self (a :: mask_bit + x :: rest)
  = Ok (handle_payload self a payload).
Proof.
  intros Hm Hx Hhdr Hhs Hn Hsize Hwrap Hpay. unfold processMessage.
  rewrite bool_decide_eq_false_2 by done.
  rewrite (at_idx (a :: mask_bit + x :: rest) 0 0 a eq_refl eq_refl),
    (at_idx (a :: mask_bit + x :: rest) 1 1 (mask_bit + x) eq_refl eq_refl).
  cbn [result_bind].
  destruct (second_byte_bits mask_bit x) as [E1 E2];
    [destruct is_masked; auto | done |].
  rewrite E1, E2, Hhdr. cbn [result_bind].
  assert (negb (bool_decide (mask_bit = 0)) = is_masked) as ->.
  { subst mask_bit. by destruct is_masked. }
  assert (size_t ((if is_masked then hs0 + 4 else hs0) + n)
          = (if is_masked then hs0 + 4 else hs0) + n) as Est
    by (unfold size_t; apply Z.mod_small; destruct is_masked; lia).
  rewrite bool_decide_eq_false_2 by (rewrite Est; lia).
  by rewrite Hpay.
Qed.

(** What [processMessage] does with a chunk that begins with a whole
    frame, in any of the three length forms, unmasked or masked: the
    payload goes to [handle_payload], and what follows the frame is
    ignored. *)
Lemma processMessage_framed (self : t) (first : Z) (form : length_form)
    (key : option (list Z)) payload extra :
  fits form (size payload) → size payload + 14 < 2 ^ 64 →
  match key with
  | Some k => (∃ k0 k1 k2 k3, k = [k0; k1; k2; k3]) ∧ size payload ≤ max_size
  | None => True
  end →
  processMessage max_size self
    (framed first form key (size payload)
       (match key with Some k => masked k payload | None => payload end ++ extra))
  = Ok (handle_payload self first payload).
Proof.
  intros Hfits Hlt Hkey. pose proof (size_nonneg payload) as Hp.
  pose proof (size_nonneg extra) as He.
  destruct key as [k|]; [destruct Hkey as [(k0 & k1 & k2 & k3 & ->) Hmax]|];
    destruct form; unfold framed, length_field; cbn [default app fmap list_fmap];
    simpl in Hfits.
  - (* masked, 7-bit length *)
    apply (processMessage_parsed self first 128 (size payload) _ true 2 (size payload));
      try done; try lia.
    + apply read_header_7; lia.
    + unfold masked, size in *. cbn [id app length].
      rewrite ?length_app, ?length_imap. cbn [length]. lia.
    + exact (read_payload_masked [first; 128 + size payload] k0 k1 k2 k3
               payload extra ltac:(unfold size in *; cbn [length]; lia) Hmax).
  - (* masked, 16-bit length *)
    apply (processMessage_parsed self first 128 126 _ true 4 (size payload));
      try done; try lia.
    + by apply read_header_16.
    + unfold masked, size in *. cbn [id app length].
      rewrite ?length_app, ?length_imap. cbn [length]. lia.
    + exact (read_payload_masked
               [first; 128 + 126; size payload / 256; size payload `mod` 256]
               k0 k1 k2 k3 payload extra ltac:(unfold size in *; cbn [length]; lia) Hmax).
  - (* masked, 64-bit length *)
    apply (processMessage_parsed self first 128 127 _ true 10 (size payload));
      try done; try lia.
    + by apply read_header_64.
    + unfold masked, size in *. cbn [id app length].
      rewrite ?length_app, ?length_imap. cbn [length]. lia.
    + exact (read_payload_masked
               [first; 128 + 127;
                (size payload / 256 ^ 7) `mod` 256; (size payload / 256 ^ 6) `mod` 256;
                (size payload / 256 ^ 5) `mod` 256; (size payload / 256 ^ 4) `mod` 256;
                (size payload / 256 ^ 3) `mod` 256; (size payload / 256 ^ 2) `mod` 256;
                (size payload / 256 ^ 1) `mod` 256; (size payload / 256 ^ 0) `mod` 256]
               k0 k1 k2 k3 payload extra ltac:(unfold size in *; cbn [length]; lia) Hmax).
  - (* unmasked, 7-bit length *)
    apply (processMessage_parsed self first 0 (size payload) _ false 2 (size payload));
      try done; try lia.
    + apply read_header_7; lia.
    + unfold size in *. cbn [id app length]. rewrite ?length_app. lia.
    + exact (read_payload_unmasked [first; 0 + size payload] payload extra
               ltac:(unfold size in *; cbn [length]; lia)).
  - (* unmasked, 16-bit length *)
    apply (processMessage_parsed self first 0 126 _ false 4 (size payload));
      try done; try lia.
    + by apply read_header_16.
    + unfold size in *. cbn [id app length]. rewrite ?length_app. lia.
    + exact (read_payload_unmasked
               [first; 0 + 126; size payload / 256; size payload `mod` 256]
               payload extra ltac:(unfold size in *; cbn [length]; lia)).
  - (* unmasked, 64-bit length *)
    apply (processMessage_parsed self first 0 127 _ false 10 (size payload));
      try done; try lia.
    + by apply read_header_64.
    + unfold size in *. cbn [id app length]. rewrite ?length_app. lia.
    + exact (read_payload_unmasked
               [first; 0 + 127;
                (size payload / 256 ^ 7) `mod` 256; (size payload / 256 ^ 6) `mod` 256;
                (size payload / 256 ^ 5) `mod` 256; (size payload / 256 ^ 4) `mod` 256;
                (size payload / 256 ^ 3) `mod` 256; (size payload / 256 ^ 2) `mod` 256;
                (size payload / 256 ^ 1) `mod` 256; (size payload / 256 ^ 0) `mod` 256]
               payload extra ltac:(unfold size in *; cbn [length]; lia)).
Qed.

(** *** What [asyncSend] writes *)

Lemma shiftr_byte (n k : Z) :
  0 ≤ k → Z.land (n ≫ (k * 8)) 0xFF `mod` 256 = (n / 256 ^ k) `mod` 256.
Proof.
  intros Hk. rewrite land_255, Z.mod_mod by lia.
  rewrite Z.shiftr_div_pow2 by lia. do 2 f_equal.
  rewrite Z.mul_comm, Z.pow_mul_r by lia. done.
Qed.

Lemma asyncSend_frame_framed message :
  size message < 2 ^ 64 →
  asyncSend_frame message
  = framed 0x81 (shortest_form (size message)) (Some mask_key) (size message)
      (masked mask_key message).
Proof.
  intros Hlt. pose proof (size_nonneg message) as Hp.
  unfold asyncSend_frame, framed, shortest_form. cbn [app default id].
  f_equal. case_bool_decide as H1; [|case_bool_decide as H2]; cbn [length_field app].
  - f_equal. change 0x80 with (1 ≪ 7) at 1. rewrite lor_shiftl_add by lia.
    apply Z.mod_small. lia.
  - f_equal. f_equal.
    + pose proof (shiftr_byte (size message) 1 ltac:(lia)) as E.
      change (1 * 8) with 8 in E. rewrite E. change (256 ^ 1) with 256.
      apply Z.mod_small. split; [apply Z.div_pos; lia|].
      apply Z.div_lt_upper_bound; lia.
    + f_equal. pose proof (shiftr_byte (size message) 0 ltac:(lia)) as E.
      change (0 * 8) with 0 in E. rewrite Z.shiftr_0_r in E. rewrite E.
      change (256 ^ 0) with 1. by rewrite Z.div_1_r.
  - f_equal. cbn [fmap list_fmap].
    by rewrite !shiftr_byte by lia.
Qed.

Lemma framed_app first form (key : option (list Z)) n body extra :
  framed first form key n body ++ extra = framed first form key n (body ++ extra).
Proof. unfold framed. by rewrite <-app_comm_cons, <-!app_assoc. Qed.

(** X15.  The frame [send] builds is read back by [processMessage].  On an
    idle, connected and running client [send(message)] hands one frame to
    [async_write]; a chunk that begins with that frame is parsed to exactly
    [message], which goes to the callback when there is one.  Whatever
    follows the frame in the chunk is ignored. *)
Theorem X15_sent_frame_is_read_back (self peer : t) (message extra : list Z) :
  connected_ self = true → running_ self = true → send_queue_ self = [] →
  message ≠ [] → size message ≤ max_size → size message + 14 < 2 ^ 64 →
  ∃ frame,
    (send self message).2 = Some frame
    ∧ frame = asyncSend_frame message
    ∧ processMessage max_size peer (frame ++ extra)
      = Ok (peer, if message_callback_ peer then Deliver message else Nothing).
Proof.
  intros Hc Hr Hq Hne Hmax Hlt. exists (asyncSend_frame message).
  split; [|split; [done|]].
  - unfold send, asyncSend. rewrite Hc, Hq. simpl. by rewrite Hr.
  - rewrite asyncSend_frame_framed, framed_app by lia.
    rewrite (processMessage_framed peer 0x81 (shortest_form (size message))
               (Some mask_key) message extra).
    + unfold handle_payload. simpl. rewrite (bool_decide_eq_false_2 (message = [])) by done.
      by destruct (message_callback_ peer).
    + unfold shortest_form. pose proof (size_nonneg message).
      repeat case_bool_decide; simpl; lia.
    + done.
    + split; [|done]. by exists 0x12, 0x34, 0x56, 0x78.
Qed.

Lemma pong_frame_framed payload :
  pong_frame payload
  = if bool_decide (size payload ≤ 0xFFFF)
    then framed 0x8A (shortest_form (size payload)) None (size payload) payload
    else 0x8A :: payload.
Proof.
  pose proof (size_nonneg payload) as Hp.
  unfold pong_frame, framed, shortest_form. cbn [app default].
  repeat case_bool_decide; try lia; cbn [length_field app]; try done.
  - do 2 f_equal. apply Z.mod_small. lia.
  - do 2 f_equal. f_equal.
    + pose proof (shiftr_byte (size payload) 1 ltac:(lia)) as E.
      change (1 * 8) with 8 in E. rewrite E. change (256 ^ 1) with 256.
      apply Z.mod_small. split; [apply Z.div_pos; lia|].
      apply Z.div_lt_upper_bound; lia.
    + f_equal. pose proof (shiftr_byte (size payload) 0 ltac:(lia)) as E.
      change (0 * 8) with 0 in E. rewrite Z.shiftr_0_r in E. rewrite E.
      change (256 ^ 0) with 1. by rewrite Z.div_1_r.
Qed.

(** X16.  A chunk that begins with a whole unmasked frame, in any of the
    three length forms, is handled by the low four bits of its first byte
    alone: a close frame clears [connected_], a pong does nothing, and
    every other opcode but ping hands exactly the payload to the callback,
    if there is one and the payload is not empty.  The FIN bit, the
    reserved bits and whatever follows the frame in the chunk play no
    part. *)
Theorem X16_server_frame_by_opcode (self : t) (first : Z) (form : length_form)
    (payload extra : list Z) :
  fits form (size payload) → size payload + 14 < 2 ^ 64 →
  (Z.land first 0x0F = 0x8 →
   processMessage max_size self (framed first form None (size payload) payload ++ extra)
   = Ok (make (running_ self) false (send_queue_ self) (message_callback_ self),
         Nothing))
  ∧ (Z.land first 0x0F = 0xA →
     processMessage max_size self (framed first form None (size payload) payload ++ extra)
     = Ok (self, Nothing))
  ∧ (Z.land first 0x0F ∉ [0x8; 0x9; 0xA] →
     message_callback_ self = true → payload ≠ [] →
     processMessage max_size self (framed first form None (size payload) payload ++ extra)
     = Ok (self, Deliver payload))
  ∧ (Z.land first 0x0F ∉ [0x8; 0x9] →
     message_callback_ self = false ∨ payload = [] →
     processMessage max_size self (framed first form None (size payload) payload ++ extra)
     = Ok (self, Nothing)).
Proof.
  intros Hfits Hlt. rewrite framed_app.
  rewrite (processMessage_framed self first form None payload extra Hfits Hlt I).
  unfold handle_payload. repeat split.
  - intros ->. done.
  - intros ->. done.
  - intros Hop Hcb Hne.
    rewrite !bool_decide_eq_false_2, Hcb; try done;
      intros E; apply Hop; rewrite E; set_solver.
  - intros Hop Hor. rewrite !(bool_decide_eq_false_2 (Z.land first 15 = 8)),
      !(bool_decide_eq_false_2 (Z.land first 15 = 9)).
    + case_bool_decide; [done|].
      destruct Hor as [-> | ->]; [done|].
      rewrite bool_decide_eq_true_2 by done. by rewrite andb_false_r.
    + intros E. apply Hop. rewrite E. repeat constructor.
    + intros E. apply Hop. rewrite E. repeat constructor.
Qed.

(** X17.  A ping is answered with a pong that carries the same payload.
    For a payload of up to 65535 bytes the pong is a well-formed unmasked
    frame in the shortest length form; for a longer payload the pong has
    no length field at all, only the byte 0x8A followed by the payload. *)
Theorem X17_ping_is_answered (self : t) (first : Z) (form : length_form)
    (payload extra : list Z) :
  fits form (size payload) → size payload + 14 < 2 ^ 64 →
  Z.land first 0x0F = 0x9 →
  processMessage max_size self (framed first form None (size payload) payload ++ extra)
  = Ok (self,
        Pong (if bool_decide (size payload ≤ 0xFFFF)
              then framed 0x8A (shortest_form (size payload)) None (size payload) payload
              else 0x8A :: payload)).
Proof.
  intros Hfits Hlt Hop. rewrite framed_app.
  rewrite (processMessage_framed self first form None payload extra Hfits Hlt I).
  unfold handle_payload. rewrite Hop. simpl. by rewrite pong_frame_framed.
Qed.

(** *** Chunks that hold no whole frame *)

Lemma processMessage_dropped (self : t) (a mask_bit x : Z) rest (is_masked : bool) :
  mask_bit = (if is_masked then 128 else 0) → 0 ≤ x < 128 →
  match read_header (a :: mask_bit + x :: rest) x with
  | Ok None => True
  | Ok (Some (hs0, n)) =>
      0 ≤ hs0 ∧ 0 ≤ n ∧ (if is_masked then hs0 + 4 else hs0) + n < 2 ^ 64
      ∧ size (a :: mask_bit + x :: rest) < (if is_masked then hs0 + 4 else hs0) + n
  | _ => False
  end →
  processMessage max_size self (a :: mask_bit + x :: rest) = Ok (self, Nothing).
Proof.
  intros Hm Hx Hhdr. unfold processMessage.
  rewrite bool_decide_eq_false_2 by done.
  rewrite (at_idx (a :: mask_bit + x :: rest) 0 0 a eq_refl eq_refl),
    (at_idx (a :: mask_bit + x :: rest) 1 1 (mask_bit + x) eq_refl eq_refl).
  cbn [result_bind].
  destruct (second_byte_bits mask_bit x) as [E1 E2];
    [destruct is_masked; auto | done |].
  rewrite E1, E2.
  destruct (read_header (a :: mask_bit + x :: rest) x) as [[[hs0 n]|]| |];
    try done. cbn [result_bind].
  destruct Hhdr as (Hhs & Hn & Hwrap & Hshort).
  assert (negb (bool_decide (mask_bit = 0)) = is_masked) as ->.
  { subst mask_bit. by destruct is_masked. }
  assert (size_t ((if is_masked then hs0 + 4 else hs0) + n)
          = (if is_masked then hs0 + 4 else hs0) + n) as Est
    by (unfold size_t; apply Z.mod_small; destruct is_masked; lia).
  by rewrite bool_decide_eq_true_2 by (rewrite Est; lia).
Qed.

Lemma prefix_lookup (chunk rest frame : list Z) (i : nat) (v : Z) :
  frame = chunk ++ rest → frame !! i = Some v → (i < length chunk)%nat →
  chunk !! i = Some v.
Proof. intros -> H Hi. by rewrite lookup_app_l in H. Qed.

(** X18.  A chunk that holds only the beginning of a frame is dropped:
    [processMessage] returns without delivering anything and keeps nothing
    for the next call.  So a frame that arrives split over two reads, or
    that is longer than one read can hold, is lost. *)
Theorem X18_incomplete_frame_is_dropped (self : t) (first : Z) (form : length_form)
    (key : option (list Z)) (body chunk rest : list Z) :
  fits form (size body) → size body + 14 < 2 ^ 64 →
  match key with Some k => length k = 4%nat | None => True end →
  framed first form key (size body) body = chunk ++ rest → rest ≠ [] →
  processMessage max_size self chunk = Ok (self, Nothing).
Proof.
  intros Hfits Hlt Hkey Hsplit Hrest. pose proof (size_nonneg body) as Hp.
  assert (0 < size rest) as Hr by (unfold size; destruct rest; [done|simpl; lia]).
  set (is_masked := match key with Some _ => true | None => false end).
  set (mask_bit := match key with Some _ => 128 | None => 0 end).
  assert (mask_bit = if is_masked then 128 else 0) as Hmb by (by destruct key).
  assert (size (default [] key) = if is_masked then 4 else 0) as Hk.
  { unfold size, is_masked. destruct key; simpl; [by rewrite Hkey|done]. }
  assert (size chunk + size rest
          = 1 + size (length_field form mask_bit (size body))
            + (if is_masked then 4 else 0) + size body) as Hsz.
  { rewrite <-size_app, <-Hsplit. unfold framed. fold mask_bit.
    rewrite size_cons, !size_app, Hk. lia. }
  destruct chunk as [|a [|b chunk]].
  - done.
  - reflexivity.
  - unfold framed in Hsplit. fold mask_bit in Hsplit.
    destruct form; simpl in Hfits; cbn [length_field app fmap list_fmap] in Hsplit, Hsz.
    + (* 7-bit length *)
      injection Hsplit as <- <- Htl.
      apply (processMessage_dropped self first mask_bit (size body) chunk is_masked);
        [done | lia |].
      rewrite read_header_7 by lia.
      unfold size in *. cbn [length] in *. destruct is_masked; lia.
    + (* 16-bit length *)
      pose proof Hsplit as Hfull. injection Hsplit as <- <- Htl.
      apply (processMessage_dropped self first mask_bit 126 chunk is_masked);
        [done | lia |].
      destruct (decide (size (first :: mask_bit + 126 :: chunk) < 4)) as [Hshort|Hlong].
      * unfold read_header. simpl. by rewrite bool_decide_eq_true_2.
      * rewrite (read_header_16 _ (size body)).
        -- unfold size in *. cbn [length] in *. destruct is_masked; lia.
        -- done.
        -- eapply prefix_lookup; [exact Hfull|done|]. unfold size in *. simpl in *. lia.
        -- eapply prefix_lookup; [exact Hfull|done|]. unfold size in *. simpl in *. lia.
    + (* 64-bit length *)
      pose proof Hsplit as Hfull. injection Hsplit as <- <- Htl.
      apply (processMessage_dropped self first mask_bit 127 chunk is_masked);
        [done | lia |].
      destruct (decide (size (first :: mask_bit + 127 :: chunk) < 10)) as [Hshort|Hlong].
      * unfold read_header. simpl. by rewrite bool_decide_eq_true_2.
      * rewrite (read_header_64 _ (size body)).
        -- unfold size in *. cbn [length] in *. destruct is_masked; lia.
        -- done.
        -- eapply prefix_lookup; [exact Hfull|done|]. unfold size in *. simpl in *. lia.
        -- eapply prefix_lookup; [exact Hfull|done|]. unfold size in *. simpl in *. lia.
        -- eapply prefix_lookup; [exact Hfull|done|]. unfold size in *. simpl in *. lia.
        -- eapply prefix_lookup; [exact Hfull|done|]. unfold size in *. simpl in *. lia.
        -- eapply prefix_lookup; [exact Hfull|done|]. unfold size in *. simpl in *. lia.
        -- eapply prefix_lookup; [exact Hfull|done|]. unfold size in *. simpl in *. lia.
        -- eapply prefix_lookup; [exact Hfull|done|]. unfold size in *. simpl in *. lia.
        -- eapply prefix_lookup; [exact Hfull|done|]. unfold size in *. simpl in *. lia.
Qed.

(** *** Lengths near the top of [size_t] *)

(** X19.  The completeness check adds the header size to the announced
    length in [size_t], and the sum wraps around.  An unmasked frame that
    announces a length of 2^64 - 10 or more passes the check whatever
    arrived: all the bytes after the ten-byte header are taken as its
    payload.  A masked frame that announces 2^64 - 14 or more passes the
    check as well, and the [resize] of the payload to more than
    [max_size] throws. *)
Theorem X19_announced_length_wraps_around (self : t) (first n : Z)
    (key : option (list Z)) (rest : list Z) :
  size rest + 14 < 2 ^ 64 → n < 2 ^ 64 →
  match key with
  | None => 2 ^ 64 - 10 ≤ n
  | Some k => length k = 4%nat ∧ 2 ^ 64 - 14 ≤ n ∧ max_size < n
  end →
  processMessage max_size self (framed first Len64 key n rest)
  = match key with
    | None => Ok (handle_payload self first rest)
    | Some _ => Throw
    end.
Proof.
  intros Hrest Hn Hkey. pose proof (size_nonneg rest) as Hp.
  unfold framed. cbn [length_field app fmap list_fmap].
  unfold processMessage. rewrite bool_decide_eq_false_2 by done.
  set (mask_bit := match key with Some _ => 128 | None => 0 end).
  set (message := first :: mask_bit + 127 :: _).
  rewrite (at_idx message 0 0 first eq_refl eq_refl),
    (at_idx message 1 1 (mask_bit + 127) eq_refl eq_refl).
  cbn [result_bind].
  destruct (second_byte_bits mask_bit 127) as [E1 E2];
    [destruct key; auto | done |].
  rewrite E1, E2.
  rewrite (read_header_64 message n); try done; [|destruct key; lia].
  cbn [result_bind].
  destruct key as [k|]; subst mask_bit; simpl.
  - (* masked *)
    destruct Hkey as (Hk & Hbig & Hmax).
    destruct k as [|k0 [|k1 [|k2 [|k3 [|? ?]]]]]; try done.
    assert (size_t (10 + 4 + n) = 14 + n - 2 ^ 64) as Est.
    { unfold size_t. symmetry. apply (Z.mod_unique _ _ 1); lia. }
    rewrite bool_decide_eq_false_2
      by (rewrite Est; subst message; unfold size in *; simpl; lia).
    unfold read_payload, read_mask.
    rewrite (at_idx message 10 (10 + 4 - 4 + 0) k0 eq_refl eq_refl),
      (at_idx message 11 (10 + 4 - 4 + 1) k1 eq_refl eq_refl),
      (at_idx message 12 (10 + 4 - 4 + 2) k2 eq_refl eq_refl),
      (at_idx message 13 (10 + 4 - 4 + 3) k3 eq_refl eq_refl).
    cbn [result_bind]. by rewrite bool_decide_eq_true_2.
  - (* unmasked *)
    assert (size_t (10 + n) = 10 + n - 2 ^ 64) as Est.
    { unfold size_t. symmetry. apply (Z.mod_unique _ _ 1); lia. }
    assert (size message = 10 + size rest) as Hsz
      by (subst message; unfold size; simpl; lia).
    rewrite bool_decide_eq_false_2 by (rewrite Est, Hsz; lia).
    unfold read_payload.
    rewrite bool_decide_eq_true_2 by (rewrite Est, Hsz; lia).
    unfold substr. rewrite bool_decide_eq_false_2 by lia. cbn [result_bind].
    rewrite Hsz, Z.min_r by lia.
    replace (10 + size rest - 10) with (size rest) by lia.
    unfold size. rewrite Nat2Z.id. subst message. simpl.
    by rewrite firstn_all.
Qed.

End payloads.

End frame_facts.

Lemma X15_witness :
  ∃ frame,
    (WebSocketClient.send ex_client (bytes_of "{}")).2 = Some frame
    ∧ frame = WebSocketClient.asyncSend_frame (bytes_of "{}")
    ∧ WebSocketClient.processMessage 1000 ex_client (frame ++ [0x81; 0x00]%Z)
      = Ok (ex_client, WebSocketClient.Deliver (bytes_of "{}")).
Proof.
  apply (X15_sent_frame_is_read_back 1000 ex_client ex_client (bytes_of "{}")
           [0x81; 0x00]%Z); first [reflexivity | discriminate | by vm_compute].
Defined.

Lemma X16_witness :
  WebSocketClient.processMessage 1000 ex_client
    (framed 0x88 Len7 None (WebSocketClient.size [0x03; 0xE8]%Z) [0x03; 0xE8]%Z
     ++ [0x81; 0x00]%Z)
  = Ok (WebSocketClient.make true false [] true, WebSocketClient.Nothing).
Proof.
  destruct (X16_server_frame_by_opcode 1000 ex_client 0x88 Len7 [0x03; 0xE8]%Z
              [0x81; 0x00]%Z) as (H & _).
  - by vm_compute.
  - by vm_compute.
  - apply H. reflexivity.
Defined.

Lemma X17_witness :
  WebSocketClient.processMessage 1000 ex_client
    (framed 0x89 Len16 None (WebSocketClient.size (bytes_of "hb")) (bytes_of "hb") ++ [])
  = Ok (ex_client, WebSocketClient.Pong (0x8A :: 2 :: bytes_of "hb")%Z).
Proof.
  apply (X17_ping_is_answered 1000 ex_client 0x89 Len16 (bytes_of "hb") []).
  - by vm_compute.
  - by vm_compute.
  - reflexivity.
Defined.

Lemma X18_witness :
  WebSocketClient.processMessage 1000 ex_client ([0x81; 5] ++ bytes_of "Hel")%Z
  = Ok (ex_client, WebSocketClient.Nothing).
Proof.
  apply (X18_incomplete_frame_is_dropped 1000 ex_client 0x81 Len7 None
           (bytes_of "Hello") ([0x81; 5] ++ bytes_of "Hel")%Z (bytes_of "lo")).
  - by vm_compute.
  - by vm_compute.
  - exact I.
  - reflexivity.
  - discriminate.
Defined.

Lemma X19_witness :
  WebSocketClient.processMessage 1000 ex_client
    (framed 0x81 Len64 None (2 ^ 64 - 1) (bytes_of "Hel"))
  = Ok (ex_client, WebSocketClient.Deliver (bytes_of "Hel")).
Proof.
  apply (X19_announced_length_wraps_around 1000 ex_client 0x81 (2 ^ 64 - 1) None
           (bytes_of "Hel")); by vm_compute.
Defined.

(** * The handshake key *)

Section key_facts.
Import WebSocketClient.
Local Open Scope Z_scope.

Lemma land_63 (x : Z) : Z.land x 0x3F = x `mod` 64.
Proof. change 0x3F with (Z.ones 6). by rewrite Z.land_ones. Qed.

Lemma base64_char_elem (x : Z) : base64_char (Z.land x 0x3F) ∈ base64_chars.
Proof.
  rewrite land_63. pose proof (Z.mod_pos_bound x 64 ltac:(lia)) as Hx.
  unfold base64_char. apply list_elem_of_In, nth_In.
  change (length base64_chars) with 64%nat. lia.
Qed.

Lemma base64_char_inj (i j : Z) :
  0 ≤ i < 64 → 0 ≤ j < 64 → base64_char i = base64_char j → i = j.
Proof.
  intros Hi Hj E. unfold base64_char in E.
  assert (NoDup base64_chars) as Hnd by compute_done.
  apply NoDup_ListNoDup in Hnd.
  pose proof (proj1 (NoDup_nth base64_chars "000"%char) Hnd
                (Z.to_nat i) (Z.to_nat j)) as H.
  change (length base64_chars) with 64%nat in H.
  specialize (H ltac:(lia) ltac:(lia) E). lia.
Qed.

Lemma sextet_inj (t t' k : Z) :
  base64_char (Z.land (t ≫ k) 0x3F) = base64_char (Z.land (t' ≫ k) 0x3F) →
  0 ≤ k → (t / 2 ^ k) `mod` 64 = (t' / 2 ^ k) `mod` 64.
Proof.
  intros E Hk. rewrite !land_63, !Z.shiftr_div_pow2 in E by done.
  apply base64_char_inj in E; [done| |]; apply Z.mod_pos_bound; lia.
Qed.

(** The triplet of a round. *)
Lemma triplet3 (a0 a1 a2 : Z) :
  0 ≤ a0 < 256 → 0 ≤ a1 < 256 → 0 ≤ a2 < 256 →
  Z.lor (Z.lor (Z.lor 0 (a0 ≪ 16)) (a1 ≪ 8)) (a2 ≪ 0) = a0 * 65536 + a1 * 256 + a2.
Proof.
  intros H0 H1 H2. rewrite Z.lor_0_l, Z.shiftl_0_r.
  rewrite (Z.shiftl_mul_pow2 a1 8) by lia.
  rewrite lor_shiftl_add by (change (2 ^ 16) with 65536; change (2 ^ 8) with 256; lia).
  replace (a0 * 2 ^ 16 + a1 * 2 ^ 8) with ((a0 * 256 + a1) ≪ 8)
    by (rewrite Z.shiftl_mul_pow2 by lia; lia).
  rewrite lor_shiftl_add by (change (2 ^ 8) with 256; lia). lia.
Qed.

Lemma round3_inj (a0 a1 a2 b0 b1 b2 : Z) :
  0 ≤ a0 < 256 → 0 ≤ a1 < 256 → 0 ≤ a2 < 256 →
  0 ≤ b0 < 256 → 0 ≤ b1 < 256 → 0 ≤ b2 < 256 →
  let t := Z.lor (Z.lor (Z.lor 0 (a0 ≪ 16)) (a1 ≪ 8)) (a2 ≪ 0) in
  let t' := Z.lor (Z.lor (Z.lor 0 (b0 ≪ 16)) (b1 ≪ 8)) (b2 ≪ 0) in
  base64_char (Z.land (t ≫ 18) 0x3F) = base64_char (Z.land (t' ≫ 18) 0x3F) →
  base64_char (Z.land (t ≫ 12) 0x3F) = base64_char (Z.land (t' ≫ 12) 0x3F) →
  base64_char (Z.land (t ≫ 6) 0x3F) = base64_char (Z.land (t' ≫ 6) 0x3F) →
  base64_char (Z.land t 0x3F) = base64_char (Z.land t' 0x3F) →
  a0 = b0 ∧ a1 = b1 ∧ a2 = b2.
Proof.
  intros Ha0 Ha1 Ha2 Hb0 Hb1 Hb2 t t' E18 E12 E6 E0.
  subst t t'. rewrite !triplet3 in * by done.
  apply sextet_inj in E18, E12, E6; try lia.
  rewrite <-(Z.shiftr_0_r (_ + a2)), <-(Z.shiftr_0_r (_ + b2)) in E0.
  apply sextet_inj in E0; try lia.
  change (2 ^ 18) with 262144 in *. change (2 ^ 12) with 4096 in *.
  change (2 ^ 6) with 64 in *. change (2 ^ 0) with 1 in *.
  rewrite !Z.div_1_r in E0.
  Z.div_mod_to_equations. lia.
Qed.

Lemma round1_inj (a0 b0 : Z) :
  0 ≤ a0 < 256 → 0 ≤ b0 < 256 →
  let t := Z.lor 0 (a0 ≪ 16) in
  let t' := Z.lor 0 (b0 ≪ 16) in
  base64_char (Z.land (t ≫ 18) 0x3F) = base64_char (Z.land (t' ≫ 18) 0x3F) →
  base64_char (Z.land (t ≫ 12) 0x3F) = base64_char (Z.land (t' ≫ 12) 0x3F) →
  a0 = b0.
Proof.
  intros Ha0 Hb0 t t' E18 E12. subst t t'.
  rewrite !Z.lor_0_l, !Z.shiftl_mul_pow2 in * by lia.
  apply sextet_inj in E18, E12; try lia.
  change (2 ^ 18) with 262144 in *. change (2 ^ 12) with 4096 in *.
  change (2 ^ 16) with 65536 in *.
  Z.div_mod_to_equations. lia.
Qed.

(** X20.  The handshake key has 24 characters: 22 from the base64
    alphabet, then two padding characters. *)
Theorem X20_key_shape (dis : nat → Z) :
  ∃ body : list ascii,
    generateWebSocketKey dis = string_of_list_ascii (body ++ ["="; "="]%char)
    ∧ length body = 22%nat
    ∧ Forall (λ c, c ∈ base64_chars) body.
Proof.
  unfold generateWebSocketKey.
  cbv -[Z.lor Z.land Z.shiftl Z.shiftr base64_char Z.modulo string_of_list_ascii
        base64_chars elem_of].
  eexists (_ :: _ :: _ :: _ :: _ :: _ :: _ :: _ :: _ :: _ :: _ :: _ :: _ :: _
           :: _ :: _ :: _ :: _ :: _ :: _ :: _ :: [_]).
  split; [reflexivity|]. split; [reflexivity|].
  repeat (apply Forall_cons_2; [apply base64_char_elem|]). apply Forall_nil_2.
Qed.

(** X21.  The handshake key determines the sixteen random bytes it was
    made from: two runs that draw different bytes never produce the same
    key. *)
Theorem X21_key_determines_the_bytes (dis dis' : nat → Z) :
  generateWebSocketKey dis = generateWebSocketKey dis' →
  ∀ k, (k < 16)%nat → dis k `mod` 256 = dis' k `mod` 256.
Proof.
  intros E. unfold generateWebSocketKey in E.
  apply (f_equal list_ascii_of_string) in E.
  rewrite !list_ascii_of_string_of_list_ascii in E.
  cbv -[Z.lor Z.land Z.shiftl Z.shiftr base64_char Z.modulo base64_chars] in E.
  assert (∀ k, 0 ≤ dis k `mod` 256 < 256) as Hb by (intros k; apply Z.mod_pos_bound; lia).
  assert (∀ k, 0 ≤ dis' k `mod` 256 < 256) as Hb' by (intros k; apply Z.mod_pos_bound; lia).
  injection E as A0 A1 A2 A3 B0 B1 B2 B3 C0 C1 C2 C3 D0 D1 D2 D3 E0 E1 E2 E3 F0 F1.
  destruct (round3_inj _ _ _ _ _ _ (Hb _) (Hb _) (Hb _) (Hb' _) (Hb' _) (Hb' _)
              A0 A1 A2 A3) as (? & ? & ?).
  destruct (round3_inj _ _ _ _ _ _ (Hb _) (Hb _) (Hb _) (Hb' _) (Hb' _) (Hb' _)
              B0 B1 B2 B3) as (? & ? & ?).
  destruct (round3_inj _ _ _ _ _ _ (Hb _) (Hb _) (Hb _) (Hb' _) (Hb' _) (Hb' _)
              C0 C1 C2 C3) as (? & ? & ?).
  destruct (round3_inj _ _ _ _ _ _ (Hb _) (Hb _) (Hb _) (Hb' _) (Hb' _) (Hb' _)
              D0 D1 D2 D3) as (? & ? & ?).
  destruct (round3_inj _ _ _ _ _ _ (Hb _) (Hb _) (Hb _) (Hb' _) (Hb' _) (Hb' _)
              E0 E1 E2 E3) as (? & ? & ?).
  pose proof (round1_inj _ _ (Hb _) (Hb' _) F0 F1).
  intros k Hk. do 16 (destruct k as [|k]; [done|]). lia.
Qed.

End key_facts.

Lemma X21_witness : (ex_dis 3 `mod` 256 = (λ k, ex_dis k + 256) 3%nat `mod` 256)%Z.
Proof.
  apply (X21_key_determines_the_bytes ex_dis (λ k, ex_dis k + 256)%Z).
  - by vm_compute.
  - lia.
Defined.

(** * The visualizer *)

Section visualizer_facts.
Import ConsoleVisualizer.
Implicit Types (bids asks levels : list (double * double)).

(** ** Division of doubles *)

Lemma Qclt_irreflexive (x : double) : ¬ x < x.
Proof. intros H. apply Qclt_not_le in H. apply H, Qcle_refl. Qed.







(** ** The sums of a side *)








(** ** The change highlighting *)

Lemma previous_levels_from levels : ∀ (prev : gmap double double) (p : double),
  p ∉ levels.*1 →
  foldl (λ prev level, <[level.1 := level.2]> prev) prev levels !! p = prev !! p.
Proof.
  induction levels as [|[q y] levels IH]; intros prev p Hp; simpl; [done|].
  apply not_elem_of_cons in Hp as [Hne Hp]. rewrite IH by done.
  by rewrite lookup_insert_ne.
Qed.

Lemma previous_levels_None levels (p : double) :
  p ∉ levels.*1 → previous_levels levels !! p = None.
Proof. intros Hp. unfold previous_levels. by rewrite previous_levels_from. Qed.

Lemma previous_levels_Some levels (p x : double) :
  NoDup levels.*1 → (p, x) ∈ levels → previous_levels levels !! p = Some x.
Proof.
  unfold previous_levels. generalize (∅ : gmap double double).
  induction levels as [|[q y] levels IH]; intros prev Hnd Hin; [by apply elem_of_nil in Hin|].
  simpl in *. apply NoDup_cons in Hnd as [Hq Hnd].
  apply elem_of_cons in Hin as [[= -> ->]|Hin].
  - rewrite previous_levels_from by done. by rewrite lookup_insert_eq.
  - by apply IH.
Qed.

Lemma snapshot_prices_NoDup (comp : double → double → bool)
    (m : list (double * PriceLevel.t)) (depth : nat) :
  (∀ a, comp a a = false) → StdMap.sorted comp m →
  NoDup ((λ e, (e.1, PriceLevel.getTotalSize e.2)) <$> take depth m).*1.
Proof.
  intros Hirr Hsorted. apply NoDup_alt. intros i j p Hi Hj.
  rewrite list_lookup_fmap in Hi, Hj.
  apply fmap_Some in Hi as ([p1 x1] & Hi & ->).
  apply fmap_Some in Hj as ([p2 x2] & Hj & E). simpl in E. subst p2.
  apply snapshot_lookup in Hi as (l1 & Hi & _).
  apply snapshot_lookup in Hj as (l2 & Hj & _).
  destruct (lt_eq_lt_dec i j) as [[Hlt|Heq]|Hgt]; [|done|].
  - pose proof (sorted_lookup_lt comp m i j _ _ _ _ Hsorted Hlt Hi Hj) as E.
    by rewrite Hirr in E.
  - pose proof (sorted_lookup_lt comp m j i _ _ _ _ Hsorted Hgt Hj Hi) as E.
    by rewrite Hirr in E.
Qed.

Lemma getPriceChangeType_known (self : changes) (prev : gmap double double)
    (p x y : double) :
  highlight_changes_ self = true → prev !! p = Some x →
  getPriceChangeType self p y prev
  = if bool_decide (x < y) then INCREASED_SIZE
    else if bool_decide (y < x) then DECREASED_SIZE else NO_CHANGE.
Proof. intros Hh Hp. unfold getPriceChangeType. by rewrite Hh, Hp. Qed.

(** X24.  What the next [render] highlights, after one that drew the
    first [depth] levels of a reachable book.  A level drawn again with
    the same size is not highlighted; a drawn price with a larger size is
    INCREASED_SIZE, with a smaller size DECREASED_SIZE; a price that was
    not drawn is NEW_PRICE.  DELETED_PRICE is never the answer: a level
    that went away is not reported. *)
Theorem X24_highlighting_after_a_render (h : heap) (b : OrderBook.t) (depth : nat)
    (self : changes) :
  reachable h b →
  (∀ p x, (p, x) ∈ OrderBook.getBidLevels b depth →
     getPriceChangeType (drawn self b depth) p x (prev_bids_ (drawn self b depth))
     = NO_CHANGE)
  ∧ (∀ p x, (p, x) ∈ OrderBook.getAskLevels b depth →
       getPriceChangeType (drawn self b depth) p x (prev_asks_ (drawn self b depth))
       = NO_CHANGE)
  ∧ (highlight_changes_ self = true →
     (∀ p x y, (p, x) ∈ OrderBook.getBidLevels b depth → x < y →
        getPriceChangeType (drawn self b depth) p y (prev_bids_ (drawn self b depth))
        = INCREASED_SIZE)
     ∧ (∀ p x y, (p, x) ∈ OrderBook.getBidLevels b depth → y < x →
          getPriceChangeType (drawn self b depth) p y (prev_bids_ (drawn self b depth))
          = DECREASED_SIZE)
     ∧ (∀ p y, p ∉ (OrderBook.getBidLevels b depth).*1 →
          getPriceChangeType (drawn self b depth) p y (prev_bids_ (drawn self b depth))
          = NEW_PRICE))
  ∧ (∀ (v : changes) p y prev, getPriceChangeType v p y prev ≠ DELETED_PRICE).
Proof.
  intros [(Hs & _ & _) _]%reachable_inv.
  assert (NoDup (OrderBook.getBidLevels b depth).*1) as Hb.
  { destruct (Hs BUY) as [Hsorted _].
    apply (snapshot_prices_NoDup StdMap.greater); [|done].
    intros a. apply bool_decide_eq_false_2, Qclt_irreflexive. }
  assert (NoDup (OrderBook.getAskLevels b depth).*1) as Ha.
  { destruct (Hs SELL) as [Hsorted _].
    apply (snapshot_prices_NoDup StdMap.less); [|done].
    intros a. apply bool_decide_eq_false_2, Qclt_irreflexive. }
  assert (∀ x : double, ¬ x < x) as Hirr by apply Qclt_irreflexive.
  split; [|split; [|split]].
  - intros p x Hin. unfold getPriceChangeType, drawn. simpl.
    destruct (highlight_changes_ self); [|done]. simpl.
    rewrite (previous_levels_Some _ p x Hb Hin).
    by rewrite !bool_decide_eq_false_2.
  - intros p x Hin. unfold getPriceChangeType, drawn. simpl.
    destruct (highlight_changes_ self); [|done]. simpl.
    rewrite (previous_levels_Some _ p x Ha Hin).
    by rewrite !bool_decide_eq_false_2.
  - intros Hh. split; [|split].
    + intros p x y Hin Hlt.
      rewrite (getPriceChangeType_known _ _ p x y); [|done|].
      * by rewrite bool_decide_eq_true_2.
      * by apply previous_levels_Some.
    + intros p x y Hin Hlt.
      rewrite (getPriceChangeType_known _ _ p x y); [|done|].
      * rewrite bool_decide_eq_false_2, bool_decide_eq_true_2; [done|done|].
        by apply Qcle_not_lt, Qclt_le_weak.
      * by apply previous_levels_Some.
    + intros p y Hp. unfold getPriceChangeType, drawn. simpl. rewrite Hh. simpl.
      by rewrite previous_levels_None.
  - intros v p y prev. unfold getPriceChangeType.
    destruct (highlight_changes_ v); simpl; [|done].
    destruct (prev !! p); [|done]. by repeat case_bool_decide.
Qed.

End visualizer_facts.



Lemma X24_witness :
  ConsoleVisualizer.getPriceChangeType (drawn ex_changes ex_two_sided.2 10)
    (dec 99 1) (dec 5 2)
    (ConsoleVisualizer.prev_bids_ (drawn ex_changes ex_two_sided.2 10))
  = ConsoleVisualizer.NO_CHANGE.
Proof.
  destruct (X24_highlighting_after_a_render ex_two_sided.1 ex_two_sided.2 10 ex_changes)
    as [H _]; [exact ex_two_sided_reachable|].
  apply H. compute_done.
Defined.
